(** * d3m-pipeline-regressor: the batching and DAG-execution core

    A shallow embedding of [dna/data.py] (structural key encoder, grouping
    index, per-group sampler, grouped batch loader) and of
    [DNASiameseModule] in [dna/models/models.py], with the properties the
    specification states about them.

    Python values are modelled as follows.
    - JSON data ([json.load] output) is the inductive [json]; a dict is an
      association list in insertion order, looked up by first match.
    - A Python exception is a constructor of [exn]; fallible code returns
      [result]; code that can also leave through [SystemExit] returns
      [outcome].
    - [random.Random] is the interface [PyRandom]; its CPython
      implementation (MT19937) is the instance [MT.mt_random].
    - The tensor library that the datasets and the loaders call is the
      interface [TorchTensor], with the exceptions it may raise; the
      examples use a stand-in that keeps the JSON data.
    - Objects that are mutated in place (samplers, loaders) are records
      threaded through the operations that mutate them. *)

From Stdlib Require Import String Ascii DecimalString.
From Stdlib Require Import ZArith QArith Bool Arith PeanoNat Lia List Permutation.
Import ListNotations.

Open Scope string_scope.
Open Scope list_scope.
Open Scope nat_scope.

(** ** Python exceptions and results *)

Inductive exn : Type :=
| KeyError (key : string)
| TypeError
| IndexError
| ValueError
| AttributeError
| UnboundLocalError
| RecursionError
| RuntimeError (msg : string)
| StopIteration.

Inductive result (A : Type) : Type :=
| Ok (a : A)
| Err (e : exn).
Arguments Ok {A} a.
Arguments Err {A} e.

Definition is_ok {A : Type} (r : result A) : bool :=
  match r with
  | Ok _ => true
  | Err _ => false
  end.

Definition bind {A B : Type} (r : result A) (k : A -> result B) : result B :=
  match r with
  | Ok a => k a
  | Err e => Err e
  end.

Notation "'let*' x ':=' r 'in' k" := (bind r (fun x => k))
  (at level 10, x name, r at level 100, k at level 200).

(** ** Structural key encoder ([encode_dag], data.py:153-164) *)

(** An edge of a pipeline DAG: an index into the step list, or a name such
    as ["inputs.0"], the external input. *)
Inductive reference : Type :=
| RefIndex (i : Z)
| RefName (s : string).

(** [str(edge)]: decimal digits for an int, the string itself for a str. *)
Definition py_str (edge : reference) : string :=
  match edge with
  | RefIndex i => NilZero.string_of_int (Z.to_int i)
  | RefName s => s
  end.

(** [''.join(''.join(str(edge) for edge in vertex) for vertex in dag)] *)
Definition encode_dag (dag : list (list reference)) : string :=
  String.concat "" (map (fun vertex => String.concat "" (map py_str vertex)) dag).

(** ** JSON values *)

#[local] Set Warnings "-register-all".

Inductive json : Type :=
| JNull
| JBool (b : bool)
| JInt (z : Z)
| JFloat (q : Q)
| JStr (s : string)
| JList (l : list json)
| JDict (d : list (string * json)).

Fixpoint assoc_get {V : Type} (k : string) (d : list (string * V)) : option V :=
  match d with
  | [] => None
  | (k', v) :: d' => if String.eqb k' k then Some v else assoc_get k d'
  end.

(** [obj[key]] for a str [key]: only a dict can be subscripted by a str. *)
Definition py_getitem (obj : json) (key : string) : result json :=
  match obj with
  | JDict d =>
      match assoc_get key d with
      | Some v => Ok v
      | None => Err (KeyError key)
      end
  | _ => Err TypeError
  end.

(** [s.split(sep)] for a one-character separator: never the empty list. *)
Fixpoint py_split (sep : ascii) (s : string) : list string :=
  match s with
  | EmptyString => [EmptyString]
  | String c rest =>
      if Ascii.eqb c sep then EmptyString :: py_split sep rest
      else match py_split sep rest with
           | [] => [String c EmptyString]
           | w :: ws => String c w :: ws
           end
  end.

(** Hashable JSON values: everything but lists and dicts. *)
Definition py_hashable (v : json) : bool :=
  match v with
  | JList _ | JDict _ => false
  | _ => true
  end.

(** Numeric value of a bool, int or (finite) float: Python compares and
    hashes these by value, so [True], [1] and [1.0] are one dict key. *)
Definition py_number (v : json) : option Q :=
  match v with
  | JBool b => Some (if b then 1%Q else 0%Q)
  | JInt z => Some (inject_Z z)
  | JFloat q => Some q
  | _ => None
  end.

(** Equality of dict keys ([==] on hashable JSON values). *)
Definition py_key_eqb (a b : json) : bool :=
  match py_number a, py_number b with
  | Some p, Some q => Qeq_bool p q
  | None, None =>
      match a, b with
      | JNull, JNull => true
      | JStr s, JStr t => String.eqb s t
      | _, _ => false
      end
  | _, _ => false
  end.

(** ** Insertion-ordered dicts keyed by JSON values *)

Definition pydict (V : Type) : Type := list (json * V).

Fixpoint dict_get {V : Type} (k : json) (d : pydict V) : option V :=
  match d with
  | [] => None
  | (k', v) :: d' => if py_key_eqb k' k then Some v else dict_get k d'
  end.

Definition dict_mem {V : Type} (k : json) (d : pydict V) : bool :=
  match dict_get k d with
  | Some _ => true
  | None => false
  end.

(** [d[k] = v]: overwrite in place when present, append otherwise. *)
Fixpoint dict_set {V : Type} (k : json) (v : V) (d : pydict V) : pydict V :=
  match d with
  | [] => [(k, v)]
  | (k', v') :: d' =>
      if py_key_eqb k' k then (k', v) :: d' else (k', v') :: dict_set k v d'
  end.

(** ** Grouping index ([group_json_objects], data.py:16-41) *)

(** [group = obj; for key_part in path: group = group[key_part]] *)
Definition get_path (obj : json) (path : list string) : result json :=
  fold_left (fun group key_part => let* g := group in py_getitem g key_part)
            path (Ok obj).

(** The group of one object: the value at the dotted path, which the
    membership test [group in grouped_objects] then hashes. *)
Definition group_of (group_key : string) (obj : json) : result json :=
  let* group := get_path obj (py_split "." group_key) in
  if py_hashable group then Ok group else Err TypeError.

(** One round of the loop body at index [i]. *)
Definition group_step (group_key : string) (grouped_objects : pydict (list nat))
    (i : nat) (obj : json) : result (pydict (list nat)) :=
  let* group := group_of group_key obj in
  let grouped_objects :=
    if negb (dict_mem group grouped_objects)
    then dict_set group [] grouped_objects
    else grouped_objects in
  match dict_get group grouped_objects with
  | Some l => Ok (dict_set group (l ++ [i]) grouped_objects)
  | None => Err (KeyError "")
  end.

Fixpoint group_loop (group_key : string) (grouped_objects : pydict (list nat))
    (i : nat) (json_objects : list json) : result (pydict (list nat)) :=
  match json_objects with
  | [] => Ok grouped_objects
  | obj :: rest =>
      let* grouped_objects := group_step group_key grouped_objects i obj in
      group_loop group_key grouped_objects (S i) rest
  end.

Definition group_json_objects (json_objects : list json) (group_key : string)
  : result (pydict (list nat)) :=
  group_loop group_key [] 0 json_objects.

(** ** DAG execution engine ([DNASiameseModule], models.py:461-505) *)

(** A pipeline step, [{'name': ..., 'inputs': [...]}]. *)
Record Step : Type := { name : string; inputs : list reference }.

(** [l[i]] on a list: negative indices count from the end, a str index is
    a [TypeError], anything out of range an [IndexError]. *)
Definition py_list_index {A : Type} (l : list A) (i : reference) : result A :=
  match i with
  | RefName _ => Err TypeError
  | RefIndex z =>
      let n := Z.of_nat (length l) in
      let pos := if (z <? 0)%Z then (z + n)%Z else z in
      if ((0 <=? pos) && (pos <? n))%Z%bool then
        match nth_error l (Z.to_nat pos) with
        | Some a => Ok a
        | None => Err IndexError
        end
      else Err IndexError
  end.

(** ["inputs.0" in inputs] *)
Definition has_external_input (refs : list reference) : bool :=
  existsb (fun r => match r with
                    | RefName s => String.eqb s "inputs.0"
                    | RefIndex _ => false
                    end) refs.

Section DNASiameseModule.

(** Tensors and the torch operations on them are parameters. The table
    [F_ACTIVATIONS] and the constant [ACTIVATION] that select
    [f_activation] are not defined in models.py. *)
Variable tensor : Type.
Variable submodules : string -> option (tensor -> result tensor).
Variable f_activation : tensor -> tensor.
(** [torch.cat(tuple(outputs), dim=1)] *)
Variable torch_cat : list tensor -> result tensor.

(** How a call leaves: a value, an exception, or [SystemExit], which
    [except Exception] does not intercept. *)
Inductive outcome : Type :=
| Return (v : tensor)
| Raise (e : exn)
| SystemExit (code : Z).

(** Lines written to standard output by the handler. *)
Inductive event : Type :=
| PrintError (e : exn)
| PrintStep (s : Step).

Definition of_result (r : result tensor) : outcome :=
  match r with
  | Ok v => Return v
  | Err e => Raise e
  end.

(** The [for input in ...] loop: collects the outputs, or stops at the
    first call that does not return. *)
Fixpoint collect_outputs (call : reference -> list event * outcome)
    (refs : list reference) (outputs : list tensor)
  : list event * (list tensor + outcome) :=
  match refs with
  | [] => ([], inl outputs)
  | input :: rest =>
      match call input with
      | (log, Return curr_output) =>
          let (log', r) := collect_outputs call rest (outputs ++ [curr_output]) in
          (log ++ log', r)
      | (log, stop) => (log, inr stop)
      end
  end.

(** The body of the [try] block, with [call] the recursive call. *)
Definition try_body (call : reference -> list event * outcome) (h1 : tensor)
    (pipeline : list Step) (current_index : reference) : list event * outcome :=
  match py_list_index pipeline current_index with
  | Err e => ([], Raise e)
  | Ok step =>
      match submodules (name step) with
      | None => ([], Raise (KeyError (name step)))
      | Some current_submodule =>
          if has_external_input (inputs step) then
            ([], of_result (let* u := current_submodule h1 in Ok (f_activation u)))
          else
            match collect_outputs call (inputs step) [] with
            | (log, inr stop) => (log, stop)
            | (log, inl outputs) =>
                if 1 <? length outputs then
                  (log, of_result (let* c := torch_cat outputs in
                                   let* u := current_submodule c in
                                   Ok (f_activation u)))
                else
                  match last (map Some outputs) None with
                  | None => (log, Raise UnboundLocalError)
                  | Some curr_output =>
                      (log, of_result (let* u := current_submodule curr_output in
                                       Ok (f_activation u)))
                  end
            end
      end
  end.

(** The [except Exception as e] handler: two prints, then [quit(1)]. The
    second print evaluates [pipeline[current_index]] again. *)
Definition handler (pipeline : list Step) (current_index : reference)
    (log : list event) (e : exn) : list event * outcome :=
  match py_list_index pipeline current_index with
  | Ok step => (log ++ [PrintError e; PrintStep step], SystemExit 1)
  | Err e' => (log ++ [PrintError e], Raise e')
  end.

(** [depth] is the number of frames the interpreter still allows: a call
    beyond it raises [RecursionError] in the caller. *)
Fixpoint recursive_get_output (depth : nat) (h1 : tensor)
    (pipeline : list Step) (current_index : reference) : list event * outcome :=
  match depth with
  | O => ([], Raise RecursionError)
  | S depth' =>
      match try_body (recursive_get_output depth' h1 pipeline) h1
                     pipeline current_index with
      | (log, Raise e) => handler pipeline current_index log e
      | done => done
      end
  end.

Variable input_type : Type.
Variable input_model : input_type -> result tensor.
Variable output_model : tensor -> result tensor.

(** [forward]: both branches from one encoding [h1], then the output
    model on their concatenation. *)
Definition forward (depth : nat)
    (args : json * (list Step * list Step) * input_type) : list event * outcome :=
  let '(pipeline_ids, (left_pipeline, right_pipeline), x) := args in
  match input_model x with
  | Err e => ([], Raise e)
  | Ok h1 =>
      match recursive_get_output depth h1 left_pipeline
              (RefIndex (Z.of_nat (length left_pipeline) - 1)) with
      | (log, Return left_h2) =>
          match recursive_get_output depth h1 right_pipeline
                  (RefIndex (Z.of_nat (length right_pipeline) - 1)) with
          | (log', Return right_h2) =>
              (log ++ log',
               of_result (let* h2 := torch_cat [left_h2; right_h2] in output_model h2))
          | (log', stop) => (log ++ log', stop)
          end
      | (log, stop) => (log, stop)
      end
  end.

End DNASiameseModule.

Arguments Return {tensor} v.
Arguments Raise {tensor} e.
Arguments SystemExit {tensor} code.

(** ** Random streams ([random.Random]) *)

(** One [random.Random] object: its state, [Random(); seed(a)] and
    [_randbelow(n)], which for [n > 0] returns a value in [range(n)]
    together with the advanced state. *)
Class PyRandom : Type := {
  rng : Type;
  rng_seed : Z -> rng;
  rng_randbelow : Z -> rng -> Z * rng
}.

(** The contract of [_randbelow]. *)
Definition randbelow_in_range (R : PyRandom) : Prop :=
  forall (n : Z) (r : rng), (0 < n)%Z -> (0 <= fst (rng_randbelow n r) < n)%Z.

(** [x[i] = a] *)
Fixpoint list_set {A : Type} (i : nat) (a : A) (x : list A) : list A :=
  match x, i with
  | [], _ => []
  | _ :: x', O => a :: x'
  | b :: x', S i' => b :: list_set i' a x'
  end.

(** [x[i], x[j] = x[j], x[i]]; [_randbelow]'s contract keeps [j <= i], so
    both subscripts are in range wherever [shuffle] uses it. *)
Definition swap {A : Type} (i j : nat) (x : list A) : list A :=
  match nth_error x i, nth_error x j with
  | Some xi, Some xj => list_set j xi (list_set i xj x)
  | _, _ => x
  end.

Section Random.
Context {R : PyRandom}.

(** [randint(a, b)] is [a + _randbelow(b - a + 1)]. *)
Definition randint (a b : Z) (r : rng) : Z * rng :=
  let (k, r') := rng_randbelow (b - a + 1) r in ((a + k)%Z, r').

(** [for i in reversed(range(1, len(x))): j = randbelow(i + 1); swap] *)
Fixpoint shuffle_loop {A : Type} (i : nat) (x : list A) (r : rng) : list A * rng :=
  match i with
  | O => (x, r)
  | S i' =>
      let (j, r') := rng_randbelow (Z.of_nat i + 1) r in
      shuffle_loop i' (swap i (Z.to_nat j) x) r'
  end.

Definition shuffle {A : Type} (x : list A) (r : rng) : list A * rng :=
  shuffle_loop (length x - 1) x r.

(** ** Per-group sampler ([RandomSampler], data.py:250-273) *)

Record RandomSampler : Type := {
  rs_n : nat;
  rs_indices : list nat;
  rs_random : rng
}.

(** [__init__(n, seed)] *)
Definition RandomSampler_init (n : nat) (seed : Z) : RandomSampler :=
  {| rs_n := n; rs_indices := seq 0 n; rs_random := rng_seed seed |}.

(** [__iter__]: shuffles [_indices] in place with the sampler's own
    stream and hands out the indices in their new order. *)
Definition RandomSampler_iter (s : RandomSampler) : list nat * RandomSampler :=
  let (indices, r) := shuffle (rs_indices s) (rs_random s) in
  (indices, {| rs_n := rs_n s; rs_indices := indices; rs_random := r |}).

Definition RandomSampler_len (s : RandomSampler) : nat := rs_n s.

(** The first [k] permutations of a sampler that is used on its own. *)
Fixpoint sampler_stream (k : nat) (s : RandomSampler) : list (list nat) :=
  match k with
  | O => []
  | S k' => let (p, s') := RandomSampler_iter s in p :: sampler_stream k' s'
  end.

(** *** Samplers in a shared interpreter

    All sampler objects alive in the interpreter, addressed by position,
    next to the stream behind the module-level functions of [random]. *)
Record world : Type := {
  global_random : rng;
  heap : list RandomSampler
}.

Inductive op : Type :=
| OpNew (n : nat) (seed : Z)
| OpIter (id : nat)
| OpGlobalSeed (seed : Z)
| OpGlobalRandbelow (n : Z)
| OpGlobalShuffle (n : nat).

(** One operation, with the permutation it hands out when it is an
    iteration request on a live sampler. *)
Definition step (w : world) (o : op) : world * option (nat * list nat) :=
  match o with
  | OpNew n seed =>
      ({| global_random := global_random w;
          heap := heap w ++ [RandomSampler_init n seed] |}, None)
  | OpIter id =>
      match nth_error (heap w) id with
      | Some s =>
          let (p, s') := RandomSampler_iter s in
          ({| global_random := global_random w;
              heap := list_set id s' (heap w) |}, Some (id, p))
      | None => (w, None)
      end
  | OpGlobalSeed seed =>
      ({| global_random := rng_seed seed; heap := heap w |}, None)
  | OpGlobalRandbelow n =>
      ({| global_random := snd (rng_randbelow n (global_random w));
          heap := heap w |}, None)
  | OpGlobalShuffle n =>
      ({| global_random := snd (shuffle (seq 0 n) (global_random w));
          heap := heap w |}, None)
  end.

Fixpoint run (w : world) (ops : list op) : world * list (nat * list nat) :=
  match ops with
  | [] => (w, [])
  | o :: rest =>
      let (w', obs) := step w o in
      let (w'', trace) := run w' rest in
      (w'', match obs with Some x => x :: trace | None => trace end)
  end.

(** The permutations handed out by sampler [id], in order. *)
Definition permutations_of (id : nat) (trace : list (nat * list nat)) : list (list nat) :=
  map snd (filter (fun x => Nat.eqb (fst x) id) trace).

End Random.

(** ** Datasets ([Dataset], [RNNDataset], data.py:206-410) *)

(** The two dtypes that the datasets ask for. *)
Inductive dtype : Type :=
| float32
| int64.

(** The tensor library is code outside the repository: its tensors, the
    constructor [torch.tensor(data, dtype=..., device=...)], which raises
    on data that it cannot turn into a tensor of that dtype on that
    device, [tensor.cuda()], and [torch.stack], by which the default
    collation of a batch source turns the tensors of the items of a batch
    into one tensor and which raises when their sizes differ. The device
    is [None] where the call names none. *)
Class TorchTensor : Type := {
  Tensor : Type;
  torch_tensor : json -> dtype -> option string -> result Tensor;
  Tensor_cuda : Tensor -> result Tensor;
  torch_stack : list Tensor -> result Tensor
}.

(** A dataset class that keeps its records in [self.data]: what
    [__getitem__] returns for that data and an index. *)
Definition dataset_class (item : Type) : Type := list json -> nat -> result item.

Definition list_getitem {A : Type} (l : list A) (i : nat) : result A :=
  match nth_error l i with
  | Some a => Ok a
  | None => Err IndexError
  end.

(** [self._y_dtype], which [__init__] sets for these two task types
    only. *)
Definition _y_dtype (task_type : string) : option dtype :=
  if String.eqb task_type "CLASSIFICATION" then Some int64
  else if String.eqb task_type "REGRESSION" then Some float32
  else None.

(** [Dataset.__getitem__]: the pair [(x, y)] of the tensors built from
    the features and from the target of the record. *)
Definition Dataset_getitem {T : TorchTensor}
    (features_key target_key task_type device : string)
  : dataset_class (Tensor * Tensor) :=
  fun data item =>
    let* record := list_getitem data item in
    let* features := py_getitem record features_key in
    let* x := torch_tensor features float32 (Some device) in
    let* target := py_getitem record target_key in
    match _y_dtype task_type with
    | Some y_dtype =>
        let* y := torch_tensor target y_dtype (Some device) in
        Ok (x, y)
    | None => Err AttributeError
    end.

(** Iterating a JSON value: the elements of a list, the keys of a dict,
    the characters of a str. *)
Definition py_iter (v : json) : result (list json) :=
  match v with
  | JList l => Ok l
  | JDict d => Ok (map (fun kv => JStr (fst kv)) d)
  | JStr s => Ok (map (fun c => JStr (String c EmptyString)) (list_ascii_of_string s))
  | _ => Err TypeError
  end.

Fixpoint mapM {A B : Type} (f : A -> result B) (l : list A) : result (list B) :=
  match l with
  | [] => Ok []
  | a :: l' => let* b := f a in let* bs := mapM f l' in Ok (b :: bs)
  end.

(** [primitive_to_enc[name]] on a dict with str keys. *)
Definition enc_lookup (primitive_to_enc : list (string * json)) (name : json) : result json :=
  match name with
  | JStr s =>
      match assoc_get s primitive_to_enc with
      | Some e => Ok e
      | None => Err (KeyError s)
      end
  | _ => if py_hashable name then Err (KeyError "") else Err TypeError
  end.

(** [sub in s] on strs: [sub] occurs in [s]. *)
Fixpoint py_in_str (sub s : string) : bool :=
  String.prefix sub s ||
  match s with
  | EmptyString => false
  | String _ s' => py_in_str sub s'
  end.

(** The loop of [RNNDataset.encode_pipeline]: the list [encoding]. *)
Definition encode_primitives (primitive_to_enc : list (string * json)) (pipeline : json)
  : result (list json) :=
  let* steps := py_getitem pipeline "steps" in
  let* primitives := py_iter steps in
  mapM (fun primitive => let* primitive_name := py_getitem primitive "name" in
                         enc_lookup primitive_to_enc primitive_name) primitives.

(** What follows the loop: [torch.tensor(encoding, dtype=torch.float32)],
    moved by [.cuda()] when the device names cuda. *)
Definition encoding_tensor {T : TorchTensor} (device : string) (encoding : list json)
  : result Tensor :=
  let* encoding := torch_tensor (JList encoding) float32 None in
  if py_in_str "cuda" device then Tensor_cuda encoding else Ok encoding.

(** [RNNDataset.encode_pipeline] *)
Definition encode_pipeline {T : TorchTensor} (primitive_to_enc : list (string * json))
    (device : string) (pipeline : json) : result Tensor :=
  let* encoding := encode_primitives primitive_to_enc pipeline in
  encoding_tensor device encoding.

(** [RNNDataset.__getitem__]: the triple [(encoded_pipeline, x, y)]. *)
Definition RNNDataset_getitem {T : TorchTensor}
    (features_key target_key task_type device : string)
    (prim_to_enc : list (string * json)) : dataset_class (Tensor * Tensor * Tensor) :=
  fun data index =>
    let* xy := Dataset_getitem features_key target_key task_type device data index in
    let* item := list_getitem data index in
    let* pipeline := py_getitem item "pipeline" in
    let* encoded_pipeline := encode_pipeline prim_to_enc device pipeline in
    Ok (encoded_pipeline, fst xy, snd xy).

(** ** [torch.utils.data.DataLoader] *)

(** Modelled from the spec: [torch.utils.data.DataLoader] and its
    [BatchSampler] are library code outside the repository. Per section
    4.4, a batch source chunks the (optionally shuffled) indices of its
    dataset into batches of the configured size and optionally drops a
    final undersized batch; without a sampler the indices come in order. *)
Fixpoint batch_loop (batch_size : nat) (drop_last : bool) (batch : list nat)
    (indices : list nat) : list (list nat) :=
  match indices with
  | [] => if (0 <? length batch) && negb drop_last then [batch] else []
  | idx :: rest =>
      let batch := batch ++ [idx] in
      if length batch =? batch_size
      then batch :: batch_loop batch_size drop_last [] rest
      else batch_loop batch_size drop_last batch rest
  end.

Section Loaders.
Context {R : PyRandom}.
Variable item : Type.

Record DataLoader : Type := {
  dl_dataset : list json;
  dl_sampler : option RandomSampler;
  dl_batch_size : nat;
  dl_drop_last : bool
}.

(** Modelled from the spec: the constructor of the library's batch
    source; it rejects a batch size that is not positive. *)
Definition DataLoader_init (dataset : list json) (sampler : option RandomSampler)
    (batch_size : nat) (drop_last : bool) : result DataLoader :=
  if batch_size =? 0 then Err ValueError
  else Ok {| dl_dataset := dataset; dl_sampler := sampler;
             dl_batch_size := batch_size; dl_drop_last := drop_last |}.

(** Modelled from the spec: [len(sampler)] of the library's batch source,
    the sampler's [__len__] or else the dataset's length. *)
Definition sampler_len (dl : DataLoader) : nat :=
  match dl_sampler dl with
  | Some s => RandomSampler_len s
  | None => length (dl_dataset dl)
  end.

(** Modelled from the spec: [len(dataloader)], the number of batches:
    [n // batch_size] when the last incomplete batch is dropped, else
    [(n + batch_size - 1) // batch_size]. *)
Definition DataLoader_len (dl : DataLoader) : nat :=
  if dl_drop_last dl then sampler_len dl / dl_batch_size dl
  else (sampler_len dl + dl_batch_size dl - 1) / dl_batch_size dl.

(** Modelled from the spec: [iter(dataloader)], the index batches of one
    pass. A [RandomSampler] is asked for a new permutation, which advances
    its stream. *)
Definition DataLoader_iter (dl : DataLoader) : list (list nat) * DataLoader :=
  match dl_sampler dl with
  | Some s =>
      let (indices, s') := RandomSampler_iter s in
      (batch_loop (dl_batch_size dl) (dl_drop_last dl) [] indices,
       {| dl_dataset := dl_dataset dl; dl_sampler := Some s';
          dl_batch_size := dl_batch_size dl; dl_drop_last := dl_drop_last dl |})
  | None =>
      (batch_loop (dl_batch_size dl) (dl_drop_last dl) []
                  (seq 0 (length (dl_dataset dl))), dl)
  end.

(** ** Grouped batch loader ([GroupDataLoader], data.py:276-381) *)

Record GroupDataLoader : Type := {
  gdl_data : list json;
  gdl_group_key : string;
  gdl_dataset_class : dataset_class item;
  gdl_batch_size : nat;
  gdl_drop_last : bool;
  gdl_shuffle : bool;
  gdl_seed : Z;
  gdl_random : rng;
  gdl_group_dataloaders : pydict DataLoader;
  gdl_group_batches : list json
}.

(** Modelled from the spec: the items of one index batch, fetched in
    order through the dataset's [__getitem__]. Their collation into a
    batch depends on what the items are and is done where the batch is
    taken apart, in [GroupDataLoader_emit] and [RNNDataLoader_emit]. *)
Definition fetch (getitem : dataset_class item) (dl : DataLoader) (batch : list nat)
  : result (list item) :=
  mapM (getitem (dl_dataset dl)) batch.

(** [self._random.randint(0, 2**32-1)] *)
Definition _randint (r : rng) : Z * rng := randint 0 (2 ^ 32 - 1) r.

(** [_get_data_loader] *)
Definition _get_data_loader (batch_size : nat) (drop_last shuffle : bool)
    (r : rng) (data : list json) : result (DataLoader * rng) :=
  let (sampler, r) :=
    if shuffle
    then let (seed, r') := _randint r in
         (Some (RandomSampler_init (length data) seed), r')
    else (None, r) in
  let* dataloader := DataLoader_init data sampler batch_size drop_last in
  Ok (dataloader, r).

(** The loop of [_init_dataloaders] over [grouped_data.items()]. *)
Fixpoint dataloaders_loop (data : list json)
    (batch_size : nat) (drop_last shuffle : bool)
    (grouped_data : pydict (list nat)) (group_dataloaders : pydict DataLoader) (r : rng)
  : result (pydict DataLoader * rng) :=
  match grouped_data with
  | [] => Ok (group_dataloaders, r)
  | (group, group_indices) :: rest =>
      let* group_data := mapM (list_getitem data) group_indices in
      let* dr := _get_data_loader batch_size drop_last shuffle r group_data in
      dataloaders_loop data batch_size drop_last shuffle rest
        (dict_set group (fst dr) group_dataloaders) (snd dr)
  end.

(** [_init_dataloaders] *)
Definition _init_dataloaders (data : list json) (group_key : string)
    (batch_size : nat) (drop_last shuffle : bool) (r : rng)
  : result (pydict DataLoader * rng) :=
  let* grouped_data := group_json_objects data group_key in
  dataloaders_loop data batch_size drop_last shuffle grouped_data [] r.

(** [_init_group_metadataloader]: each group once per batch it
    contributes, then one shuffle with the loader's stream. *)
Definition _init_group_metadataloader (group_dataloaders : pydict DataLoader) (r : rng)
  : list json * rng :=
  shuffle (flat_map (fun gd => repeat (fst gd) (DataLoader_len (snd gd))) group_dataloaders) r.

(** [__init__] *)
Definition GroupDataLoader_init (data : list json) (group_key : string)
    (dataset_class : dataset_class item)
    (batch_size : nat) (drop_last shuffle : bool) (seed : Z) : result GroupDataLoader :=
  let r := rng_seed seed in
  let* dr := _init_dataloaders data group_key batch_size drop_last shuffle r in
  let (group_batches, r) := _init_group_metadataloader (fst dr) (snd dr) in
  Ok {| gdl_data := data; gdl_group_key := group_key; gdl_dataset_class := dataset_class;
        gdl_batch_size := batch_size; gdl_drop_last := drop_last; gdl_shuffle := shuffle;
        gdl_seed := seed; gdl_random := r;
        gdl_group_dataloaders := fst dr; gdl_group_batches := group_batches |}.

(** [__len__] *)
Definition GroupDataLoader_len (loader : GroupDataLoader) : nat :=
  length (gdl_group_batches loader).

(** *** Generators

    How the body of a generator function ends, and what the consumer of
    the generator sees then: a normal return ends the iteration; an
    exception reaches the consumer, except that a [StopIteration] raised
    inside the body is replaced by a [RuntimeError] (PEP 479). *)
Inductive body_end : Type :=
| BodyReturn
| BodyRaise (e : exn).

Inductive iteration_end : Type :=
| Exhausted
| Propagated (e : exn).

Definition generator_end (b : body_end) : iteration_end :=
  match b with
  | BodyReturn => Exhausted
  | BodyRaise StopIteration => Propagated (RuntimeError "generator raised StopIteration")
  | BodyRaise e => Propagated e
  end.

Section Iter.
Variable yielded : Type.
(** What is built from the group, its records and a fetched batch, and
    yielded. *)
Variable emit : json -> list json -> list item -> result yielded.

(** One batch of a pass as it is yielded, with the group and the index
    batch it was fetched from. *)
Record batch_record : Type := {
  br_group : json;
  br_indices : list nat;
  br_value : yielded
}.

(** [if not group in group_dataloader_iters: ... = iter(...)] *)
Definition open_iterator (group : json) (group_dataloaders : pydict DataLoader)
    (group_dataloader_iters : pydict (list (list nat)))
  : result (pydict DataLoader * pydict (list (list nat))) :=
  if negb (dict_mem group group_dataloader_iters) then
    match dict_get group group_dataloaders with
    | Some dl =>
        let (batches, dl') := DataLoader_iter dl in
        Ok (dict_set group dl' group_dataloaders,
            dict_set group batches group_dataloader_iters)
    | None => Err (KeyError "")
    end
  else Ok (group_dataloaders, group_dataloader_iters).

(** The body of [_iter]: the loop over [_group_batches], then
    [raise StopIteration()]. *)
Fixpoint iter_loop (getitem : dataset_class item) (group_dataloaders : pydict DataLoader)
    (group_dataloader_iters : pydict (list (list nat))) (group_batches : list json)
  : list batch_record * body_end * pydict DataLoader :=
  match group_batches with
  | [] => ([], BodyRaise StopIteration, group_dataloaders)
  | group :: rest =>
      match open_iterator group group_dataloaders group_dataloader_iters with
      | Err e => ([], BodyRaise e, group_dataloaders)
      | Ok (group_dataloaders, group_dataloader_iters) =>
          match dict_get group group_dataloader_iters, dict_get group group_dataloaders with
          | Some (batch :: more), Some dl =>
              match (let* items := fetch getitem dl batch in
                     emit group (dl_dataset dl) items) with
              | Ok v =>
                  let '(records, e, dls) :=
                    iter_loop getitem group_dataloaders
                              (dict_set group more group_dataloader_iters) rest in
                  ({| br_group := group; br_indices := batch; br_value := v |} :: records,
                   e, dls)
              | Err e => ([], BodyRaise e, group_dataloaders)
              end
          | Some [], _ => ([], BodyRaise StopIteration, group_dataloaders)
          | _, _ => ([], BodyRaise (KeyError ""), group_dataloaders)
          end
      end
  end.

(** One full pass over [iter(loader)]: every batch yielded, how the
    iteration ended for the consumer, and the loader afterwards. *)
Definition full_pass (loader : GroupDataLoader)
  : list batch_record * iteration_end * GroupDataLoader :=
  let '(records, e, dls) :=
    iter_loop (gdl_dataset_class loader) (gdl_group_dataloaders loader) []
              (gdl_group_batches loader) in
  (records, generator_end e,
   {| gdl_data := gdl_data loader; gdl_group_key := gdl_group_key loader;
      gdl_dataset_class := gdl_dataset_class loader;
      gdl_batch_size := gdl_batch_size loader; gdl_drop_last := gdl_drop_last loader;
      gdl_shuffle := gdl_shuffle loader; gdl_seed := gdl_seed loader;
      gdl_random := gdl_random loader;
      gdl_group_dataloaders := dls; gdl_group_batches := gdl_group_batches loader |}).

(** The loader after [k] full passes. *)
Fixpoint after_passes (k : nat) (loader : GroupDataLoader) : GroupDataLoader :=
  match k with
  | O => loader
  | S k' => after_passes k' (snd (full_pass loader))
  end.

End Iter.
End Loaders.

Arguments dl_dataset {R} _.
Arguments dl_sampler {R} _.
Arguments dl_batch_size {R} _.
Arguments dl_drop_last {R} _.
Arguments DataLoader_len {R} _.
Arguments DataLoader_iter {R} _.
Arguments gdl_group_dataloaders {R item} _.
Arguments gdl_group_batches {R item} _.
Arguments gdl_dataset_class {R item} _.
Arguments GroupDataLoader_init {R item} _ _ _ _ _ _ _.
Arguments GroupDataLoader_len {R item} _.
Arguments batch_record : clear implicits.
Arguments br_group {yielded} _.
Arguments br_indices {yielded} _.
Arguments br_value {yielded} _.
Arguments iter_loop {R item yielded} _ _ _ _ _.
Arguments full_pass {R item yielded} _ _.
Arguments after_passes {R item yielded} _ _ _.

(** [x_batch, y_batch = next(...)]: the default collation of the items
    [(x, y)] of a batch stacks the first components, then the second. *)
Definition collate_pairs {T : TorchTensor} (items : list (Tensor * Tensor))
  : result (Tensor * Tensor) :=
  let* x_batch := torch_stack (map fst items) in
  let* y_batch := torch_stack (map snd items) in
  Ok (x_batch, y_batch).

(** [GroupDataLoader._iter] yields [(group, pipeline, x_batch), y_batch],
    the pipeline being that of the group's first record. *)
Definition GroupDataLoader_emit {T : TorchTensor} (group : json) (dataset : list json)
    (items : list (Tensor * Tensor)) : result (json * json * Tensor * Tensor) :=
  let* batch := collate_pairs items in
  let* first := list_getitem dataset 0 in
  let* pipeline := py_getitem first "pipeline" in
  Ok (group, pipeline, fst batch, snd batch).

(** ** Structure-aware loader ([RNNDataLoader], data.py:412-441) *)

Record RNNDataLoader {R : PyRandom} {T : TorchTensor} : Type := {
  rnn_loader : GroupDataLoader (Tensor * Tensor * Tensor);
  pipeline_structures : pydict (list json)
}.

(** [[primitive['inputs'] for primitive in pipeline]] for the first
    record of a group. *)
Definition group_structure_of (data : list json) (group_indices : list nat)
  : result (list json) :=
  let* index := list_getitem group_indices 0 in
  let* item := list_getitem data index in
  let* pipeline := py_getitem item "pipeline" in
  let* steps := py_getitem pipeline "steps" in
  let* primitives := py_iter steps in
  mapM (fun primitive => py_getitem primitive "inputs") primitives.

Fixpoint structures_loop (data : list json) (grouped_by_structure : pydict (list nat))
    (structures : pydict (list json)) : result (pydict (list json)) :=
  match grouped_by_structure with
  | [] => Ok structures
  | (group, group_indices) :: rest =>
      let* group_structure := group_structure_of data group_indices in
      structures_loop data rest (dict_set group group_structure structures)
  end.

(** [__init__] *)
Definition RNNDataLoader_init {R : PyRandom} {T : TorchTensor}
    (data : list json) (group_key : string)
    (features_key target_key task_type device : string)
    (prim_to_enc : list (string * json))
    (batch_size : nat) (drop_last shuffle : bool) (seed : Z) : result RNNDataLoader :=
  let dataset_class :=
    RNNDataset_getitem features_key target_key task_type device prim_to_enc in
  let* base := GroupDataLoader_init data group_key dataset_class
                 batch_size drop_last shuffle seed in
  let* grouped_by_structure := group_json_objects data group_key in
  let* structures := structures_loop data grouped_by_structure [] in
  Ok {| rnn_loader := base; pipeline_structures := structures |}.

(** [(pipeline_batch, x_batch, y_batch) = next(...)]: the default
    collation of items [(encoded_pipeline, x, y)]. *)
Definition collate_triples {T : TorchTensor} (items : list (Tensor * Tensor * Tensor))
  : result (Tensor * Tensor * Tensor) :=
  let* pipeline_batch := torch_stack (map (fun i => fst (fst i)) items) in
  let* x_batch := torch_stack (map (fun i => snd (fst i)) items) in
  let* y_batch := torch_stack (map snd items) in
  Ok (pipeline_batch, x_batch, y_batch).

(** [RNNDataLoader._iter] yields
    [(group_structure, pipeline_batch, x_batch), y_batch]. *)
Definition RNNDataLoader_emit {T : TorchTensor} (structures : pydict (list json))
    (group : json) (dataset : list json) (items : list (Tensor * Tensor * Tensor))
  : result (list json * Tensor * Tensor * Tensor) :=
  let* batch := collate_triples items in
  match dict_get group structures with
  | Some group_structure =>
      Ok (group_structure, fst (fst batch), snd (fst batch), snd batch)
  | None => Err (KeyError "")
  end.

(** ** CPython's [random.Random]: MT19937 *)

Module MT.

Definition N : nat := 624.
Definition M : nat := 397.
Definition MATRIX_A : Z := 0x9908b0df.
Definition UPPER_MASK : Z := 0x80000000.
Definition LOWER_MASK : Z := 0x7fffffff.

Definition u32 (z : Z) : Z := (z mod 2 ^ 32)%Z.

Record state : Type := { mt : list Z; index : nat }.

Definition at_ (mt : list Z) (i : nat) : Z := nth i mt 0%Z.

Fixpoint init_genrand_loop (count : nat) (mti : Z) (prev : Z) : list Z :=
  match count with
  | O => []
  | S count' =>
      let v := u32 (1812433253 * Z.lxor prev (Z.shiftr prev 30) + mti) in
      v :: init_genrand_loop count' (mti + 1) v
  end.

Definition init_genrand (s : Z) : list Z :=
  u32 s :: init_genrand_loop (N - 1) 1 (u32 s).

(** Wrap-around of the running index [i] in [init_by_array]. *)
Definition wrap (mt : list Z) (i : nat) : list Z * nat :=
  if N <=? i then (list_set 0 (at_ mt (N - 1)) mt, 1) else (mt, i).

Fixpoint key_loop (k : nat) (init_key : list Z) (mt : list Z) (i j : nat)
  : list Z * nat :=
  match k with
  | O => (mt, i)
  | S k' =>
      let prev := at_ mt (i - 1) in
      let v := u32 (Z.lxor (at_ mt i) (Z.lxor prev (Z.shiftr prev 30) * 1664525)
                    + at_ init_key j + Z.of_nat j) in
      let (mt, i) := wrap (list_set i v mt) (S i) in
      let j := if length init_key <=? S j then 0 else S j in
      key_loop k' init_key mt i j
  end.

Fixpoint mix_loop (k : nat) (mt : list Z) (i : nat) : list Z :=
  match k with
  | O => mt
  | S k' =>
      let prev := at_ mt (i - 1) in
      let v := u32 (Z.lxor (at_ mt i) (Z.lxor prev (Z.shiftr prev 30) * 1566083941)
                    - Z.of_nat i) in
      let (mt, i) := wrap (list_set i v mt) (S i) in
      mix_loop k' mt i
  end.

Definition init_by_array (init_key : list Z) : state :=
  let mt := init_genrand 19650218 in
  let (mt, i) := key_loop (Nat.max N (length init_key)) init_key mt 1 0 in
  let mt := mix_loop (N - 1) mt i in
  {| mt := list_set 0 0x80000000%Z mt; index := N |}.

(** The 32-bit words of a non-negative integer, least significant first;
    [fuel] bounds their number. *)
Fixpoint words (fuel : nat) (n : Z) : list Z :=
  match fuel with
  | O => []
  | S fuel' =>
      if (n <? 2 ^ 32)%Z then [n]
      else u32 n :: words fuel' (Z.shiftr n 32)
  end.

(** [seed(a)] for an int [a]: the key is [abs(a)]. *)
Definition seed (a : Z) : state :=
  let n := Z.abs a in
  init_by_array (words (S (Z.to_nat (Z.log2 n))) n).

Fixpoint twist_loop (count kk : nat) (mt : list Z) : list Z :=
  match count with
  | O => mt
  | S count' =>
      let y := Z.lor (Z.land (at_ mt kk) UPPER_MASK)
                     (Z.land (at_ mt (S kk mod N)) LOWER_MASK) in
      let v := Z.lxor (Z.lxor (at_ mt ((kk + M) mod N)) (Z.shiftr y 1))
                      (if Z.odd y then MATRIX_A else 0%Z) in
      twist_loop count' (S kk) (list_set kk v mt)
  end.

Definition genrand_uint32 (s : state) : Z * state :=
  let s := if N <=? index s then {| mt := twist_loop N 0 (mt s); index := 0 |} else s in
  let y := at_ (mt s) (index s) in
  let y := Z.lxor y (Z.shiftr y 11) in
  let y := Z.lxor y (Z.land (Z.shiftl y 7) 0x9d2c5680) in
  let y := Z.lxor y (Z.land (Z.shiftl y 15) 0xefc60000) in
  let y := Z.lxor y (Z.shiftr y 18) in
  (y, {| mt := mt s; index := S (index s) |}).

(** [getrandbits(k)] for [k > 0]: whole words least significant first,
    the last one shifted down to the bits that remain. *)
Fixpoint getrandbits_words (nwords : nat) (k : Z) (s : state) : Z * state :=
  match nwords with
  | O => (0%Z, s)
  | S nwords' =>
      let (r, s) := genrand_uint32 s in
      let r := if (k <? 32)%Z then Z.shiftr r (32 - k) else r in
      let (hi, s) := getrandbits_words nwords' (k - 32) s in
      ((r + Z.shiftl hi 32)%Z, s)
  end.

Definition getrandbits (k : Z) (s : state) : Z * state :=
  if (k <=? 32)%Z then
    let (r, s) := genrand_uint32 s in (Z.shiftr r (32 - k), s)
  else getrandbits_words (Z.to_nat ((k - 1) / 32 + 1)) k s.

(** The rejection loop [while r >= n: r = getrandbits(k)]; [fuel] bounds
    the number of draws, and a draw that is still rejected when it runs
    out is reduced modulo [n]. *)
Fixpoint randbelow_loop (fuel : nat) (n k : Z) (s : state) : Z * state :=
  let (r, s) := getrandbits k s in
  if (r <? n)%Z then (r, s)
  else match fuel with
       | O => ((r mod n)%Z, s)
       | S fuel' => randbelow_loop fuel' n k s
       end.

(** [_randbelow(n)], with [k = n.bit_length()]. *)
Definition randbelow (n : Z) (s : state) : Z * state :=
  randbelow_loop 1000 n (Z.log2 n + 1) s.

#[export] Instance mt_random : PyRandom :=
  {| rng := state; rng_seed := seed; rng_randbelow := randbelow |}.

End MT.

(** * Further code of the repository

    The train/test split and the dropping of metafeatures with missing
    values of [dna/data.py], the grouping of records in [dna/problems.py]
    and the one-hot encoding of primitive names in
    [dna/models/models.py]. *)

From Stdlib Require Import Sorted.

(** ** Train/test split ([split_data], data.py:44-62) *)

(** Where the bound [k] of a slice of a list of [len] items lands: a
    negative bound counts from the end, and every bound is clamped to the
    list. *)
Definition py_slice_bound (len : nat) (k : Z) : nat :=
  if (k <? 0)%Z then Z.to_nat (Z.max 0 (Z.of_nat len + k))
  else Nat.min (Z.to_nat k) len.

(** [l[k:]] *)
Definition py_slice_from {A : Type} (l : list A) (k : Z) : list A :=
  skipn (py_slice_bound (length l) k) l.

(** [l[:k]] *)
Definition py_slice_to {A : Type} (l : list A) (k : Z) : list A :=
  firstn (py_slice_bound (length l) k) l.

(** [for group in groups: for i in grouped_data_indices[group]:
    out.append(data[i])] *)
Fixpoint collect_groups (data : list json) (grouped_data_indices : pydict (list nat))
    (groups : list json) (out : list json) : result (list json) :=
  match groups with
  | [] => Ok out
  | group :: rest =>
      match dict_get group grouped_data_indices with
      | Some indices =>
          let* items := mapM (list_getitem data) indices in
          collect_groups data grouped_data_indices rest (out ++ items)
      | None => Err (KeyError "")
      end
  end.

(** [split_data]: the groups are shuffled with a stream of their own;
    the first [test_size] of them make the test data, the others the
    train data. *)
Definition split_data {R : PyRandom} (data : list json) (group_by_key : string)
    (test_size : Z) (seed : Z) : result (list json * list json) :=
  let* grouped_data_indices := group_json_objects data group_by_key in
  let groups := map fst grouped_data_indices in
  let (groups, _) := shuffle groups (rng_seed seed) in
  let* train_data :=
    collect_groups data grouped_data_indices (py_slice_from groups test_size) [] in
  let* test_data :=
    collect_groups data grouped_data_indices (py_slice_to groups test_size) [] in
  Ok (train_data, test_data).

(** ** Records by group ([PredictByGroupProblemBase._group_data],
    problems.py:104-111) *)

(** The inner loop, [for i in group_indices: ...]. *)
Fixpoint group_data_inner (data : list json) (group : json) (group_indices : list nat)
    (grouped_data : pydict (list json)) : result (pydict (list json)) :=
  match group_indices with
  | [] => Ok grouped_data
  | i :: rest =>
      let grouped_data :=
        if negb (dict_mem group grouped_data)
        then dict_set group [] grouped_data
        else grouped_data in
      match dict_get group grouped_data with
      | Some l =>
          let* obj := list_getitem data i in
          group_data_inner data group rest (dict_set group (l ++ [obj]) grouped_data)
      | None => Err (KeyError "")
      end
  end.

(** The outer loop over [group_json_objects(...).items()]. *)
Fixpoint group_data_loop (data : list json) (grouped : pydict (list nat))
    (grouped_data : pydict (list json)) : result (pydict (list json)) :=
  match grouped with
  | [] => Ok grouped_data
  | (group, group_indices) :: rest =>
      let* grouped_data := group_data_inner data group group_indices grouped_data in
      group_data_loop data rest grouped_data
  end.

Definition _group_data (data : list json) (group_key : string)
  : result (pydict (list json)) :=
  let* grouped := group_json_objects data group_key in
  group_data_loop data grouped [].

(** ** One-hot encodings of primitive names
    ([DAGLSTMRegressionModel._get_primitive_name_to_enc],
    models.py:357-377; [SklearnBase._one_hot_encode_mapping],
    models.py:684-705, builds the same mapping) *)

(** A [set] of hashable values, as the list of its elements; [add]
    keeps the element that is already there. *)
Definition set_add (s : list json) (v : json) : result (list json) :=
  if py_hashable v
  then Ok (if existsb (fun u => py_key_eqb u v) s then s else s ++ [v])
  else Err TypeError.

(** [for primitive in primitives:
      primitive_names.add(primitive[self.prim_name_key])] *)
Fixpoint add_names (primitives : list json) (primitive_names : list json)
  : result (list json) :=
  match primitives with
  | [] => Ok primitive_names
  | primitive :: rest =>
      let* primitive_name := py_getitem primitive "name" in
      let* primitive_names := set_add primitive_names primitive_name in
      add_names rest primitive_names
  end.

(** [for instance in train_data:
      primitives = instance[self.pipeline_key][self.steps_key]; ...] *)
Fixpoint collect_names (train_data : list json) (primitive_names : list json)
  : result (list json) :=
  match train_data with
  | [] => Ok primitive_names
  | instance :: rest =>
      let* pipeline := py_getitem instance "pipeline" in
      let* steps := py_getitem pipeline "steps" in
      let* primitives := py_iter steps in
      let* primitive_names := add_names primitives primitive_names in
      collect_names rest primitive_names
  end.

(** [a < b] on hashable values: numbers compare by value, strs by code
    points, and no other pair is orderable. *)
Definition py_lt (a b : json) : result bool :=
  match py_number a, py_number b with
  | Some p, Some q => Ok (negb (Qle_bool q p))
  | _, _ =>
      match a, b with
      | JStr s, JStr t => Ok (String.ltb s t)
      | _, _ => Err TypeError
      end
  end.

(** [sorted(...)] of the elements of a set, by insertion: the order of
    pairwise different elements is the same for every sorting method, and
    so is whether some comparison raises. *)
Fixpoint insert_sorted (v : json) (l : list json) : result (list json) :=
  match l with
  | [] => Ok [v]
  | u :: l' =>
      let* lt := py_lt v u in
      if lt then Ok (v :: l)
      else let* inserted := insert_sorted v l' in Ok (u :: inserted)
  end.

Fixpoint py_sorted (l : list json) : result (list json) :=
  match l with
  | [] => Ok []
  | v :: l' => let* sorted := py_sorted l' in insert_sorted v sorted
  end.

(** Row [i] of [np.identity(n)]. *)
Definition identity_row (n i : nat) : json :=
  JList (map (fun j => JFloat (if j =? i then 1%Q else 0%Q)) (seq 0 n)).

(** [for (name, enc) in zip(names, encoding): d[name] = enc] *)
Definition zip_to_dict (names encoding : list json) : pydict json :=
  fold_left (fun d ne => dict_set (fst ne) (snd ne) d) (combine names encoding) [].

(** The mapping returned, next to [self.num_primitives]. *)
Definition _get_primitive_name_to_enc (train_data : list json)
  : result (nat * pydict json) :=
  let* primitive_names := collect_names train_data [] in
  let num_primitives := length primitive_names in
  let encoding := map (identity_row num_primitives) (seq 0 num_primitives) in
  let* primitive_names := py_sorted primitive_names in
  Ok (num_primitives, zip_to_dict primitive_names encoding).

(** ** Dropping metafeatures with missing values ([DropMissingValues],
    data.py:87-105) *)

(** A dict with str keys, as the records of metafeatures are. *)
Definition row : Type := list (string * json).

(** The list objects in memory, by address. *)
Definition store : Type := list (list string).

Definition deref (m : store) (a : nat) : list string := nth a m [].

(** An instance holds a reference to its list [values_to_drop]. *)
Record DropMissingValues : Type := { values_to_drop : nat }.

(** [__init__(self, values_to_drop=[])]: the default value is one list
    object, created when the [def] statement is executed; [default] is
    its address, and an instance created without an argument refers to
    it. *)
Definition DropMissingValues_init (default : nat) (arg : option nat) : DropMissingValues :=
  {| values_to_drop := match arg with
                       | Some a => a
                       | None => default
                       end |}.

Section Pandas.
(** [pd.DataFrame(data).isna().any().iteritems()]: for each column,
    whether some row has no value in it. *)
Variable isna_any : list row -> list (string * bool).

(** [fit]: [if is_missing: self.values_to_drop.append(key)] for each
    column; the list object is changed in place. *)
Definition DropMissingValues_fit (self : DropMissingValues) (data : list row) (m : store)
  : store :=
  list_set (values_to_drop self)
    (fold_left (fun l (kb : string * bool) => if snd kb then l ++ [fst kb] else l)
               (isna_any data) (deref m (values_to_drop self)))
    m.

End Pandas.

(** [instance.pop(key, None)] *)
Definition dict_pop (key : string) (instance : row) : row :=
  filter (fun kv => negb (String.eqb (fst kv) key)) instance.

(** [predict]: [for instance in data: for key in self.values_to_drop:
    instance.pop(key, None)]; the rows are returned as the loop leaves
    them. *)
Definition DropMissingValues_predict (self : DropMissingValues) (data : list row)
    (m : store) : list row :=
  map (fun instance =>
         fold_left (fun inst key => dict_pop key inst) (deref m (values_to_drop self))
                   instance)
      data.

(** * Vocabulary of the properties *)

(** No two keys of a dict are equal. *)
Definition keys_distinct {V : Type} (d : pydict V) : Prop :=
  ForallOrdPairs (fun a b => py_key_eqb (fst a) (fst b) = false) d.

(** The object at position [i] of [json_objects] lies in group [g]. *)
Definition in_group (group_key : string) (json_objects : list json)
    (g : json) (i : nat) : bool :=
  match nth_error json_objects i with
  | Some obj =>
      match group_of group_key obj with
      | Ok v => py_key_eqb g v
      | Err _ => false
      end
  | None => false
  end.

(** The positions below [k] of the objects in group [g], in input order. *)
Definition positions (group_key : string) (json_objects : list json)
    (g : json) (k : nat) : list nat :=
  filter (in_group group_key json_objects g) (seq 0 k).

(** Every object has the whole key path, and the value there is hashable
    (what the docstring requires of [group_key]). *)
Definition key_path_present (json_objects : list json) (group_key : string) : Prop :=
  forall obj, In obj json_objects ->
    exists v, get_path obj (py_split "." group_key) = Ok v /\ py_hashable v = true.


(** Where an exception occurs inside a traversal. *)
Section Frames.
Variable tensor : Type.
Variable submodules : string -> option (tensor -> result tensor).
Variable f_activation : tensor -> tensor.
Variable torch_cat : list tensor -> result tensor.
Variable h1 : tensor.
Variable pipeline : list Step.

(** [raised_inside depth current_index log e s]: in the traversal that
    starts at the existing node [current_index] with [depth] frames left,
    the frame of step [s] is entered, every call made before it having
    returned, and the [try] block of that frame raises [e]; [log] is what
    has been printed until then. The frame is the one of [current_index]
    itself, or it lies in the call for one of its inputs. *)
Inductive raised_inside : nat -> reference -> list event -> exn -> Step -> Prop :=
| raised_here (depth : nat) (current_index : reference) (step : Step)
    (log : list event) (e : exn) :
    py_list_index pipeline current_index = Ok step ->
    try_body tensor submodules f_activation torch_cat
      (recursive_get_output tensor submodules f_activation torch_cat depth h1 pipeline)
      h1 pipeline current_index = (log, Raise e) ->
    raised_inside (S depth) current_index log e step
| raised_below (depth : nat) (current_index : reference) (step : Step)
    (current_submodule : tensor -> result tensor)
    (before : list reference) (input : reference) (after : list reference)
    (log : list event) (e : exn) (s : Step) :
    py_list_index pipeline current_index = Ok step ->
    submodules (name step) = Some current_submodule ->
    has_external_input (inputs step) = false ->
    inputs step = before ++ input :: after ->
    Forall (fun i => exists v,
              recursive_get_output tensor submodules f_activation torch_cat
                depth h1 pipeline i = ([], Return v)) before ->
    raised_inside depth input log e s ->
    raised_inside (S depth) current_index log e s.

End Frames.

(** The three-node chain [external -> 0 -> 1] and [(0, 1) -> 2]. *)
Definition chain (n0 n1 n2 : string) : list Step :=
  [ {| name := n0; inputs := [RefName "inputs.0"] |};
    {| name := n1; inputs := [RefIndex 0] |};
    {| name := n2; inputs := [RefIndex 0; RefIndex 1] |} ].

(** ** Example tensors: batches of rows of rationals *)

Module ExampleTorch.

Definition tensor : Type := list (list Q).

(** Concatenation of two batches along the feature axis; the batches
    must have as many rows. *)
Fixpoint cat2 (a b : tensor) : result tensor :=
  match a, b with
  | [], [] => Ok []
  | ra :: a', rb :: b' => let* rest := cat2 a' b' in Ok ((ra ++ rb) :: rest)
  | _, _ => Err (RuntimeError "Sizes of tensors must match except in dimension 1")
  end.

Definition torch_cat (tensors : list tensor) : result tensor :=
  match tensors with
  | [] => Err (RuntimeError "expected a non-empty list of Tensors")
  | t :: rest => fold_left (fun acc t' => let* a := acc in cat2 a t') rest (Ok t)
  end.

(** [F.leaky_relu] with its default slope 0.01. *)
Definition leaky_relu (t : tensor) : tensor :=
  map (map (fun x => if Qle_bool 0 x then x else (x * (1 # 100))%Q)) t.

(** Every primitive name has the identity as its unit. *)
Definition identity_units : string -> option (tensor -> result tensor) :=
  fun _ => Some (fun t => Ok t).

Definition identity_model (t : tensor) : result tensor := Ok t.

(** One instance with the single feature -1. *)
Definition h1 : tensor := [[(-1) # 1]].


Definition sound : list Step := [ {| name := "a"; inputs := [RefName "inputs.0"] |} ].

End ExampleTorch.

(** The number of iteration requests on sampler [id] among [ops]. *)
Definition requests (id : nat) (ops : list op) : nat :=
  length (filter (fun o => match o with
                           | OpIter id' => Nat.eqb id' id
                           | _ => false
                           end) ops).

(** [ceil(a / b)] for naturals. *)
Definition ceil_div (a b : nat) : nat :=
  a / b + (if a mod b =? 0 then 0 else 1).

(** The number of batches a group of [n] records contributes. *)
Definition batch_count (drop_last : bool) (n batch_size : nat) : nat :=
  if drop_last then n / batch_size else ceil_div n batch_size.

(** The indices into the whole collection behind a batch of indices into
    one group, [group_indices] being the group's index list. *)
Definition original_indices (group_indices : list nat) (batch : list nat) : list nat :=
  map (fun j => nth j group_indices 0) batch.

(** The index batches that a pass yielded for group [g], in order. *)
Definition batches_of {yielded : Type} (g : json)
    (records : list (batch_record yielded)) : list (list nat) :=
  map br_indices (filter (fun r => py_key_eqb g (br_group r)) records).

(** ** Invariants of the grouped batch loader *)

Section LoaderInvariants.
Context {R : PyRandom}.

(** What a pass never changes in a batch source. *)
Definition static (dl : DataLoader) : list json * nat * bool * option nat :=
  (dl_dataset dl, dl_batch_size dl, dl_drop_last dl, option_map rs_n (dl_sampler dl)).

(** A batch source as the loader builds and keeps it: a positive batch
    size and, when it shuffles, a sampler holding a permutation of the
    indices of its dataset. *)
Definition dl_wf (dl : DataLoader) : Prop :=
  0 < dl_batch_size dl /\
  match dl_sampler dl with
  | Some s => rs_n s = length (dl_dataset dl) /\
              Permutation (rs_indices s) (seq 0 (rs_n s))
  | None => True
  end.

(** How often a group occurs among the labels. *)
Definition count_label (g : json) (labels : list json) : nat :=
  length (filter (py_key_eqb g) labels).

(** The state of [_iter] in front of the labels still to come: every
    label has a batch source, and each group occurs as often as it has
    batches left. *)
Record pass_inv (dls : pydict DataLoader) (iters : pydict (list (list nat)))
    (labels : list json) : Prop := {
  pi_wf : forall g dl, dict_get g dls = Some dl -> dl_wf dl;
  pi_labels : forall l, In l labels -> dict_get l dls <> None;
  pi_count : forall g dl, dict_get g dls = Some dl ->
    count_label g labels = match dict_get g iters with
                           | Some batches => length batches
                           | None => DataLoader_len dl
                           end;
  pi_range : forall g dl batches, dict_get g dls = Some dl ->
    dict_get g iters = Some batches ->
    forall batch i, In batch batches -> In i batch -> i < length (dl_dataset dl);
  pi_nonempty : forall g batches, dict_get g iters = Some batches ->
    forall batch, In batch batches -> batch <> []
}.

(** Every item of every group can be fetched, and every batch of items
    of a group, fetched at indices of the group, can be emitted. *)
Definition fetch_ok {item yielded : Type} (getitem : dataset_class item)
    (emit : json -> list json -> list item -> result yielded)
    (dls : pydict DataLoader) : Prop :=
  forall l dl, dict_get l dls = Some dl ->
    (forall i, i < length (dl_dataset dl) -> exists it, getitem (dl_dataset dl) i = Ok it) /\
    (forall batch items,
       batch <> [] -> mapM (getitem (dl_dataset dl)) batch = Ok items ->
       exists v, emit l (dl_dataset dl) items = Ok v).

(** The indices that one pass of a batch source cuts into batches. *)
Definition pass_indices (dl : DataLoader) : list nat :=
  match dl_sampler dl with
  | Some s => fst (RandomSampler_iter s)
  | None => seq 0 (length (dl_dataset dl))
  end.

(** No batch source shuffles. *)
Definition unshuffled (dls : pydict DataLoader) : Prop :=
  forall g dl, dict_get g dls = Some dl -> dl_sampler dl = None.

End LoaderInvariants.

Section Construction.
Context {R : PyRandom}.

(** The batch source that the constructor builds for a group with index
    list [group_indices]. *)
Definition built (data : list json) (batch_size : nat) (drop_last shuffle : bool)
    (group_indices : list nat) (dl : DataLoader) : Prop :=
  mapM (list_getitem data) group_indices = Ok (dl_dataset dl) /\
  dl_batch_size dl = batch_size /\ 0 < batch_size /\
  dl_drop_last dl = drop_last /\
  match dl_sampler dl with
  | Some s => shuffle = true /\
              exists seed, s = RandomSampler_init (length group_indices) seed
  | None => shuffle = false
  end.

(** A loader whose state satisfies the invariant of a pass that is about
    to start. *)
Definition loader_inv {item : Type} (loader : GroupDataLoader item) : Prop :=
  pass_inv (gdl_group_dataloaders loader) [] (gdl_group_batches loader).

(** The batch sources of [loader] belong to the groups of [grouped] and
    have their sizes. *)
Definition tracks (data : list json) (batch_size : nat) (drop_last : bool)
    (grouped : pydict (list nat)) (dls : pydict DataLoader) : Prop :=
  forall g group_indices, In (g, group_indices) grouped ->
    exists dl, dict_get g dls = Some dl /\
      mapM (list_getitem data) group_indices = Ok (dl_dataset dl) /\
      dl_batch_size dl = batch_size /\ 0 < batch_size /\ dl_drop_last dl = drop_last.

(** Whether pass [k + 1] over a constructed loader yields as many batches
    as the loader is long. *)
Definition pass_is_full {item yielded : Type}
    (emit : json -> list json -> list item -> result yielded)
    (constructed : result (GroupDataLoader item)) (k : nat) : bool :=
  match constructed with
  | Ok l =>
      let '(records, _, _) := full_pass emit (after_passes emit k l) in
      length records =? GroupDataLoader_len l
  | Err _ => false
  end.

End Construction.

(** Whether the value of [obj] at the key path is the key [g]. *)
Definition belongs (group_key : string) (g : json) (obj : json) : bool :=
  match group_of group_key obj with
  | Ok v => py_key_eqb g v
  | Err _ => false
  end.

(** The records [objs], one at least, are records of [data] that lie in
    one group: what a batch is made of. *)
Definition batch_of_group (group_key : string) (data objs : list json) : Prop :=
  objs <> [] /\
  exists g, forall obj, In obj objs -> In obj data /\ belongs group_key g obj = true.

(** Every record can be fetched by [Dataset] on its own, which takes
    that the record has the features and the target and that the tensor
    library accepts both, and has a pipeline to go with its batch; and
    the items of the records of a batch can be collated. *)
Definition dataset_records_ok {T : TorchTensor}
    (group_key features_key target_key task_type device : string)
    (data : list json) : Prop :=
  (forall obj, In obj data ->
     (exists it,
        Dataset_getitem features_key target_key task_type device [obj] 0 = Ok it) /\
     (exists p, py_getitem obj "pipeline" = Ok p)) /\
  (forall objs items,
     batch_of_group group_key data objs ->
     mapM (fun obj => Dataset_getitem features_key target_key task_type device [obj] 0)
          objs = Ok items ->
     exists batch, collate_pairs items = Ok batch).

(** Every record can be fetched by [RNNDataset] on its own: also the
    names of its steps have encodings, and the tensor library accepts
    their list; and the items of the records of a batch can be
    collated. *)
Definition rnn_records_ok {T : TorchTensor}
    (group_key features_key target_key task_type device : string)
    (prim_to_enc : list (string * json)) (data : list json) : Prop :=
  (forall obj, In obj data ->
     exists it,
       RNNDataset_getitem features_key target_key task_type device prim_to_enc [obj] 0
       = Ok it) /\
  (forall objs items,
     batch_of_group group_key data objs ->
     mapM (fun obj => RNNDataset_getitem features_key target_key task_type device
                        prim_to_enc [obj] 0) objs = Ok items ->
     exists batch, collate_triples items = Ok batch).

(** ** More vocabulary *)

(** The smallest index of each group, in dict order. *)
Definition first_indices (grouped : pydict (list nat)) : list nat :=
  map (fun gl => hd 0 (snd gl)) grouped.

(** The records of [data] at the indices [idxs]. *)
Definition records_at (data : list json) (idxs : list nat) : list json :=
  map (fun i => nth i data JNull) idxs.

(** The first batch that pass [k + 1] over a constructed loader yields. *)
Definition first_yielded {R : PyRandom} {item yielded : Type}
    (emit : json -> list json -> list item -> result yielded)
    (constructed : result (GroupDataLoader item)) (k : nat)
  : option (batch_record yielded) :=
  match constructed with
  | Ok l =>
      let '(records, _, _) := full_pass emit (after_passes emit k l) in
      hd_error records
  | Err _ => None
  end.

(** [name] is the name of a step of a pipeline of [train_data]. *)
Definition occurs_as_step_name (train_data : list json) (name : json) : Prop :=
  exists instance pipeline steps primitives primitive,
    In instance train_data /\
    py_getitem instance "pipeline" = Ok pipeline /\
    py_getitem pipeline "steps" = Ok steps /\
    py_iter steps = Ok primitives /\
    In primitive primitives /\
    py_getitem primitive "name" = Ok name.

Definition is_str (v : json) : bool :=
  match v with
  | JStr _ => true
  | _ => false
  end.

(** A dict whose keys are strs, as [RNNDataset] takes it. *)
Definition str_items (d : pydict json) : list (string * json) :=
  flat_map (fun kv => match fst kv with
                      | JStr s => [(s, snd kv)]
                      | _ => []
                      end) d.

(** The elements of a set: hashable and pairwise different. *)
Definition is_set (s : list json) : Prop :=
  ForallOrdPairs (fun a b => py_key_eqb a b = false) s /\
  Forall (fun a => py_hashable a = true) s.

(** The order of [sorted] on strs: by code points. *)
Definition str_lt (a b : json) : Prop :=
  match a, b with
  | JStr s, JStr t => String.ltb s t = true
  | _, _ => False
  end.

(** ** Example records *)

Module Example.

(** A record of pipeline [id] with one metafeature and its score; every
    pipeline has the single step "a" on the external input. *)
Definition record (id : string) (feature : Z) : json :=
  JDict [ ("pipeline",
           JDict [ ("id", JStr id);
                   ("steps", JList [ JDict [ ("name", JStr "a");
                                             ("inputs", JList [JStr "inputs.0"]) ] ]) ]);
          ("metafeatures", JList [JInt feature]);
          ("test_f1_macro", JInt (10 * feature)) ].

(** Five records of two pipelines, interleaved. *)
Definition records : list json :=
  [ record "p" 0; record "q" 1; record "p" 2; record "q" 3; record "p" 4 ].

Definition grouped : pydict (list nat) :=
  [ (JStr "p", [0; 2; 4]); (JStr "q", [1; 3]) ].

(** A stand-in for the tensor library on the examples: a number or a
    nested list of numbers is accepted and kept as it is, whatever the
    dtype and the device; anything else is rejected with a [TypeError];
    [.cuda()] leaves the tensor as it is; stacking gives the list of the
    tensors, when there is one at least and all have the size of the
    first. *)
Fixpoint numeric (v : json) : bool :=
  match v with
  | JBool _ | JInt _ | JFloat _ => true
  | JList l =>
      (fix all (l : list json) : bool :=
         match l with
         | [] => true
         | x :: rest => numeric x && all rest
         end) l
  | _ => false
  end.

Definition same_size (a b : json) : bool :=
  match a, b with
  | JList l, JList l' => length l =? length l'
  | JList _, _ | _, JList _ => false
  | _, _ => true
  end.

Definition stack (ts : list json) : result json :=
  match ts with
  | [] => Err (RuntimeError "stack expects a non-empty TensorList")
  | t :: rest =>
      if forallb (same_size t) rest then Ok (JList ts)
      else Err (RuntimeError "stack expects each tensor to be equal size")
  end.

Definition tensors : TorchTensor :=
  {| Tensor := json;
     torch_tensor := fun data _ _ => if numeric data then Ok data else Err TypeError;
     Tensor_cuda := fun t => Ok t;
     torch_stack := stack |}.

(** [GroupDataLoader(records, 'pipeline.id', Dataset, ..., batch_size=2,
    drop_last=False, shuffle=True, seed=seed)] on CPython's generator. *)
Abbreviation loader seed :=
  (@GroupDataLoader_init MT.mt_random (@Tensor tensors * @Tensor tensors) records
     "pipeline.id"
     (@Dataset_getitem tensors "metafeatures" "test_f1_macro" "REGRESSION" "cpu")
     2 false true seed).

Definition prim_to_enc : list (string * json) := [ ("a", JList [JInt 1]) ].

(** [RNNDataLoader(records, 'pipeline.id', ..., batch_size=2,
    drop_last=False, shuffle=True, seed=seed)]. *)
Abbreviation rnn_loader seed :=
  (@RNNDataLoader_init MT.mt_random tensors records "pipeline.id"
     "metafeatures" "test_f1_macro" "REGRESSION" "cpu" prim_to_enc 2 false true seed).

(** Two samplers with the same arguments next to the module-level stream. *)
Definition interpreter : @world MT.mt_random :=
  {| global_random := rng_seed 0;
     heap := [ RandomSampler_init 4 7; RandomSampler_init 4 7 ] |}.

Definition session : list op :=
  [ OpIter 0; OpGlobalShuffle 5; OpIter 1; OpNew 3 9; OpIter 2; OpIter 0;
    OpGlobalSeed 3; OpGlobalRandbelow 10; OpIter 1 ].

(** What the claim compares: [(group_label, input_batch, target_batch)]. *)
Definition triple (yielded : json * json * json * json) : json * json * json :=
  let '(group, _, x_batch, y_batch) := yielded in (group, x_batch, y_batch).

(** The first two passes over [loader seed]. *)
Definition two_passes (seed : Z)
  : option (list (json * json * json) * list (json * json * json)) :=
  match loader seed with
  | Ok l =>
      let '(records0, _, l1) := full_pass (@GroupDataLoader_emit tensors) l in
      let '(records1, _, _) := full_pass (@GroupDataLoader_emit tensors) l1 in
      Some (map (fun r => triple (br_value r)) records0,
            map (fun r => triple (br_value r)) records1)
  | Err _ => None
  end.

Definition first_pass : list (json * json * json) :=
  [ (JStr "p", JList [JList [JInt 0]; JList [JInt 2]], JList [JInt 0; JInt 20]);
    (JStr "q", JList [JList [JInt 1]; JList [JInt 3]], JList [JInt 10; JInt 30]);
    (JStr "p", JList [JList [JInt 4]], JList [JInt 40]) ].

Definition second_pass : list (json * json * json) :=
  [ (JStr "p", JList [JList [JInt 2]; JList [JInt 0]], JList [JInt 20; JInt 0]);
    (JStr "q", JList [JList [JInt 3]; JList [JInt 1]], JList [JInt 30; JInt 10]);
    (JStr "p", JList [JList [JInt 4]], JList [JInt 40]) ].

End Example.

(** ** More examples *)

Module MoreExamples.

(** [GroupDataLoader(records, 'pipeline.id', Dataset, ..., batch_size=3,
    drop_last=True, shuffle=True, seed=seed)]: the two records of
    pipeline "q" do not fill a batch. *)
Abbreviation dropping_loader seed :=
  (@GroupDataLoader_init MT.mt_random
     (@Tensor Example.tensors * @Tensor Example.tensors) Example.records "pipeline.id"
     (@Dataset_getitem Example.tensors "metafeatures" "test_f1_macro" "REGRESSION" "cpu")
     3 true true seed).

(** The example records followed by a record without a pipeline. *)
Definition broken_records : list json := Example.records ++ [JDict []].

(** A step that no input feeds, and a step that feeds itself. *)
Definition orphan : list Step := [ {| name := "a"; inputs := [] |} ].


(** [split_data(records, 'pipeline.id', 1, 0)] on CPython's generator. *)
Definition train_data : list json := [ Example.record "q" 1; Example.record "q" 3 ].
Definition test_data : list json :=
  [ Example.record "p" 0; Example.record "p" 2; Example.record "p" 4 ].

(** A record whose pipeline has the steps "b" and "a", in this order. *)
Definition two_steps : json :=
  JDict [ ("pipeline",
           JDict [ ("id", JStr "r");
                   ("steps", JList [ JDict [ ("name", JStr "b");
                                             ("inputs", JList [JStr "inputs.0"]) ];
                                     JDict [ ("name", JStr "a");
                                             ("inputs", JList [JInt 0]) ] ]) ]) ].

(** The mapping built from it: "a" comes first. *)
Definition name_to_enc : pydict json :=
  [ (JStr "a", JList [JFloat 1%Q; JFloat 0%Q]); (JStr "b", JList [JFloat 0%Q; JFloat 1%Q]) ].

(** [GroupDataLoader(records, 'pipeline.id', Dataset, ..., batch_size=2,
    drop_last=False, shuffle=False, seed=seed)] *)
Abbreviation unshuffled_loader seed :=
  (@GroupDataLoader_init MT.mt_random
     (@Tensor Example.tensors * @Tensor Example.tensors) Example.records "pipeline.id"
     (@Dataset_getitem Example.tensors "metafeatures" "test_f1_macro" "REGRESSION" "cpu")
     2 false false seed).

(** A record whose pipeline has the steps "a" and "b", in this order. *)
Definition a_then_b : json :=
  JDict [ ("pipeline",
           JDict [ ("id", JStr "s");
                   ("steps", JList [ JDict [ ("name", JStr "a");
                                             ("inputs", JList [JStr "inputs.0"]) ];
                                     JDict [ ("name", JStr "b");
                                             ("inputs", JList [JInt 0]) ] ]) ]) ].

(** Rows of metafeatures of which the second has no value for "b". *)
Definition rows : list row :=
  [ [ ("a", JInt 1); ("b", JInt 2) ]; [ ("a", JInt 3); ("b", JNull) ] ].

(** The report on rows with the columns "a" and "b": a value is missing
    where a row has no entry or has [null]. *)
Definition report (data : list row) : list (string * bool) :=
  map (fun key =>
         (key, existsb (fun r => match assoc_get key r with
                                 | Some JNull | None => true
                                 | Some _ => false
                                 end) data))
      [ "a"; "b" ].

(** Rows of another call, all of them complete. *)
Definition complete_rows : list row := [ [ ("a", JInt 5); ("b", JInt 6) ] ].

End MoreExamples.
(** * Properties *)

(** ** Structural key encoder *)

(** C1. The encoder concatenates the decimal forms with no separator, so
    DAGs that differ only in how references are split across nodes share a
    key: [[1,2],[3]] and [[1],[2,3]] both encode to "123", and [[0],[1]]
    and [[0,1]] both to "01" -- against the function's docstring, which
    promises that equal encodings come from equal DAGs. *)
Theorem encode_dag_collides :
  encode_dag [[RefIndex 1; RefIndex 2]; [RefIndex 3]] = "123" /\
  encode_dag [[RefIndex 1]; [RefIndex 2; RefIndex 3]] = "123" /\
  encode_dag [[RefIndex 0]; [RefIndex 1]] = "01" /\
  encode_dag [[RefIndex 0; RefIndex 1]] = "01" /\
  [[RefIndex 1; RefIndex 2]; [RefIndex 3]] <> [[RefIndex 1]; [RefIndex 2; RefIndex 3]] /\
  [[RefIndex 0]; [RefIndex 1]] <> [[RefIndex 0; RefIndex 1]].
Proof.
  repeat split; try reflexivity; discriminate.
Qed.

(** ** Dict keys *)

Lemma py_key_eqb_refl (a : json) : py_hashable a = true -> py_key_eqb a a = true.
Proof.
  destruct a; simpl; intros H; try discriminate; try reflexivity;
    unfold py_key_eqb; simpl.
  - apply Qeq_bool_refl.
  - apply Qeq_bool_refl.
  - apply Qeq_bool_refl.
  - apply String.eqb_refl.
Qed.

Lemma py_key_eqb_sym (a b : json) : py_key_eqb a b = py_key_eqb b a.
Proof.
  unfold py_key_eqb.
  destruct (py_number a) as [p|] eqn:Ha, (py_number b) as [q|] eqn:Hb; try reflexivity.
  - destruct (Qeq_bool p q) eqn:E.
    + symmetry. apply Qeq_bool_sym. exact E.
    + destruct (Qeq_bool q p) eqn:E'; [|reflexivity].
      apply Qeq_bool_sym in E'. congruence.
  - destruct a, b; try reflexivity. apply String.eqb_sym.
Qed.

Lemma py_key_eqb_trans (a b c : json) :
  py_key_eqb a b = true -> py_key_eqb b c = true -> py_key_eqb a c = true.
Proof.
  unfold py_key_eqb.
  destruct (py_number a) as [p|] eqn:Ha, (py_number b) as [q|] eqn:Hb,
           (py_number c) as [r|] eqn:Hc; try discriminate.
  - apply Qeq_bool_trans.
  - destruct a, b; try discriminate; destruct c; try discriminate; auto.
    intros H1 H2. apply String.eqb_eq in H1, H2. subst. apply String.eqb_refl.
Qed.

Lemma py_key_eqb_hashable (a b : json) : py_key_eqb a b = true -> py_hashable a = true.
Proof.
  unfold py_key_eqb. destruct a; simpl; try reflexivity; destruct (py_number b); discriminate.
Qed.

(** A key that equals [a] equals whatever [a] equals. *)
Lemma py_key_eqb_congr (a b c : json) :
  py_key_eqb a b = true -> py_key_eqb a c = py_key_eqb b c.
Proof.
  intros Hab. destruct (py_key_eqb b c) eqn:Hbc.
  - eapply py_key_eqb_trans; eauto.
  - destruct (py_key_eqb a c) eqn:Hac; [|reflexivity].
    rewrite py_key_eqb_sym in Hab.
    rewrite <- Hbc. symmetry. eapply py_key_eqb_trans; eauto.
Qed.

(** ** Insertion-ordered dicts *)

Section Dict.
Context {V : Type}.
Implicit Types (d : pydict V) (k g : json).

Lemma dict_get_None d k :
  dict_get k d = None <-> (forall g v, In (g, v) d -> py_key_eqb g k = false).
Proof.
  induction d as [|[g v] d IH]; simpl.
  - split; [intros _ ? ? []|reflexivity].
  - destruct (py_key_eqb g k) eqn:E.
    + split; [discriminate|]. intros H. specialize (H g v (or_introl eq_refl)). congruence.
    + rewrite IH. split.
      * intros H g' v' [[= <- <-]|Hin]; eauto.
      * intros H g' v' Hin. eauto.
Qed.

Lemma dict_get_Some d k v :
  dict_get k d = Some v ->
  exists d1 g d2, d = d1 ++ (g, v) :: d2 /\ py_key_eqb g k = true /\
    (forall g' v', In (g', v') d1 -> py_key_eqb g' k = false) /\
    (forall v', dict_set k v' d = d1 ++ (g, v') :: d2).
Proof.
  induction d as [|[g w] d IH]; simpl; [discriminate|].
  destruct (py_key_eqb g k) eqn:E.
  - intros [= ->]. exists [], g, d. repeat split; auto. intros ? ? [].
  - intros H. destruct (IH H) as (d1 & g' & d2 & -> & Hg & Hd1 & Hset).
    exists ((g, w) :: d1), g', d2. repeat split; auto.
    + intros g'' v'' [[= <- <-]|Hin]; eauto.
    + intros v'. simpl. rewrite Hset. reflexivity.
Qed.

Lemma dict_set_new d k v : dict_get k d = None -> dict_set k v d = d ++ [(k, v)].
Proof.
  induction d as [|[g w] d IH]; simpl; [reflexivity|].
  destruct (py_key_eqb g k); [discriminate|]. intros H. rewrite IH; auto.
Qed.

Lemma dict_get_app_new d k v :
  py_hashable k = true -> dict_get k d = None -> dict_get k (d ++ [(k, v)]) = Some v.
Proof.
  intros Hk. induction d as [|[g w] d IH]; simpl.
  - rewrite py_key_eqb_refl; auto.
  - destruct (py_key_eqb g k); [discriminate|]. auto.
Qed.

End Dict.

(** ** Grouping index *)

Section Grouping.
Variable group_key : string.
Variable json_objects : list json.

#[local] Abbreviation in_group := (in_group group_key json_objects).
#[local] Abbreviation positions := (positions group_key json_objects).

Lemma positions_S g k :
  positions g (S k) = positions g k ++ (if in_group g k then [k] else []).
Proof.
  unfold positions. rewrite seq_S, filter_app. simpl.
  destruct (in_group g k); reflexivity.
Qed.

Lemma in_positions g k i : In i (positions g k) <-> i < k /\ in_group g i = true.
Proof.
  unfold positions. rewrite filter_In, in_seq. intuition lia.
Qed.

Lemma NoDup_positions g k : NoDup (positions g k).
Proof. apply NoDup_filter, seq_NoDup. Qed.

(** The state of the dict after the first [k] objects. *)
Record grouped_upto (k : nat) (d : pydict (list nat)) : Prop := {
  gu_positions : forall g l, In (g, l) d -> l = positions g k /\ l <> [];
  gu_distinct : keys_distinct d;
  gu_covered : forall i, i < k -> exists g l, In (g, l) d /\ in_group g i = true
}.

Lemma grouped_upto_0 : grouped_upto 0 [].
Proof.
  split.
  - intros ? ? [].
  - constructor.
  - intros i Hi. lia.
Qed.

Lemma keys_distinct_app_new {V : Type} (d : pydict V) (k : json) (v : V) :
  keys_distinct d -> dict_get k d = None -> keys_distinct (d ++ [(k, v)]).
Proof.
  unfold keys_distinct. intros Hd Hk. rewrite dict_get_None in Hk.
  induction Hd as [|[g w] d Hg Hd IH].
  - constructor; constructor.
  - constructor.
    + apply Forall_app. split; [exact Hg|]. constructor; [|constructor].
      simpl. eapply Hk. left. reflexivity.
    + apply IH. intros g' v' Hin. eapply Hk. right. exact Hin.
Qed.

Lemma keys_distinct_update {V : Type} (d1 d2 : pydict V) (g : json) (v v' : V) :
  keys_distinct (d1 ++ (g, v) :: d2) -> keys_distinct (d1 ++ (g, v') :: d2).
Proof.
  unfold keys_distinct. induction d1 as [|a d1 IH]; simpl; intros H.
  - inversion H; subst. constructor; auto.
  - inversion H as [|? ? Ha Hd]; subst. constructor; [|auto].
    rewrite Forall_app in *. destruct Ha as [Ha1 Ha2]. split; [exact Ha1|].
    inversion Ha2; subst. constructor; auto.
Qed.

Lemma keys_distinct_In {V : Type} (d : pydict V) (g1 g2 : json) (v1 v2 : V) :
  keys_distinct d -> In (g1, v1) d -> In (g2, v2) d ->
  py_key_eqb g1 g2 = true -> (g1, v1) = (g2, v2).
Proof.
  unfold keys_distinct. intros Hd. induction Hd as [|a d Ha Hd IH]; [intros []|].
  rewrite Forall_forall in Ha.
  intros [->|H1] [E2|H2] Heq.
  - exact E2.
  - specialize (Ha _ H2). simpl in Ha. congruence.
  - subst a. specialize (Ha _ H1). simpl in Ha. rewrite py_key_eqb_sym in Ha. congruence.
  - auto.
Qed.

Lemma group_step_ok (d : pydict (list nat)) (k : nat) (obj : json) (v : json) :
  grouped_upto k d -> nth_error json_objects k = Some obj ->
  group_of group_key obj = Ok v ->
  exists d', group_step group_key d k obj = Ok d' /\ grouped_upto (S k) d'.
Proof.
  intros [Hpos Hdis Hcov] Hobj Hv.
  assert (Hh : py_hashable v = true).
  { unfold group_of, bind in Hv. destruct (get_path _ _); [|discriminate].
    destruct (py_hashable a) eqn:E; congruence. }
  assert (Hink : forall g, in_group g k = py_key_eqb g v).
  { intros g. unfold in_group. rewrite Hobj, Hv. reflexivity. }
  unfold group_step. rewrite Hv. simpl. unfold dict_mem.
  destruct (dict_get v d) as [l|] eqn:Hget; simpl.
  - rewrite Hget. eexists. split; [reflexivity|].
    destruct (dict_get_Some _ _ _ Hget) as (d1 & g & d2 & -> & Hg & Hd1 & Hset).
    rewrite Hset. split.
    + intros g' l' Hin. apply in_app_or in Hin. rewrite positions_S, Hink.
      destruct Hin as [Hin|[[= <- <-]|Hin]].
      * assert (E : py_key_eqb g' v = false) by eauto. rewrite E, app_nil_r.
        apply Hpos. apply in_or_app. auto.
      * rewrite Hg. destruct (Hpos g l) as [-> _]; [apply in_or_app; simpl; auto|].
        split; [reflexivity|]. intros E. apply app_eq_nil in E. destruct E; discriminate.
      * assert (E : py_key_eqb g' v = false).
        { destruct (py_key_eqb g' v) eqn:E; [|reflexivity].
          assert (Hgg : py_key_eqb g g' = true).
          { eapply py_key_eqb_trans; [exact Hg|]. rewrite py_key_eqb_sym. exact E. }
          assert (Heq : (g, l) = (g', l')).
          { eapply keys_distinct_In; eauto; apply in_or_app; simpl; auto. }
          injection Heq as <- <-.
          exfalso. clear - Hdis Hin Hg. unfold keys_distinct in Hdis.
          induction d1 as [|a d1 IH]; simpl in Hdis.
          - inversion Hdis as [|? ? Ha _]; subst. rewrite Forall_forall in Ha.
            specialize (Ha _ Hin). simpl in Ha.
            rewrite py_key_eqb_refl in Ha; [discriminate|].
            eapply py_key_eqb_hashable; eauto.
          - inversion Hdis; subst. auto. }
        rewrite E, app_nil_r. apply Hpos. apply in_or_app. simpl. auto.
    + eapply keys_distinct_update. exact Hdis.
    + intros i Hi. destruct (Nat.eq_dec i k) as [->|Hne].
      * exists g, (l ++ [k]). split; [apply in_or_app; simpl; auto|].
        rewrite Hink. exact Hg.
      * destruct (Hcov i ltac:(lia)) as (g' & l' & Hin & Hgi).
        apply in_app_or in Hin. destruct Hin as [Hin|[[= <- <-]|Hin]].
        -- exists g', l'. split; [apply in_or_app; auto|exact Hgi].
        -- exists g, (l ++ [k]). split; [apply in_or_app; simpl; auto|exact Hgi].
        -- exists g', l'. split; [apply in_or_app; simpl; auto|exact Hgi].
  - rewrite (dict_set_new _ _ _ Hget).
    rewrite (dict_get_app_new _ _ _ Hh Hget).
    eexists. split; [reflexivity|].
    assert (Hset : dict_set v ([] ++ [k]) (d ++ [(v, [])]) = d ++ [(v, [k])]).
    { pose proof (dict_get_app_new d v (@nil nat) Hh Hget) as H.
      destruct (dict_get_Some _ _ _ H) as (d1 & g & d2 & E & Hg & Hd1 & Hset).
      rewrite Hset. simpl.
      assert (d2 = [] /\ d1 = d /\ g = v) as (-> & -> & ->).
      { destruct d2 as [|b d2].
        - apply app_inj_tail in E. destruct E as [-> [= ->]]. auto.
        - exfalso. rewrite dict_get_None in Hget.
          assert (Hin : In (g, @nil nat) d).
          { assert (Hin' : In (g, @nil nat) (removelast (d ++ [(v, [])]))).
            { rewrite E. rewrite removelast_app by discriminate.
              apply in_or_app. right. simpl. destruct d2; simpl; auto. }
            rewrite removelast_last in Hin'. exact Hin'. }
          specialize (Hget _ _ Hin). congruence. }
      reflexivity. }
    rewrite Hset. pose proof Hget as Hnone. rewrite dict_get_None in Hnone. split.
    + intros g' l' Hin. apply in_app_or in Hin. rewrite positions_S, Hink.
      destruct Hin as [Hin|[[= <- <-]|[]]].
      * rewrite (Hnone _ _ Hin), app_nil_r. auto.
      * rewrite py_key_eqb_refl by exact Hh.
        assert (E : positions v k = []).
        { destruct (positions v k) as [|i r] eqn:E; [reflexivity|exfalso].
          assert (Hi : In i (positions v k)) by (rewrite E; simpl; auto).
          apply in_positions in Hi. destruct Hi as [Hi Hvi].
          destruct (Hcov i Hi) as (g' & l' & Hin & Hgi).
          specialize (Hnone _ _ Hin).
          unfold in_group in *. destruct (nth_error json_objects i); [|discriminate].
          destruct (group_of group_key j); [|discriminate].
          rewrite (py_key_eqb_congr g' a v) in Hnone; [|exact Hgi].
          rewrite py_key_eqb_sym in Hnone. congruence. }
        rewrite E. split; [reflexivity|discriminate].
    + apply keys_distinct_app_new; assumption.
    + intros i Hi. destruct (Nat.eq_dec i k) as [->|Hne].
      * exists v, [k]. split; [apply in_or_app; simpl; auto|].
        rewrite Hink. apply py_key_eqb_refl, Hh.
      * destruct (Hcov i ltac:(lia)) as (g' & l' & Hin & Hgi).
        exists g', l'. split; [apply in_or_app; auto|exact Hgi].
Qed.

Lemma in_group_same (g g' : json) (i : nat) :
  in_group g i = true -> in_group g' i = true -> py_key_eqb g g' = true.
Proof.
  unfold in_group. destruct (nth_error json_objects i); [|discriminate].
  destruct (group_of group_key j); [|discriminate].
  intros H1 H2. eapply py_key_eqb_trans; [exact H1|].
  rewrite py_key_eqb_sym. exact H2.
Qed.

Lemma group_loop_ok (rest : list json) :
  forall (d : pydict (list nat)) (k : nat),
  grouped_upto k d -> skipn k json_objects = rest ->
  (forall obj, In obj rest -> exists v, group_of group_key obj = Ok v) ->
  exists d', group_loop group_key d k rest = Ok d' /\
             grouped_upto (k + length rest) d'.
Proof.
  induction rest as [|obj rest IH]; intros d k Hd Hskip Hall; simpl.
  - exists d. rewrite Nat.add_0_r. auto.
  - destruct (Hall obj (or_introl eq_refl)) as [v Hv].
    assert (Hobj : nth_error json_objects k = Some obj).
    { rewrite <- (Nat.add_0_r k), <- nth_error_skipn, Hskip. reflexivity. }
    destruct (group_step_ok d k obj v Hd Hobj Hv) as (d1 & Hstep & Hd1).
    rewrite Hstep. simpl.
    destruct (IH d1 (S k) Hd1) as (d' & Hloop & Hd').
    + change (S k) with (1 + k). rewrite <- skipn_skipn, Hskip. reflexivity.
    + intros o Ho. apply Hall. right. exact Ho.
    + exists d'. split; [exact Hloop|]. rewrite <- Nat.add_succ_comm. exact Hd'.
Qed.

Lemma group_json_objects_grouped :
  (forall obj, In obj json_objects -> exists v, group_of group_key obj = Ok v) ->
  exists grouped, group_json_objects json_objects group_key = Ok grouped /\
                  grouped_upto (length json_objects) grouped.
Proof.
  intros Hall. unfold group_json_objects.
  destruct (group_loop_ok json_objects [] 0 grouped_upto_0 eq_refl Hall) as (d & H1 & H2).
  exists d. auto.
Qed.

Lemma grouped_NoDup (k : nat) (d : pydict (list nat)) :
  (forall g l, In (g, l) d -> l = positions g k /\ l <> []) -> keys_distinct d ->
  NoDup (concat (map snd d)).
Proof.
  intros Hpos Hdis. induction Hdis as [|[g l] d Hg Hdis IH]; simpl; [constructor|].
  apply NoDup_app.
  - destruct (Hpos g l (or_introl eq_refl)) as [-> _]. apply NoDup_positions.
  - apply IH. intros g' l' Hin. apply Hpos. right. exact Hin.
  - intros i Hi Hi'. apply in_concat in Hi'. destruct Hi' as (l' & Hl' & Hil').
    apply in_map_iff in Hl'. destruct Hl' as ([g' l''] & <- & Hin). simpl in Hil'.
    destruct (Hpos g l (or_introl eq_refl)) as [-> _].
    destruct (Hpos g' l'' (or_intror Hin)) as [-> _].
    apply in_positions in Hi, Hil'.
    rewrite Forall_forall in Hg. specialize (Hg _ Hin). simpl in Hg.
    rewrite (in_group_same g g' i) in Hg; [discriminate| |]; tauto.
Qed.

End Grouping.

Lemma key_path_present_group_of (json_objects : list json) (group_key : string) :
  key_path_present json_objects group_key ->
  forall obj, In obj json_objects -> exists v, group_of group_key obj = Ok v.
Proof.
  intros H obj Hin. destruct (H obj Hin) as (v & Hv & Hh).
  exists v. unfold group_of. rewrite Hv. simpl. rewrite Hh. reflexivity.
Qed.

(** Looking up a key finds the entry whose key equals it. *)
Lemma dict_get_of_entry {V : Type} (d : pydict V) (g k : json) (v : V) :
  keys_distinct d -> In (g, v) d -> py_key_eqb g k = true -> dict_get k d = Some v.
Proof.
  intros Hd Hin Hk. induction Hd as [|[g' w] d Hh Hd IH]; simpl; [destruct Hin|].
  destruct Hin as [[= -> ->]|Hin].
  - rewrite Hk. reflexivity.
  - rewrite Forall_forall in Hh. specialize (Hh _ Hin). simpl in Hh.
    destruct (py_key_eqb g' k) eqn:E; [|apply IH, Hin].
    rewrite (py_key_eqb_congr g' k g E), py_key_eqb_sym, Hk in Hh. discriminate.
Qed.

(** C8. Stable grouping: when every record has the key path, the call
    returns; the index list of each returned group is exactly the
    increasing sequence of the input positions whose key value equals that
    group; and the key value of every record is a key of the returned
    dict, where it has that list, which holds the position of the
    record. *)
Theorem group_json_objects_stable (json_objects : list json) (group_key : string) :
  key_path_present json_objects group_key ->
  exists grouped,
    group_json_objects json_objects group_key = Ok grouped /\
    (forall group indices, In (group, indices) grouped ->
       indices = filter (in_group group_key json_objects group)
                        (seq 0 (length json_objects))) /\
    (forall i obj v,
       nth_error json_objects i = Some obj -> group_of group_key obj = Ok v ->
       exists indices,
         dict_get v grouped = Some indices /\
         indices = filter (in_group group_key json_objects v)
                          (seq 0 (length json_objects)) /\
         In i indices).
Proof.
  intros H.
  destruct (group_json_objects_grouped group_key json_objects
              (key_path_present_group_of _ _ H)) as (grouped & Hg & Hinv).
  exists grouped. split; [exact Hg|]. split.
  - intros group indices Hin. apply (gu_positions _ _ _ _ Hinv) in Hin. tauto.
  - intros i obj v Hobj Hv.
    assert (Hi : i < length json_objects) by (apply nth_error_Some; congruence).
    destruct (gu_covered _ _ _ _ Hinv i Hi) as (g & l & Hin & Hgi).
    assert (Hgv : py_key_eqb g v = true).
    { unfold in_group in Hgi. rewrite Hobj, Hv in Hgi. exact Hgi. }
    destruct (gu_positions _ _ _ _ Hinv g l Hin) as [Hl _].
    exists l. split; [|split].
    + eapply dict_get_of_entry; [apply (gu_distinct _ _ _ _ Hinv)|exact Hin|exact Hgv].
    + rewrite Hl. unfold positions. apply filter_ext. intros j. unfold in_group.
      destruct (nth_error json_objects j) as [o|]; [|reflexivity].
      destruct (group_of group_key o) as [w|]; [|reflexivity].
      apply py_key_eqb_congr, Hgv.
    + rewrite Hl. apply in_positions. split; assumption.
Qed.

(** C10. Partition: when every record has the key path, the call returns,
    no index occurs twice over all the groups' index lists (so the lists
    are pairwise disjoint), their union is {0, ..., len(records)-1}, and
    every input index lies in exactly one group. *)
Theorem group_json_objects_partition (json_objects : list json) (group_key : string) :
  key_path_present json_objects group_key ->
  exists grouped,
    group_json_objects json_objects group_key = Ok grouped /\
    NoDup (concat (map snd grouped)) /\
    (forall i, In i (concat (map snd grouped)) <-> i < length json_objects) /\
    (forall i, i < length json_objects ->
       exists group indices, In (group, indices) grouped /\ In i indices /\
         forall group' indices', In (group', indices') grouped -> In i indices' ->
           (group', indices') = (group, indices)).
Proof.
  intros H.
  destruct (group_json_objects_grouped group_key json_objects
              (key_path_present_group_of _ _ H)) as (grouped & Hg & [Hpos Hdis Hcov]).
  exists grouped. split; [exact Hg|].
  assert (Hex : forall i, i < length json_objects ->
            exists group indices, In (group, indices) grouped /\ In i indices /\
              in_group group_key json_objects group i = true).
  { intros i Hi. destruct (Hcov i Hi) as (g & l & Hin & Hgi).
    exists g, l. split; [exact Hin|]. split; [|exact Hgi].
    destruct (Hpos g l Hin) as [-> _]. apply in_positions. auto. }
  split; [|split].
  - eapply grouped_NoDup; eauto.
  - intros i. split.
    + intros Hi. apply in_concat in Hi. destruct Hi as (l & Hl & Hil).
      apply in_map_iff in Hl. destruct Hl as ([g l'] & <- & Hin). simpl in Hil.
      destruct (Hpos g l' Hin) as [-> _]. apply in_positions in Hil. tauto.
    + intros Hi. destruct (Hex i Hi) as (g & l & Hin & Hil & _).
      apply in_concat. exists l. split; [|exact Hil].
      apply in_map_iff. exists (g, l). auto.
  - intros i Hi. destruct (Hex i Hi) as (g & l & Hin & Hil & Hgi).
    exists g, l. split; [exact Hin|]. split; [exact Hil|].
    intros g' l' Hin' Hil'. destruct (Hpos g' l' Hin') as [-> _].
    apply in_positions in Hil'. destruct Hil' as [_ Hg'i].
    eapply keys_distinct_In; eauto.
    eapply in_group_same; eauto.
Qed.

(** ** DAG execution engine *)


Section Traversal.
Variable tensor : Type.
Variable submodules : string -> option (tensor -> result tensor).
Variable f_activation : tensor -> tensor.
Variable torch_cat : list tensor -> result tensor.
Variable h1 : tensor.

#[local] Abbreviation rgo :=
  (recursive_get_output tensor submodules f_activation torch_cat).
#[local] Abbreviation body :=
  (try_body tensor submodules f_activation torch_cat).

Section Reports.
Variable pipeline : list Step.





#[local] Abbreviation inside :=
  (raised_inside tensor submodules f_activation torch_cat h1 pipeline).







End Reports.

(** A frame whose [try] block returns a value returns it unchanged. *)
Lemma recursive_get_output_returns (depth : nat) (pipeline : list Step)
    (current_index : reference) (v : tensor) :
  body (rgo depth h1 pipeline) h1 pipeline current_index = ([], Return v) ->
  rgo (S depth) h1 pipeline current_index = ([], Return v).
Proof. intros H. simpl. rewrite H. reflexivity. Qed.

(** C4 (as the code has it). On the three-node chain with identity
    computation units, node 0 takes the encoded external features [h1]
    (base case), node 1 is [f] of node 0, and node 2 is [f] of the
    concatenation of nodes 0 and 1 along the feature axis -- [f] being the
    activation that follows every unit. *)
Theorem chain_evaluation (n0 n1 n2 : string) (depth : nat) (c : tensor) :
  submodules n0 = Some (fun t => Ok t) ->
  submodules n1 = Some (fun t => Ok t) ->
  submodules n2 = Some (fun t => Ok t) ->
  torch_cat [f_activation h1; f_activation (f_activation h1)] = Ok c ->
  rgo (3 + depth) h1 (chain n0 n1 n2) (RefIndex 0)
    = ([], Return (f_activation h1)) /\
  rgo (3 + depth) h1 (chain n0 n1 n2) (RefIndex 1)
    = ([], Return (f_activation (f_activation h1))) /\
  rgo (3 + depth) h1 (chain n0 n1 n2) (RefIndex 2)
    = ([], Return (f_activation c)).
Proof.
  intros H0 H1 H2 Hc.
  assert (E0 : forall d, rgo (S d) h1 (chain n0 n1 n2) (RefIndex 0)
                         = ([], Return (f_activation h1))).
  { intros d. apply recursive_get_output_returns.
    unfold try_body. simpl. rewrite H0. reflexivity. }
  assert (E1 : forall d, rgo (S (S d)) h1 (chain n0 n1 n2) (RefIndex 1)
                         = ([], Return (f_activation (f_activation h1)))).
  { intros d. apply recursive_get_output_returns.
    unfold try_body. 
    change (py_list_index (chain n0 n1 n2) (RefIndex 1))
      with (Ok {| name := n1; inputs := [RefIndex 0] |}).
    cbv beta iota. cbn [name inputs]. rewrite H1.
    cbn [has_external_input existsb collect_outputs].
    rewrite (E0 d). reflexivity. }
  split; [apply E0|]. split; [apply E1|].
  apply recursive_get_output_returns.
  unfold try_body.
  change (py_list_index (chain n0 n1 n2) (RefIndex 2))
    with (Ok {| name := n2; inputs := [RefIndex 0; RefIndex 1] |}).
  cbv beta iota. cbn [name inputs]. rewrite H2.
  cbn [has_external_input existsb collect_outputs].
  rewrite (E0 (S depth)), (E1 depth). simpl. rewrite Hc. reflexivity.
Qed.

End Traversal.

(** The chain evaluated on example tensors with a leaky ReLU. *)
Lemma chain_evaluation_witness :
  recursive_get_output ExampleTorch.tensor ExampleTorch.identity_units
    ExampleTorch.leaky_relu ExampleTorch.torch_cat 3 ExampleTorch.h1
    (chain "a" "b" "c") (RefIndex 2)
  = ([], Return [[(-1 # 10000)%Q; (-1 # 1000000)%Q]]).
Proof.
  apply (chain_evaluation ExampleTorch.tensor ExampleTorch.identity_units
           ExampleTorch.leaky_relu ExampleTorch.torch_cat ExampleTorch.h1
           "a" "b" "c" 0 [[(-1 # 100)%Q; (-1 # 10000)%Q]]); reflexivity.
Defined.

(** C4, as stated, fails: with identity units and a leaky ReLU, node 2 is
    not the bare concatenation of nodes 0 and 1. *)
Lemma chain_node2_is_not_the_reduction :
  exists v0 v1 c,
    recursive_get_output ExampleTorch.tensor ExampleTorch.identity_units
      ExampleTorch.leaky_relu ExampleTorch.torch_cat 3 ExampleTorch.h1
      (chain "a" "b" "c") (RefIndex 0) = ([], Return v0) /\
    recursive_get_output ExampleTorch.tensor ExampleTorch.identity_units
      ExampleTorch.leaky_relu ExampleTorch.torch_cat 3 ExampleTorch.h1
      (chain "a" "b" "c") (RefIndex 1) = ([], Return v1) /\
    ExampleTorch.torch_cat [v0; v1] = Ok c /\
    recursive_get_output ExampleTorch.tensor ExampleTorch.identity_units
      ExampleTorch.leaky_relu ExampleTorch.torch_cat 3 ExampleTorch.h1
      (chain "a" "b" "c") (RefIndex 2) <> ([], Return c).
Proof.
  exists [[(-1 # 100)%Q]], [[(-1 # 10000)%Q]], [[(-1 # 100)%Q; (-1 # 10000)%Q]].
  repeat split; try reflexivity. vm_compute. discriminate.
Qed.


(** The exit passes through an enclosing frame: step "b" asks for step
    "a", which has no inputs; the frame of "a" prints and exits, and the
    frame of "b" prints nothing. *)
Lemma example_exit_passes_enclosing_frame :
  raised_inside ExampleTorch.tensor ExampleTorch.identity_units ExampleTorch.leaky_relu
    ExampleTorch.torch_cat ExampleTorch.h1
    [ {| name := "a"; inputs := [] |}; {| name := "b"; inputs := [RefIndex 0] |} ]
    1000 (RefIndex 1) [] UnboundLocalError {| name := "a"; inputs := [] |} /\
  recursive_get_output ExampleTorch.tensor ExampleTorch.identity_units
    ExampleTorch.leaky_relu ExampleTorch.torch_cat 1000 ExampleTorch.h1
    [ {| name := "a"; inputs := [] |}; {| name := "b"; inputs := [RefIndex 0] |} ]
    (RefIndex 1)
  = ([PrintError UnboundLocalError; PrintStep {| name := "a"; inputs := [] |}],
     SystemExit 1).
Proof.
  split; [|reflexivity].
  eapply (raised_below _ _ _ _ _ _ 999 (RefIndex 1) {| name := "b"; inputs := [RefIndex 0] |}
            (fun t => Ok t) [] (RefIndex 0) []); try reflexivity.
  - constructor.
  - apply raised_here; reflexivity.
Qed.


(** ** Shuffling *)

Lemma list_set_length {A : Type} (i : nat) (a : A) (x : list A) :
  length (list_set i a x) = length x.
Proof.
  revert i. induction x as [|b x IH]; intros [|i]; simpl; auto.
Qed.

Lemma nth_error_list_set_eq {A : Type} (i : nat) (a : A) (x : list A) :
  i < length x -> nth_error (list_set i a x) i = Some a.
Proof.
  revert i. induction x as [|b x IH]; intros [|i] H; simpl in *; try lia; auto.
  apply IH. lia.
Qed.

Lemma nth_error_list_set_ne {A : Type} (i j : nat) (a : A) (x : list A) :
  i <> j -> nth_error (list_set i a x) j = nth_error x j.
Proof.
  revert i j. induction x as [|b x IH]; intros [|i] [|j] H; simpl; auto.
  congruence.
Qed.

(** Writing [a] where [b] was, with [b] put in front, permutes. *)
Lemma list_set_Permutation {A : Type} (j : nat) (a b : A) (x : list A) :
  nth_error x j = Some b -> Permutation (b :: list_set j a x) (a :: x).
Proof.
  revert j. induction x as [|c x IH]; intros [|j]; simpl; try discriminate.
  - intros [= ->]. apply perm_swap.
  - intros H. rewrite (perm_swap c b), (perm_swap c a). apply perm_skip, IH, H.
Qed.

Lemma swap_Permutation {A : Type} (i j : nat) (x : list A) :
  Permutation (swap i j x) x.
Proof.
  unfold swap.
  destruct (nth_error x i) as [xi|] eqn:Hi; [|reflexivity].
  destruct (nth_error x j) as [xj|] eqn:Hj; [|reflexivity].
  revert i j Hi Hj. induction x as [|c x IH]; intros [|i] [|j]; simpl; try discriminate.
  - intros [= ->] [= ->]. reflexivity.
  - intros [= ->] Hj. apply list_set_Permutation, Hj.
  - intros Hi [= ->]. apply list_set_Permutation, Hi.
  - intros Hi Hj. apply perm_skip, IH; assumption.
Qed.

Section RandomFacts.
Context {R : PyRandom}.

Lemma shuffle_loop_Permutation {A : Type} (i : nat) :
  forall (x : list A) (r : rng), Permutation (fst (shuffle_loop i x r)) x.
Proof.
  induction i as [|i IH]; intros x r; simpl; [reflexivity|].
  destruct (rng_randbelow _ r) as [j r'].
  rewrite IH. apply swap_Permutation.
Qed.

Lemma shuffle_Permutation {A : Type} (x : list A) (r : rng) :
  Permutation (fst (shuffle x r)) x.
Proof. apply shuffle_loop_Permutation. Qed.

Lemma shuffle_length {A : Type} (x : list A) (r : rng) :
  length (fst (shuffle x r)) = length x.
Proof. apply Permutation_length, shuffle_Permutation. Qed.

(** ** Per-group sampler *)

Lemma RandomSampler_iter_n (s : RandomSampler) :
  rs_n (snd (RandomSampler_iter s)) = rs_n s.
Proof.
  unfold RandomSampler_iter. destruct (shuffle _ _). reflexivity.
Qed.

Lemma RandomSampler_iter_indices (s : RandomSampler) :
  rs_indices (snd (RandomSampler_iter s)) = fst (RandomSampler_iter s).
Proof.
  unfold RandomSampler_iter. destruct (shuffle _ _). reflexivity.
Qed.

Lemma RandomSampler_iter_Permutation (s : RandomSampler) :
  Permutation (fst (RandomSampler_iter s)) (rs_indices s).
Proof.
  unfold RandomSampler_iter.
  pose proof (shuffle_Permutation (rs_indices s) (rs_random s)) as H.
  destruct (shuffle _ _). exact H.
Qed.

Lemma sampler_stream_firstn (k m : nat) :
  forall s, k <= m -> firstn k (sampler_stream m s) = sampler_stream k s.
Proof.
  revert m. induction k as [|k IH]; intros m s H; [reflexivity|].
  destruct m as [|m]; [lia|]. simpl.
  destruct (RandomSampler_iter s) as [p s']. simpl. f_equal. apply IH. lia.
Qed.

(** A sampler at address [id] hands out its own stream, whatever else
    runs in between. *)
Lemma run_sampler_stream (ops : list op) :
  forall (w : world) (id : nat) (s : RandomSampler),
  nth_error (heap w) id = Some s ->
  permutations_of id (snd (run w ops)) = sampler_stream (requests id ops) s.
Proof.
  unfold permutations_of, requests.
  induction ops as [|o ops IH]; intros w id s Hs; [reflexivity|].
  cbn [run].
  assert (Hsame : forall w', heap w' = heap w ->
            map snd (filter (fun x => fst x =? id) (snd (run w' ops)))
            = sampler_stream (length (filter (fun o => match o with
                                 | OpIter id' => id' =? id | _ => false end) ops)) s).
  { intros w' Hw. apply IH. rewrite Hw. exact Hs. }
  destruct o as [n seed|id'|seed|n|n]; cbn [step filter].
  - specialize (IH {| global_random := global_random w;
                      heap := heap w ++ [RandomSampler_init n seed] |} id s).
    destruct (run _ ops) as [w'' trace]. apply IH. simpl.
    rewrite nth_error_app1; [exact Hs|]. apply nth_error_Some. congruence.
  - destruct (nth_error (heap w) id') as [s'|] eqn:Hs'.
    + destruct (RandomSampler_iter s') as [p s''] eqn:Hit.
      destruct (Nat.eqb_spec id' id) as [->|Hne].
      * assert (s' = s) by congruence. subst s'.
        specialize (IH {| global_random := global_random w;
                          heap := list_set id s'' (heap w) |} id s'').
        destruct (run _ ops) as [w'' trace]. cbn [snd filter fst].
        rewrite Nat.eqb_refl. cbn [map snd length sampler_stream].
        rewrite Hit. f_equal. apply IH. simpl.
        apply nth_error_list_set_eq. apply nth_error_Some. congruence.
      * specialize (IH {| global_random := global_random w;
                          heap := list_set id' s'' (heap w) |} id s).
        destruct (run _ ops) as [w'' trace]. cbn [snd filter fst].
        destruct (Nat.eqb_spec id' id) as [|_]; [contradiction|].
        apply IH. simpl. rewrite nth_error_list_set_ne; assumption.
    + specialize (Hsame w eq_refl).
      destruct (run w ops) as [w'' trace]. cbn [snd].
      destruct (Nat.eqb_spec id' id) as [->|Hne]; [congruence|]. exact Hsame.
  - specialize (Hsame {| global_random := rng_seed seed; heap := heap w |} eq_refl).
    destruct (run _ ops) as [w'' trace]. exact Hsame.
  - specialize (Hsame {| global_random := snd (rng_randbelow n (global_random w));
                         heap := heap w |} eq_refl).
    destruct (run _ ops) as [w'' trace]. exact Hsame.
  - specialize (Hsame {| global_random := snd (shuffle (seq 0 n) (global_random w));
                         heap := heap w |} eq_refl).
    destruct (run _ ops) as [w'' trace]. exact Hsame.
Qed.

(** C7. Two samplers constructed with the same [n] and [seed] hand out
    the same permutations on their successive iteration requests: each is
    a prefix of the one stream that [(n, seed)] determines, whatever other
    samplers and the module-level random stream do in between, and in
    whichever interpreter states the two live. *)
Theorem samplers_with_same_seed_agree (n : nat) (seed : Z)
    (w1 w2 : world) (a b : nat) (ops1 ops2 : list op) :
  nth_error (heap w1) a = Some (RandomSampler_init n seed) ->
  nth_error (heap w2) b = Some (RandomSampler_init n seed) ->
  permutations_of a (snd (run w1 ops1))
    = sampler_stream (requests a ops1) (RandomSampler_init n seed) /\
  permutations_of b (snd (run w2 ops2))
    = sampler_stream (requests b ops2) (RandomSampler_init n seed) /\
  forall k, k <= requests a ops1 -> k <= requests b ops2 ->
    firstn k (permutations_of a (snd (run w1 ops1)))
    = firstn k (permutations_of b (snd (run w2 ops2))).
Proof.
  intros Ha Hb.
  pose proof (run_sampler_stream ops1 w1 a _ Ha) as E1.
  pose proof (run_sampler_stream ops2 w2 b _ Hb) as E2.
  split; [exact E1|]. split; [exact E2|].
  intros k H1 H2. rewrite E1, E2, !sampler_stream_firstn; auto.
Qed.

End RandomFacts.

(** ** Batches *)

Lemma ceil_div_spec (a b : nat) : 0 < b -> (a + b - 1) / b = ceil_div a b.
Proof.
  intros Hb. unfold ceil_div.
  pose proof (Nat.div_mod_eq a b) as E.
  pose proof (Nat.mod_upper_bound a b ltac:(lia)) as Hr.
  destruct (Nat.eqb_spec (a mod b) 0) as [H0|H0].
  - symmetry. apply (Nat.div_unique _ _ _ (b - 1)); [lia|]. nia.
  - symmetry. apply (Nat.div_unique _ _ _ (a mod b - 1)); [lia|]. nia.
Qed.

Lemma div_add_one (m b : nat) : 0 < b -> (b + m) / b = S (m / b).
Proof.
  intros Hb. replace (b + m) with (m + 1 * b) by lia.
  rewrite Nat.div_add by lia. lia.
Qed.

Lemma mod_add_one (m b : nat) : 0 < b -> (b + m) mod b = m mod b.
Proof.
  intros Hb. replace (b + m) with (m + 1 * b) by lia.
  apply Nat.Div0.mod_add.
Qed.

(** The number of batches that [batch_loop] cuts. *)
Lemma batch_loop_length (bs : nat) (drop : bool) (indices : list nat) :
  0 < bs -> forall batch, length batch < bs ->
  length (batch_loop bs drop batch indices)
  = if drop then (length batch + length indices) / bs
    else (length batch + length indices + bs - 1) / bs.
Proof.
  intros Hbs. induction indices as [|idx rest IH]; intros batch Hb; simpl.
  - rewrite Nat.add_0_r. destruct drop; simpl.
    + rewrite andb_false_r. simpl. symmetry. apply Nat.div_small. exact Hb.
    + rewrite andb_true_r. destruct (Nat.ltb_spec 0 (length batch)) as [H|H]; simpl.
      * apply (Nat.div_unique _ _ _ (length batch - 1)); lia.
      * symmetry. apply Nat.div_small. lia.
  - rewrite length_app. simpl.
    destruct (Nat.eqb_spec (length batch + 1) bs) as [E|E]; simpl.
    + rewrite (IH [] ltac:(simpl; lia)). simpl.
      replace (length batch + S (length rest)) with (bs + length rest) by lia.
      destruct drop.
      * rewrite div_add_one by lia. reflexivity.
      * replace (bs + length rest + bs - 1) with (bs + (length rest + bs - 1)) by lia.
        rewrite div_add_one by lia. reflexivity.
    + rewrite (IH (batch ++ [idx])) by (rewrite length_app; simpl; lia).
      rewrite length_app. simpl.
      replace (length batch + 1 + length rest) with (length batch + S (length rest)) by lia.
      reflexivity.
Qed.

(** The batches are consecutive pieces of the indices; only a final
    incomplete batch can be missing, and only when it is dropped. *)
Lemma batch_loop_concat (bs : nat) (drop : bool) (indices : list nat) :
  0 < bs -> forall batch, length batch < bs ->
  exists dropped,
    batch ++ indices = concat (batch_loop bs drop batch indices) ++ dropped /\
    length dropped = if drop then (length batch + length indices) mod bs else 0.
Proof.
  intros Hbs. induction indices as [|idx rest IH]; intros batch Hb; simpl.
  - rewrite Nat.add_0_r, app_nil_r. destruct drop; simpl.
    + rewrite andb_false_r. exists batch. split; [reflexivity|].
      symmetry. apply Nat.mod_small. exact Hb.
    + rewrite andb_true_r. exists []. split; [|reflexivity].
      destruct (Nat.ltb_spec 0 (length batch)) as [H|H]; simpl.
      * rewrite !app_nil_r. reflexivity.
      * destruct batch; [reflexivity|simpl in H; lia].
  - rewrite length_app. simpl.
    destruct (Nat.eqb_spec (length batch + 1) bs) as [E|E]; simpl.
    + destruct (IH [] ltac:(simpl; lia)) as (dropped & Hc & Hl).
      exists dropped. split.
      * rewrite <- app_assoc, <- Hc. rewrite <- app_assoc. reflexivity.
      * rewrite Hl. simpl.
        replace (length batch + S (length rest)) with (bs + length rest) by lia.
        destruct drop; [|reflexivity]. rewrite mod_add_one by lia. reflexivity.
    + destruct (IH (batch ++ [idx])) as (dropped & Hc & Hl).
      { rewrite length_app. simpl. lia. }
      exists dropped. split.
      * rewrite <- Hc, <- app_assoc. reflexivity.
      * rewrite Hl, length_app. simpl.
        replace (length batch + 1 + length rest) with (length batch + S (length rest)) by lia.
        reflexivity.
Qed.

(** ** Dicts as maps *)

Lemma py_key_eqb_right (k k' g : json) :
  py_key_eqb k k' = true -> py_key_eqb g k = py_key_eqb g k'.
Proof.
  intros H. rewrite (py_key_eqb_sym g k), (py_key_eqb_sym g k').
  apply py_key_eqb_congr, H.
Qed.

Lemma dict_get_set {V : Type} (k k' : json) (v : V) (d : pydict V) :
  dict_get k' (dict_set k v d) = if py_key_eqb k k' then Some v else dict_get k' d.
Proof.
  induction d as [|[g w] d IH]; simpl.
  - destruct (py_key_eqb k k'); reflexivity.
  - destruct (py_key_eqb g k) eqn:Egk; simpl.
    + rewrite (py_key_eqb_congr g k k' Egk).
      destruct (py_key_eqb k k'); reflexivity.
    + rewrite IH. destruct (py_key_eqb g k') eqn:Egk'; [|reflexivity].
      destruct (py_key_eqb k k') eqn:Ekk'; [|reflexivity].
      rewrite (py_key_eqb_right k k' g Ekk') in Egk. congruence.
Qed.

Lemma dict_get_eqb {V : Type} (k k' : json) (d : pydict V) :
  py_key_eqb k k' = true -> dict_get k d = dict_get k' d.
Proof.
  intros H. induction d as [|[g w] d IH]; simpl; [reflexivity|].
  rewrite (py_key_eqb_right k k' g H), IH. reflexivity.
Qed.

Lemma dict_set_same {V : Type} (k : json) (v : V) (d : pydict V) :
  dict_get k d = Some v -> dict_set k v d = d.
Proof.
  induction d as [|[g w] d IH]; simpl; [discriminate|].
  destruct (py_key_eqb g k).
  - intros [= ->]. reflexivity.
  - intros H. rewrite IH; auto.
Qed.

Lemma dict_get_hashable {V : Type} (k : json) (v : V) (d : pydict V) :
  dict_get k d = Some v -> py_key_eqb k k = true.
Proof.
  induction d as [|[g w] d IH]; simpl; [discriminate|].
  destruct (py_key_eqb g k) eqn:E; [|exact IH].
  intros _. rewrite py_key_eqb_sym in E.
  apply py_key_eqb_refl. eapply py_key_eqb_hashable; eauto.
Qed.

Lemma In_dict_get {V : Type} (g : json) (v : V) (d : pydict V) :
  keys_distinct d -> py_key_eqb g g = true -> In (g, v) d -> dict_get g d = Some v.
Proof.
  intros Hd Hg. induction Hd as [|[g' w] d Hh Hd IH]; simpl; [intros []|].
  intros [[= -> ->]|Hin].
  - rewrite Hg. reflexivity.
  - rewrite Forall_forall in Hh. specialize (Hh _ Hin). simpl in Hh.
    rewrite Hh. auto.
Qed.

(** ** One pass of the grouped batch loader *)

Section Pass.
Context {R : PyRandom}.
Variables item yielded : Type.
Variable getitem : dataset_class item.
Variable emit : json -> list json -> list item -> result yielded.

Lemma DataLoader_iter_static (dl : DataLoader) :
  static (snd (DataLoader_iter dl)) = static dl.
Proof.
  unfold DataLoader_iter, static. destruct (dl_sampler dl) as [s|] eqn:E.
  - pose proof (RandomSampler_iter_n s) as Hn.
    destruct (RandomSampler_iter s) as [p s']. simpl in *.
    rewrite Hn. reflexivity.
  - simpl. rewrite E. reflexivity.
Qed.

Lemma DataLoader_len_static (dl dl' : DataLoader) :
  static dl' = static dl -> DataLoader_len dl' = DataLoader_len dl.
Proof.
  unfold static, DataLoader_len, sampler_len, RandomSampler_len.
  intros [= E1 E2 E3 E4]. rewrite E1, E2, E3.
  destruct (dl_sampler dl'), (dl_sampler dl); simpl in E4; try discriminate;
    try injection E4 as ->; reflexivity.
Qed.

Lemma DataLoader_iter_wf (dl : DataLoader) :
  dl_wf dl -> dl_wf (snd (DataLoader_iter dl)).
Proof.
  unfold DataLoader_iter, dl_wf. destruct (dl_sampler dl) as [s|] eqn:E.
  - intros (Hbs & Hn & Hp).
    pose proof (RandomSampler_iter_n s) as Hn'.
    pose proof (RandomSampler_iter_indices s) as Hi.
    pose proof (RandomSampler_iter_Permutation s) as Hp'.
    destruct (RandomSampler_iter s) as [p s']. simpl in *.
    split; [exact Hbs|]. split; [congruence|].
    rewrite Hi, Hn', Hp'. exact Hp.
  - simpl. rewrite E. auto.
Qed.

Lemma DataLoader_iter_batches (dl : DataLoader) :
  fst (DataLoader_iter dl)
  = batch_loop (dl_batch_size dl) (dl_drop_last dl) [] (pass_indices dl).
Proof.
  unfold DataLoader_iter, pass_indices. destruct (dl_sampler dl) as [s|]; [|reflexivity].
  destruct (RandomSampler_iter s). reflexivity.
Qed.

Lemma pass_indices_Permutation (dl : DataLoader) :
  dl_wf dl -> Permutation (pass_indices dl) (seq 0 (length (dl_dataset dl))).
Proof.
  unfold dl_wf, pass_indices. destruct (dl_sampler dl) as [s|]; [|reflexivity].
  intros (_ & Hn & Hp). rewrite RandomSampler_iter_Permutation, Hp, Hn. reflexivity.
Qed.

Lemma pass_indices_length (dl : DataLoader) :
  dl_wf dl -> length (pass_indices dl) = sampler_len dl.
Proof.
  intros H. rewrite (Permutation_length (pass_indices_Permutation dl H)), length_seq.
  unfold sampler_len, RandomSampler_len. destruct H as (_ & H).
  destruct (dl_sampler dl); [symmetry; tauto|reflexivity].
Qed.

Lemma DataLoader_iter_length (dl : DataLoader) :
  dl_wf dl -> length (fst (DataLoader_iter dl)) = DataLoader_len dl.
Proof.
  intros H. rewrite DataLoader_iter_batches.
  rewrite batch_loop_length; [|apply H|simpl; apply H].
  simpl. rewrite (pass_indices_length dl H). reflexivity.
Qed.

Lemma DataLoader_iter_range (dl : DataLoader) (batch : list nat) (i : nat) :
  dl_wf dl -> In batch (fst (DataLoader_iter dl)) -> In i batch ->
  i < length (dl_dataset dl).
Proof.
  intros H Hb Hi. rewrite DataLoader_iter_batches in Hb.
  destruct (batch_loop_concat (dl_batch_size dl) (dl_drop_last dl) (pass_indices dl)
              (proj1 H) [] (proj1 H)) as (dropped & Hc & _).
  simpl in Hc.
  assert (Hin : In i (pass_indices dl)).
  { rewrite Hc. apply in_or_app. left. apply in_concat. eauto. }
  apply (Permutation_in _ (pass_indices_Permutation dl H)) in Hin.
  apply in_seq in Hin. lia.
Qed.

Lemma batch_loop_sizes (bs : nat) (drop : bool) (indices : list nat) :
  0 < bs -> forall batch, length batch < bs ->
  Forall (fun b => 0 < length b <= bs /\ (drop = true -> length b = bs))
         (batch_loop bs drop batch indices).
Proof.
  intros Hbs. induction indices as [|idx rest IH]; intros batch Hb; simpl.
  - destruct (0 <? length batch) eqn:E; simpl; [|constructor].
    destruct drop; simpl; constructor; [|constructor].
    apply Nat.ltb_lt in E. split; [lia|discriminate].
  - rewrite length_app. simpl.
    destruct (Nat.eqb_spec (length batch + 1) bs) as [E|E].
    + constructor; [|apply IH; simpl; lia].
      rewrite length_app. simpl. split; [lia|]. intros _. exact E.
    + apply IH. rewrite length_app. simpl. lia.
Qed.

Lemma DataLoader_iter_nonempty (dl : DataLoader) (batch : list nat) :
  dl_wf dl -> In batch (fst (DataLoader_iter dl)) -> batch <> [].
Proof.
  intros H Hb. rewrite DataLoader_iter_batches in Hb.
  pose proof (batch_loop_sizes (dl_batch_size dl) (dl_drop_last dl) (pass_indices dl)
                (proj1 H) [] (proj1 H)) as HF.
  rewrite Forall_forall in HF. destruct (HF _ Hb) as [[Hpos _] _].
  intros ->. simpl in Hpos. lia.
Qed.

Lemma count_label_cons (g l : json) (labels : list json) :
  count_label g (l :: labels)
  = (if py_key_eqb g l then 1 else 0) + count_label g labels.
Proof. unfold count_label. simpl. destruct (py_key_eqb g l); reflexivity. Qed.

Lemma batches_of_cons (g : json) (r : batch_record yielded)
    (records : list (batch_record yielded)) :
  batches_of g (r :: records)
  = (if py_key_eqb g (br_group r) then [br_indices r] else []) ++ batches_of g records.
Proof. unfold batches_of. simpl. destruct (py_key_eqb g (br_group r)); reflexivity. Qed.

Lemma mapM_ok {A B : Type} (f : A -> result B) (l : list A) :
  (forall a, In a l -> exists b, f a = Ok b) -> exists bs, mapM f l = Ok bs.
Proof.
  induction l as [|a l IH]; intros H; simpl; [eauto|].
  destruct (H a (or_introl eq_refl)) as [b ->].
  destruct IH as [bs ->]; [intros; apply H; right; assumption|]. simpl. eauto.
Qed.

(** What opening the iterator of label [l] establishes. *)
Lemma open_iterator_spec (dls : pydict DataLoader) (iters : pydict (list (list nat)))
    (l : json) (labels : list json) :
  pass_inv dls iters (l :: labels) ->
  exists dls1 iters1 dl1 batch more,
    open_iterator l dls iters = Ok (dls1, iters1) /\
    dict_get l iters1 = Some (batch :: more) /\
    dict_get l dls1 = Some dl1 /\
    pass_inv dls1 (dict_set l more iters1) labels /\
    (forall g, option_map static (dict_get g dls1) = option_map static (dict_get g dls)) /\
    (unshuffled dls -> dls1 = dls) /\
    (forall i, In i batch -> i < length (dl_dataset dl1)) /\
    batch <> [] /\
    (forall g dl, dict_get g dls = Some dl ->
       (if py_key_eqb g l then batch :: more else
          match dict_get g (dict_set l more iters1) with
          | Some batches => batches
          | None => match dict_get g dls1 with
                    | Some dl' => fst (DataLoader_iter dl')
                    | None => []
                    end
          end)
       = match dict_get g iters with
         | Some batches => batches
         | None => fst (DataLoader_iter dl)
         end).
Proof.
  intros [Hwf Hlab Hcount Hrange Hnonempty].
  destruct (dict_get l dls) as [dl0|] eqn:Hl;
    [|exfalso; apply (Hlab l (or_introl eq_refl)); exact Hl].
  pose proof (dict_get_hashable _ _ _ Hl) as Hll.
  pose proof (Hcount l dl0 Hl) as Hc. rewrite count_label_cons, Hll in Hc.
  unfold open_iterator, dict_mem.
  destruct (dict_get l iters) as [batches0|] eqn:Hit; simpl.
  - (* the iterator is open *)
    destruct batches0 as [|batch more]; [simpl in Hc; lia|].
    exists dls, iters, dl0, batch, more.
    split; [reflexivity|]. split; [exact Hit|]. split; [exact Hl|].
    split; [|split; [reflexivity|split; [reflexivity|split; [|split]]]].
    + split.
      * exact Hwf.
      * intros l' Hin. apply Hlab. right. exact Hin.
      * intros g dl Hg. specialize (Hcount g dl Hg).
        rewrite count_label_cons in Hcount. rewrite dict_get_set.
        rewrite (py_key_eqb_sym l g).
        destruct (py_key_eqb g l) eqn:E.
        -- rewrite (dict_get_eqb g l iters E), Hit in Hcount. simpl in Hcount. lia.
        -- exact Hcount.
      * intros g dl batches Hg. rewrite dict_get_set, (py_key_eqb_sym l g).
        destruct (py_key_eqb g l) eqn:E.
        -- intros [= <-] b i Hb Hi.
           eapply (Hrange g dl (batch :: more) Hg);
             [rewrite (dict_get_eqb g l iters E); exact Hit|right; exact Hb|exact Hi].
        -- apply Hrange. exact Hg.
      * intros g batches. rewrite dict_get_set, (py_key_eqb_sym l g).
        destruct (py_key_eqb g l) eqn:E.
        -- intros [= <-] b Hb.
           apply (Hnonempty l (batch :: more) Hit). right. exact Hb.
        -- apply Hnonempty.
    + intros i Hi. apply (Hrange l dl0 (batch :: more) Hl Hit batch i); simpl; auto.
    + apply (Hnonempty l (batch :: more) Hit). left. reflexivity.
    + intros g dl Hg. rewrite dict_get_set, (py_key_eqb_sym l g).
      destruct (py_key_eqb g l) eqn:E.
      * rewrite (dict_get_eqb g l iters E), Hit. reflexivity.
      * rewrite Hg. reflexivity.
  - (* the iterator is opened now *)
    rewrite Hl.
    pose proof (DataLoader_iter_length dl0 (Hwf _ _ Hl)) as Hlen.
    pose proof (DataLoader_iter_static dl0) as Hst.
    pose proof (DataLoader_iter_wf dl0 (Hwf _ _ Hl)) as Hwf'.
    pose proof (fun b i => DataLoader_iter_range dl0 b i (Hwf _ _ Hl)) as Hrg.
    pose proof (fun b => DataLoader_iter_nonempty dl0 b (Hwf _ _ Hl)) as Hnb.
    destruct (DataLoader_iter dl0) as [batches dl0'] eqn:Hiter. simpl in *.
    destruct batches as [|batch more]; [simpl in Hlen; lia|].
    assert (Hds : dl_dataset dl0' = dl_dataset dl0).
    { unfold static in Hst. congruence. }
    assert (Hget1 : forall g, dict_get g (dict_set l dl0' dls)
                     = if py_key_eqb g l then Some dl0' else dict_get g dls).
    { intros g. rewrite dict_get_set, (py_key_eqb_sym l g). reflexivity. }
    assert (Hget2 : forall g, dict_get g (dict_set l more (dict_set l (batch :: more) iters))
                     = if py_key_eqb g l then Some more else dict_get g iters).
    { intros g. rewrite !dict_get_set, (py_key_eqb_sym l g).
      destruct (py_key_eqb g l); reflexivity. }
    exists (dict_set l dl0' dls), (dict_set l (batch :: more) iters), dl0', batch, more.
    split; [reflexivity|].
    split; [rewrite dict_get_set, Hll; reflexivity|].
    split; [rewrite Hget1, Hll; reflexivity|].
    split; [|split; [|split; [|split; [|split]]]].
    + split.
      * intros g dl. rewrite Hget1. destruct (py_key_eqb g l).
        -- intros [= <-]. exact Hwf'.
        -- apply Hwf.
      * intros l' Hin. rewrite Hget1. destruct (py_key_eqb l' l); [discriminate|].
        apply Hlab. right. exact Hin.
      * intros g dl. rewrite Hget1, Hget2. destruct (py_key_eqb g l) eqn:E.
        -- intros [= <-].
           assert (Hg : dict_get g dls = Some dl0)
             by (rewrite (dict_get_eqb g l dls E); exact Hl).
           specialize (Hcount g dl0 Hg). rewrite count_label_cons, E in Hcount.
           rewrite (dict_get_eqb g l iters E), Hit in Hcount.
           simpl in Hlen. lia.
        -- intros Hg. specialize (Hcount g dl Hg).
           rewrite count_label_cons, E in Hcount. exact Hcount.
      * intros g dl batches'. rewrite Hget1, Hget2. destruct (py_key_eqb g l) eqn:E.
        -- intros [= <-] [= <-] b i Hb Hi. rewrite Hds.
           apply (Hrg b i); [right; exact Hb|exact Hi].
        -- apply Hrange.
      * intros g batches'. rewrite Hget2. destruct (py_key_eqb g l) eqn:E.
        -- intros [= <-] b Hb. apply (Hnb b). right. exact Hb.
        -- apply Hnonempty.
    + intros g. rewrite Hget1. destruct (py_key_eqb g l) eqn:E; [|reflexivity].
      rewrite (dict_get_eqb g l dls E), Hl. simpl. rewrite Hst. reflexivity.
    + intros Hun. pose proof (Hun l dl0 Hl) as Hs.
      unfold DataLoader_iter in Hiter. rewrite Hs in Hiter.
      injection Hiter as _ <-. apply dict_set_same, Hl.
    + intros i Hi. rewrite Hds. apply (Hrg batch i); simpl; auto.
    + apply (Hnb batch). left. reflexivity.
    + intros g dl Hg. rewrite Hget1, Hget2. destruct (py_key_eqb g l) eqn:E.
      * rewrite (dict_get_eqb g l iters E), Hit.
        rewrite (dict_get_eqb g l dls E), Hl in Hg. injection Hg as <-.
        rewrite Hiter. reflexivity.
      * rewrite Hg. reflexivity.
Qed.

Lemma fetch_emit_ok (dls : pydict DataLoader) (l : json) (dl : DataLoader)
    (batch : list nat) :
  fetch_ok getitem emit dls -> dict_get l dls = Some dl ->
  (forall i, In i batch -> i < length (dl_dataset dl)) -> batch <> [] ->
  exists v, (let* items := fetch item getitem dl batch in
             emit l (dl_dataset dl) items) = Ok v.
Proof.
  intros Hok Hl Hrange Hne. destruct (Hok l dl Hl) as [Hget Hemit].
  unfold fetch.
  destruct (mapM_ok (getitem (dl_dataset dl)) batch) as [items Hitems].
  - intros i Hi. apply Hget, Hrange, Hi.
  - rewrite Hitems. simpl. apply (Hemit batch items Hne Hitems).
Qed.

Lemma fetch_ok_static (dls dls1 : pydict DataLoader) :
  (forall g, option_map static (dict_get g dls1) = option_map static (dict_get g dls)) ->
  fetch_ok getitem emit dls -> fetch_ok getitem emit dls1.
Proof.
  intros Hst Hok l dl1 Hl. specialize (Hst l). rewrite Hl in Hst.
  destruct (dict_get l dls) as [dl|] eqn:E; [|discriminate].
  simpl in Hst. injection Hst as Hst.
  assert (Hds : dl_dataset dl1 = dl_dataset dl) by (unfold static in Hst; congruence).
  rewrite Hds. apply (Hok l dl E).
Qed.

Lemma unshuffled_static (dls dls1 : pydict DataLoader) :
  dls1 = dls -> unshuffled dls -> unshuffled dls1.
Proof. intros ->. auto. Qed.

(** The loop of [_iter] from any state that satisfies the invariant. *)
Lemma iter_loop_spec (labels : list json) :
  forall (dls : pydict DataLoader) (iters : pydict (list (list nat))),
  pass_inv dls iters labels ->
  forall records e dls',
  iter_loop emit getitem dls iters labels = (records, e, dls') ->
  (forall g, option_map static (dict_get g dls') = option_map static (dict_get g dls)) /\
  (forall g dl, dict_get g dls' = Some dl -> dl_wf dl) /\
  (unshuffled dls -> dls' = dls) /\
  (fetch_ok getitem emit dls -> length records = length labels) /\
  (length records = length labels ->
     e = BodyRaise StopIteration /\
     map br_group records = labels /\
     forall g dl, dict_get g dls = Some dl ->
       batches_of g records = match dict_get g iters with
                              | Some batches => batches
                              | None => fst (DataLoader_iter dl)
                              end).
Proof.
  induction labels as [|l labels IH]; intros dls iters Hinv records e dls' Hloop.
  - simpl in Hloop. injection Hloop as <- <- <-.
    split; [reflexivity|]. split; [apply Hinv|]. split; [reflexivity|].
    split; [reflexivity|]. intros _. split; [reflexivity|]. split; [reflexivity|].
    intros g dl Hg. pose proof (pi_count _ _ _ Hinv g dl Hg) as Hc.
    unfold count_label in Hc. simpl in Hc. unfold batches_of. simpl.
    destruct (dict_get g iters) as [batches|].
    + destruct batches; [reflexivity|discriminate].
    + pose proof (DataLoader_iter_length dl (pi_wf _ _ _ Hinv g dl Hg)) as Hlen.
      destruct (fst (DataLoader_iter dl)); [reflexivity|simpl in Hlen; lia].
  - destruct (open_iterator_spec dls iters l labels Hinv)
      as (dls1 & iters1 & dl1 & batch & more & Hopen & Hit1 & Hl1 & Hinv1 & Hst & Hun
          & Hrg & Hnb & Hbat).
    simpl in Hloop. rewrite Hopen, Hit1, Hl1 in Hloop.
    destruct (let* items := fetch item getitem dl1 batch in
              emit l (dl_dataset dl1) items) as [v|err] eqn:Hfetch.
    + destruct (iter_loop emit getitem dls1 (dict_set l more iters1) labels)
        as [[records1 e1] dls2] eqn:Hrest.
      injection Hloop as <- <- <-.
      destruct (IH _ _ Hinv1 _ _ _ Hrest) as (Hst2 & Hwf2 & Hun2 & Hok2 & Hfull2).
      split; [intros g; rewrite Hst2; apply Hst|].
      split; [exact Hwf2|].
      split; [intros H; rewrite Hun2; [apply Hun, H|rewrite (Hun H); exact H]|].
      split; [intros H; simpl; f_equal; apply Hok2; eapply fetch_ok_static; eauto|].
      intros Hlen. simpl in Hlen. injection Hlen as Hlen.
      destruct (Hfull2 Hlen) as (-> & Hgroups & Hb).
      split; [reflexivity|]. split; [simpl; f_equal; exact Hgroups|].
      intros g dl Hg. rewrite batches_of_cons. simpl.
      rewrite <- (Hbat g dl Hg).
      pose proof (Hst g) as Hstg. rewrite Hg in Hstg.
      destruct (dict_get g dls1) as [dlg|] eqn:Hg1; [|discriminate].
      rewrite (Hb g dlg Hg1).
      destruct (py_key_eqb g l) eqn:E; [|reflexivity].
      rewrite dict_get_set, (py_key_eqb_sym l g), E. reflexivity.
    + injection Hloop as <- <- <-.
      split; [exact Hst|]. split; [apply Hinv1|]. split; [exact Hun|].
      split.
      * intros Hok. exfalso.
        destruct (fetch_emit_ok dls1 l dl1 batch) as [v Hv]; auto.
        -- eapply fetch_ok_static; eauto.
        -- congruence.
      * simpl. discriminate.
Qed.

End Pass.

(** ** Construction of the grouped batch loader *)

Lemma mapM_length {A B : Type} (f : A -> result B) (l : list A) (bs : list B) :
  mapM f l = Ok bs -> length bs = length l.
Proof.
  revert bs. induction l as [|a l IH]; intros bs; simpl.
  - intros [= <-]. reflexivity.
  - destruct (f a); [|discriminate]. simpl.
    destruct (mapM f l) as [bs'|]; [|discriminate]. simpl.
    intros [= <-]. simpl. f_equal. apply IH. reflexivity.
Qed.

Lemma mapM_In {A B : Type} (f : A -> result B) (l : list A) (bs : list B) (b : B) :
  mapM f l = Ok bs -> In b bs -> exists a, In a l /\ f a = Ok b.
Proof.
  revert bs. induction l as [|a l IH]; intros bs; simpl.
  - intros [= <-] [].
  - destruct (f a) as [b'|] eqn:E; [|discriminate]. simpl.
    destruct (mapM f l) as [bs'|]; [|discriminate]. simpl.
    intros [= <-] [<-|Hin]; [eauto|].
    destruct (IH bs' eq_refl Hin) as (a' & Ha & Hf). eauto.
Qed.

Lemma group_loop_Ok (group_key : string) (rest : list json) :
  forall d k d', group_loop group_key d k rest = Ok d' ->
  forall obj, In obj rest -> exists v, group_of group_key obj = Ok v.
Proof.
  induction rest as [|o rest IH]; intros d k d' H obj; simpl in *; [intros []|].
  destruct (group_step group_key d k o) as [d1|] eqn:Hstep; [|discriminate].
  simpl in H. intros [<-|Hin]; [|eapply IH; eauto].
  unfold group_step in Hstep. destruct (group_of group_key o); [eauto|discriminate].
Qed.

(** A grouping that was returned has the shape proved for it. *)
Lemma group_json_objects_Ok (json_objects : list json) (group_key : string)
    (grouped : pydict (list nat)) :
  group_json_objects json_objects group_key = Ok grouped ->
  grouped_upto group_key json_objects (length json_objects) grouped.
Proof.
  intros H.
  destruct (group_json_objects_grouped group_key json_objects) as (g' & Hg & Hinv).
  - eapply group_loop_Ok. exact H.
  - congruence.
Qed.

Lemma grouped_key_hashable (group_key : string) (json_objects : list json) (k : nat)
    (grouped : pydict (list nat)) (g : json) (l : list nat) :
  grouped_upto group_key json_objects k grouped -> In (g, l) grouped ->
  py_key_eqb g g = true.
Proof.
  intros H Hin. destruct (gu_positions _ _ _ _ H g l Hin) as [-> Hne].
  destruct (positions group_key json_objects g k) as [|i r] eqn:E; [congruence|].
  assert (Hi : In i (positions group_key json_objects g k)) by (rewrite E; simpl; auto).
  apply in_positions in Hi. destruct Hi as [_ Hi].
  unfold in_group in Hi. destruct (nth_error json_objects i); [|discriminate].
  destruct (group_of group_key j); [|discriminate].
  apply py_key_eqb_refl. eapply py_key_eqb_hashable; eauto.
Qed.

Section Init.
Context {R : PyRandom}.
Variable data : list json.
Variable batch_size : nat.
Variables drop_last do_shuffle : bool.

#[local] Abbreviation built := (built data batch_size drop_last do_shuffle).

Lemma get_data_loader_built (r r' : rng) (group_indices : list nat)
    (group_data : list json) (dl : DataLoader) :
  mapM (list_getitem data) group_indices = Ok group_data ->
  _get_data_loader batch_size drop_last do_shuffle r group_data = Ok (dl, r') ->
  built group_indices dl.
Proof.
  intros Hdata. unfold _get_data_loader, DataLoader_init.
  pose proof (mapM_length _ _ _ Hdata) as Hlen.
  destruct do_shuffle eqn:Hsh.
  - destruct (_randint r) as [seed r1].
    destruct (Nat.eqb_spec batch_size 0) as [|Hbs]; [discriminate|]. simpl.
    intros [= <- <-]. unfold built. simpl.
    repeat split; auto; try lia. exists seed. rewrite Hlen. reflexivity.
  - destruct (Nat.eqb_spec batch_size 0) as [|Hbs]; [discriminate|]. simpl.
    intros [= <- <-]. unfold built. simpl.
    repeat split; auto; lia.
Qed.

Lemma dataloaders_loop_spec (grouped : pydict (list nat)) :
  forall (acc : pydict DataLoader) (r : rng) dls r',
  dataloaders_loop data batch_size drop_last do_shuffle grouped acc r = Ok (dls, r') ->
  keys_distinct grouped ->
  (forall g l, In (g, l) grouped -> dict_get g acc = None) ->
  exists new, dls = acc ++ new /\
    Forall2 (fun gi gd => fst gd = fst gi /\ built (snd gi) (snd gd)) grouped new.
Proof.
  induction grouped as [|[g idxs] grouped IH]; intros acc r dls r' H Hd Hacc; simpl in H.
  - injection H as <- <-. exists []. rewrite app_nil_r. auto.
  - destruct (mapM (list_getitem data) idxs) as [group_data|] eqn:Hdata; [|discriminate].
    simpl in H.
    destruct (_get_data_loader batch_size drop_last do_shuffle r group_data)
      as [[dl r1]|] eqn:Hdl; [|discriminate].
    simpl in H. inversion Hd as [|? ? Hg Hd']; subst.
    rewrite (dict_set_new acc g dl (Hacc g idxs (or_introl eq_refl))) in H.
    destruct (IH _ _ _ _ H Hd') as (new & -> & HF).
    + intros g' l' Hin. rewrite <- (dict_set_new acc g dl (Hacc g idxs (or_introl eq_refl))).
      rewrite dict_get_set. rewrite Forall_forall in Hg.
      specialize (Hg _ Hin). simpl in Hg. rewrite Hg. eapply Hacc. right. exact Hin.
    + exists ((g, dl) :: new). rewrite <- app_assoc. split; [reflexivity|].
      constructor; [|exact HF]. split; [reflexivity|].
      eapply get_data_loader_built; eauto.
Qed.

Lemma Forall2_keys_distinct {V W : Type} (P : V -> W -> Prop)
    (d : pydict V) (d' : pydict W) :
  Forall2 (fun a b => fst b = fst a /\ P (snd a) (snd b)) d d' ->
  keys_distinct d -> keys_distinct d'.
Proof.
  unfold keys_distinct. intros HF. induction HF as [|a b d d' [Hab _] HF IH]; intros Hd.
  - constructor.
  - inversion Hd as [|? ? Ha Hd']; subst. constructor; [|auto].
    rewrite Hab. clear - Ha HF. induction HF as [|a' b' d d' [Hab' _] HF IH].
    + constructor.
    + inversion Ha; subst. constructor; [rewrite Hab'; assumption|auto].
Qed.

Lemma Forall2_dict_get {V W : Type} (P : V -> W -> Prop)
    (d : pydict V) (d' : pydict W) :
  Forall2 (fun a b => fst b = fst a /\ P (snd a) (snd b)) d d' ->
  forall g, (forall v, dict_get g d = Some v ->
               exists w, dict_get g d' = Some w /\ P v w) /\
            (forall w, dict_get g d' = Some w ->
               exists v, dict_get g d = Some v /\ P v w).
Proof.
  intros HF g. induction HF as [|[k v] [k' w] d d' [Hk HP] HF IH]; simpl in *.
  - split; discriminate.
  - subst k'. destruct (py_key_eqb k g).
    + split; intros ? [= <-]; eauto.
    + exact IH.
Qed.

Lemma Forall2_keys_In {V W : Type} (P : V -> W -> Prop)
    (d : pydict V) (d' : pydict W) :
  Forall2 (fun a b => fst b = fst a /\ P (snd a) (snd b)) d d' ->
  forall k w, In (k, w) d' -> exists v, In (k, v) d /\ P v w.
Proof.
  intros HF k w. induction HF as [|[k0 v0] [k1 w1] d d' [Hk HP] HF IH]; [intros []|].
  simpl in *. subst k1. intros [[= -> ->]|Hin]; [eauto|].
  destruct (IH Hin) as [v [Hv HPv]]. eauto.
Qed.

Lemma count_label_repeat (g g' : json) (n : nat) :
  count_label g (repeat g' n) = if py_key_eqb g g' then n else 0.
Proof.
  unfold count_label. induction n as [|n IH]; simpl.
  - destruct (py_key_eqb g g'); reflexivity.
  - destruct (py_key_eqb g g') eqn:E; simpl; rewrite IH; reflexivity.
Qed.

Lemma count_label_app (g : json) (l1 l2 : list json) :
  count_label g (l1 ++ l2) = count_label g l1 + count_label g l2.
Proof. unfold count_label. rewrite filter_app, length_app. reflexivity. Qed.

Lemma count_label_Permutation (g : json) (l1 l2 : list json) :
  Permutation l1 l2 -> count_label g l1 = count_label g l2.
Proof.
  unfold count_label. intros H. induction H; simpl; auto.
  - destruct (py_key_eqb g x); simpl; congruence.
  - destruct (py_key_eqb g x), (py_key_eqb g y); reflexivity.
  - congruence.
Qed.

Lemma count_label_schedule (dls : pydict DataLoader) (g : json) :
  keys_distinct dls ->
  count_label g (flat_map (fun gd => repeat (fst gd) (DataLoader_len (snd gd))) dls)
  = match dict_get g dls with
    | Some dl => DataLoader_len dl
    | None => 0
    end.
Proof.
  intros Hd. induction Hd as [|[k dl] dls Hk Hd IH]; simpl; [reflexivity|].
  rewrite count_label_app, count_label_repeat, (py_key_eqb_sym g k), IH.
  destruct (py_key_eqb k g) eqn:E; [|reflexivity].
  assert (Hnone : dict_get g dls = None).
  { apply dict_get_None. intros k' dl' Hin. rewrite Forall_forall in Hk.
    specialize (Hk _ Hin). simpl in Hk.
    rewrite <- (py_key_eqb_right k g k' E), py_key_eqb_sym. exact Hk. }
  rewrite Hnone. lia.
Qed.

Lemma built_wf (group_indices : list nat) (dl : DataLoader) :
  built group_indices dl -> dl_wf dl.
Proof.
  intros (Hdata & Hbs & Hpos & _ & Hs). split; [lia|].
  destruct (dl_sampler dl) as [s|]; [|exact I].
  destruct Hs as (_ & seed & ->). simpl.
  rewrite (mapM_length _ _ _ Hdata). split; reflexivity.
Qed.

Lemma built_len (group_indices : list nat) (dl : DataLoader) :
  built group_indices dl ->
  DataLoader_len dl = batch_count drop_last (length group_indices) batch_size.
Proof.
  intros (Hdata & Hbs & Hpos & Hdrop & Hs).
  unfold DataLoader_len, batch_count, sampler_len, RandomSampler_len.
  rewrite Hdrop, Hbs.
  assert (Hn : match dl_sampler dl with
               | Some s => rs_n s
               | None => length (dl_dataset dl)
               end = length group_indices).
  { destruct (dl_sampler dl) as [s|].
    - destruct Hs as (_ & seed & ->). reflexivity.
    - apply (mapM_length _ _ _ Hdata). }
  rewrite Hn. destruct drop_last; [reflexivity|]. apply ceil_div_spec. exact Hpos.
Qed.

Variable item : Type.

(** What the constructor establishes. *)
Lemma GroupDataLoader_init_spec (group_key : string) (cls : dataset_class item)
    (seed : Z) (loader : GroupDataLoader item) :
  GroupDataLoader_init data group_key cls batch_size drop_last do_shuffle seed = Ok loader ->
  exists grouped,
    group_json_objects data group_key = Ok grouped /\
    Forall2 (fun gi gd => fst gd = fst gi /\ built (snd gi) (snd gd))
            grouped (gdl_group_dataloaders loader) /\
    keys_distinct (gdl_group_dataloaders loader) /\
    gdl_dataset_class loader = cls /\
    Permutation (gdl_group_batches loader)
      (flat_map (fun gd => repeat (fst gd) (DataLoader_len (snd gd)))
                (gdl_group_dataloaders loader)) /\
    loader_inv loader.
Proof.
  unfold GroupDataLoader_init, _init_dataloaders, _init_group_metadataloader.
  destruct (group_json_objects data group_key) as [grouped|] eqn:Hg; [|discriminate].
  simpl.
  destruct (dataloaders_loop data batch_size drop_last do_shuffle grouped [] (rng_seed seed))
    as [[dls r]|] eqn:Hloop; [|discriminate].
  simpl.
  pose proof (shuffle_Permutation
    (flat_map (fun gd => repeat (fst gd) (DataLoader_len (snd gd))) dls) r) as Hperm.
  destruct (shuffle _ r) as [group_batches r'].
  simpl in Hperm. intros [= <-]. simpl.
  pose proof (group_json_objects_Ok _ _ _ Hg) as Hinv.
  destruct (dataloaders_loop_spec grouped [] _ _ _ Hloop (gu_distinct _ _ _ _ Hinv))
    as (new & -> & HF); [reflexivity|].
  simpl in *.
  pose proof (Forall2_keys_distinct _ _ _ HF (gu_distinct _ _ _ _ Hinv)) as Hdis.
  exists grouped.
  split; [reflexivity|]. split; [exact HF|]. split; [exact Hdis|].
  split; [reflexivity|]. split; [exact Hperm|]. split; simpl.
  - (* every batch source is well formed *)
    intros g dl Hget.
    destruct (proj2 (Forall2_dict_get _ _ _ HF g) dl Hget) as (idxs & _ & Hb).
    eapply built_wf; eauto.
  - (* every label has a batch source *)
    intros l Hin. apply (Permutation_in _ Hperm) in Hin.
    apply in_flat_map in Hin. destruct Hin as ([k dl] & Hin & Hrep).
    apply repeat_spec in Hrep. simpl in Hrep. subst l.
    assert (Hkk : py_key_eqb k k = true).
    { destruct (Forall2_keys_In _ _ _ HF k dl Hin) as [idxs [Hin' _]].
      eapply grouped_key_hashable; eauto. }
    rewrite (In_dict_get k dl new Hdis Hkk Hin). discriminate.
  - (* each group occurs once per batch *)
    intros g dl Hget. simpl.
    rewrite (count_label_Permutation g _ _ Hperm), (count_label_schedule _ g Hdis), Hget.
    reflexivity.
  - intros g dl batches _ H. discriminate.
  - intros g batches H. discriminate.
Qed.

Variable yielded : Type.
Variable emit : json -> list json -> list item -> result yielded.

(** What one full pass does to a loader that satisfies the invariant. *)
Lemma full_pass_spec (loader : GroupDataLoader item) records e loader' :
  loader_inv loader ->
  full_pass emit loader = (records, e, loader') ->
  loader_inv loader' /\
  gdl_group_batches loader' = gdl_group_batches loader /\
  gdl_dataset_class loader' = gdl_dataset_class loader /\
  (forall g, option_map static (dict_get g (gdl_group_dataloaders loader'))
             = option_map static (dict_get g (gdl_group_dataloaders loader))) /\
  (unshuffled (gdl_group_dataloaders loader) -> loader' = loader) /\
  (fetch_ok (gdl_dataset_class loader) emit (gdl_group_dataloaders loader) ->
     length records = GroupDataLoader_len loader) /\
  (length records = GroupDataLoader_len loader ->
     e = Propagated (RuntimeError "generator raised StopIteration") /\
     map br_group records = gdl_group_batches loader /\
     forall g dl, dict_get g (gdl_group_dataloaders loader) = Some dl ->
       batches_of g records = fst (DataLoader_iter dl)).
Proof.
  intros Hinv. unfold full_pass.
  destruct (iter_loop emit (gdl_dataset_class loader) (gdl_group_dataloaders loader) []
              (gdl_group_batches loader)) as [[records0 e0] dls'] eqn:Hloop.
  intros [= <- <- <-]. simpl.
  destruct (iter_loop_spec _ _ _ _ _ _ _ Hinv _ _ _ Hloop)
    as (Hst & Hwf & Hun & Hok & Hfull).
  split; [|split; [reflexivity|split; [reflexivity|split; [exact Hst|split; [|split]]]]].
  - split; simpl.
    + exact Hwf.
    + intros l Hin. pose proof (pi_labels _ _ _ Hinv l Hin) as H.
      specialize (Hst l). destruct (dict_get l (gdl_group_dataloaders loader));
        [|congruence].
      destruct (dict_get l dls'); [discriminate|discriminate].
    + intros g dl' Hg. specialize (Hst g). rewrite Hg in Hst.
      destruct (dict_get g (gdl_group_dataloaders loader)) as [dl|] eqn:E; [|discriminate].
      simpl in Hst. assert (Hst' : static dl' = static dl) by congruence.
      rewrite (DataLoader_len_static _ _ Hst').
      apply (pi_count _ _ _ Hinv g dl E).
    + intros g dl batches _ H. discriminate.
    + intros g batches H. discriminate.
  - intros H. rewrite (Hun H). destruct loader; reflexivity.
  - exact Hok.
  - intros Hlen. destruct (Hfull Hlen) as (-> & Hg & Hb).
    split; [reflexivity|]. split; [exact Hg|]. exact Hb.
Qed.

(** The invariant, the schedule and the sizes survive any number of
    passes. *)
Lemma after_passes_spec (k : nat) :
  forall loader : GroupDataLoader item,
  loader_inv loader ->
  loader_inv (after_passes emit k loader) /\
  gdl_group_batches (after_passes emit k loader) = gdl_group_batches loader /\
  gdl_dataset_class (after_passes emit k loader) = gdl_dataset_class loader /\
  (forall g, option_map static (dict_get g (gdl_group_dataloaders (after_passes emit k loader)))
             = option_map static (dict_get g (gdl_group_dataloaders loader))) /\
  (unshuffled (gdl_group_dataloaders loader) -> after_passes emit k loader = loader).
Proof.
  induction k as [|k IH]; intros loader Hinv; simpl.
  - split; [exact Hinv|]. split; [reflexivity|]. split; [reflexivity|].
    split; [reflexivity|]. intros _. reflexivity.
  - destruct (full_pass emit loader) as [[records e] loader'] eqn:Hpass. simpl.
    destruct (full_pass_spec _ _ _ _ Hinv Hpass) as (Hinv' & Hb & Hc & Hst & Hun & _).
    destruct (IH loader' Hinv') as (Hinv2 & Hb2 & Hc2 & Hst2 & Hun2).
    split; [exact Hinv2|]. split; [congruence|]. split; [congruence|].
    split; [intros g; rewrite Hst2; apply Hst|].
    intros H. rewrite Hun2; rewrite (Hun H); auto.
Qed.

End Init.

(** ** The laws of the grouped batch loader *)

Lemma flat_map_repeat_length {V : Type} (f : V -> nat) (d : pydict V) :
  length (flat_map (fun gd => repeat (fst gd) (f (snd gd))) d)
  = list_sum (map (fun gd => f (snd gd)) d).
Proof.
  induction d as [|[g v] d IH]; simpl; [reflexivity|].
  rewrite length_app, repeat_length, IH. reflexivity.
Qed.

Lemma map_nth_seq {A : Type} (l : list A) (d : A) :
  map (fun j => nth j l d) (seq 0 (length l)) = l.
Proof.
  induction l as [|a l IH]; simpl; [reflexivity|].
  f_equal. rewrite <- seq_shift, map_map. exact IH.
Qed.

Lemma dict_get_In {V : Type} (k : json) (v : V) (d : pydict V) :
  dict_get k d = Some v -> exists g, In (g, v) d /\ py_key_eqb g k = true.
Proof.
  induction d as [|[g w] d IH]; simpl; [discriminate|].
  destruct (py_key_eqb g k) eqn:E.
  - intros [= ->]. eauto.
  - intros H. destruct (IH H) as (g' & Hin & Hg'). eauto.
Qed.

Section Laws.
Context {R : PyRandom}.
Variable item : Type.
Variable data : list json.
Variable group_key : string.
Variable cls : dataset_class item.
Variable batch_size : nat.
Variables drop_last do_shuffle : bool.
Variable seed : Z.
Variable loader : GroupDataLoader item.
Hypothesis Hinit :
  GroupDataLoader_init data group_key cls batch_size drop_last do_shuffle seed = Ok loader.

(** C5. The length of a constructed loader is the sum over the groups of
    [floor(group_size / batch_size)] when incomplete batches are dropped
    and of [ceil(group_size / batch_size)] otherwise; it is the length of
    the schedule built by the constructor, which no pass changes. *)
Theorem GroupDataLoader_len_law :
  exists grouped,
    group_json_objects data group_key = Ok grouped /\
    GroupDataLoader_len loader
    = list_sum (map (fun gi => batch_count drop_last (length (snd gi)) batch_size) grouped) /\
    forall (yielded : Type) (emit : json -> list json -> list item -> result yielded)
           (k : nat),
      GroupDataLoader_len (after_passes emit k loader) = GroupDataLoader_len loader.
Proof using Hinit.
  destruct (GroupDataLoader_init_spec _ _ _ _ _ _ _ _ _ Hinit)
    as (grouped & Hg & HF & Hdis & Hcls & Hperm & Hinv).
  exists grouped. split; [exact Hg|]. split.
  - unfold GroupDataLoader_len.
    rewrite (Permutation_length Hperm), flat_map_repeat_length.
    clear - HF. induction HF as [|[g idxs] [g' dl] grouped dls [_ Hb] HF IH];
      simpl; [reflexivity|].
    simpl in Hb. rewrite IH, (built_len _ _ _ _ _ _ Hb). reflexivity.
  - intros yielded emit k. unfold GroupDataLoader_len.
    destruct (after_passes_spec item yielded emit k loader Hinv) as (_ & -> & _).
    reflexivity.
Qed.

Section OnePass.
Variable yielded : Type.
Variable emit : json -> list json -> list item -> result yielded.
Variable k : nat.
Variable records : list (batch_record yielded).
Variable e : iteration_end.
Variable loader' : GroupDataLoader item.
Hypothesis Hpass : full_pass emit (after_passes emit k loader) = (records, e, loader').

(** The batch source of a group in front of pass [k + 1]. *)
Lemma group_source (grouped : pydict (list nat)) (g : json) (group_indices : list nat) :
  group_json_objects data group_key = Ok grouped -> In (g, group_indices) grouped ->
  exists dl,
    dict_get g (gdl_group_dataloaders (after_passes emit k loader)) = Some dl /\
    dl_wf dl /\ dl_batch_size dl = batch_size /\ dl_drop_last dl = drop_last /\
    length (dl_dataset dl) = length group_indices /\ NoDup group_indices.
Proof using Hinit.
  intros Hg Hin.
  destruct (GroupDataLoader_init_spec _ _ _ _ _ _ _ _ _ Hinit)
    as (grouped' & Hg' & HF & Hdis & Hcls & Hperm & Hinv).
  assert (grouped' = grouped) by congruence. subst grouped'.
  pose proof (group_json_objects_Ok _ _ _ Hg) as Hgr.
  assert (Hget : dict_get g grouped = Some group_indices).
  { apply In_dict_get; [apply Hgr| |exact Hin].
    eapply grouped_key_hashable; eauto. }
  destruct (proj1 (Forall2_dict_get _ _ _ HF g) _ Hget) as (dl0 & Hdl0 & Hb).
  destruct (after_passes_spec item yielded emit k loader Hinv) as (Hinvk & _ & _ & Hst & _).
  specialize (Hst g). rewrite Hdl0 in Hst.
  destruct (dict_get g (gdl_group_dataloaders (after_passes emit k loader)))
    as [dl|] eqn:Hdl; [|discriminate].
  simpl in Hst. assert (Hst' : static dl = static dl0) by congruence.
  unfold static in Hst'. injection Hst' as E1 E2 E3 _.
  destruct Hb as (Hdata & Hbs & _ & Hdrop & _).
  exists dl. split; [reflexivity|]. split; [apply (pi_wf _ _ _ Hinvk g dl Hdl)|].
  split; [congruence|]. split; [congruence|]. split.
  - rewrite E1. apply (mapM_length _ _ _ Hdata).
  - destruct (gu_positions _ _ _ _ Hgr g group_indices Hin) as [-> _].
    apply NoDup_positions.
Qed.

(** C6. In every full pass, the batches of a group cover the group's
    index list without repetition: together with the indices of a final
    incomplete batch, which is left out only when such batches are
    dropped, they are a permutation of the group's indices. *)
Theorem full_pass_covers_group (grouped : pydict (list nat))
    (g : json) (group_indices : list nat) :
  group_json_objects data group_key = Ok grouped ->
  In (g, group_indices) grouped ->
  length records = GroupDataLoader_len loader ->
  exists dropped,
    Permutation
      (original_indices group_indices (concat (batches_of g records)) ++ dropped)
      group_indices /\
    length dropped = (if drop_last then length group_indices mod batch_size else 0) /\
    NoDup (original_indices group_indices (concat (batches_of g records))).
Proof using Hinit Hpass.
  intros Hg Hin Hlen.
  destruct (group_source grouped g group_indices Hg Hin)
    as (dl & Hdl & Hwf & Hbs & Hdrop & Hn & Hnd).
  destruct (GroupDataLoader_init_spec _ _ _ _ _ _ _ _ _ Hinit)
    as (_ & _ & _ & _ & _ & _ & Hinv).
  destruct (after_passes_spec item yielded emit k loader Hinv) as (Hinvk & Hb & _).
  destruct (full_pass_spec item yielded emit _ _ _ _ Hinvk Hpass)
    as (_ & _ & _ & _ & _ & _ & Hfull).
  destruct Hfull as (_ & _ & Hbat).
  { unfold GroupDataLoader_len in *. rewrite Hb. exact Hlen. }
  rewrite (Hbat g dl Hdl), DataLoader_iter_batches, Hbs, Hdrop.
  destruct (batch_loop_concat batch_size drop_last (pass_indices dl)) with (batch := @nil nat)
    as (dropped & Hc & Hl).
  { rewrite <- Hbs. apply Hwf. }
  { simpl. rewrite <- Hbs. apply Hwf. }
  simpl in Hc, Hl. rewrite (Permutation_length (pass_indices_Permutation dl Hwf)) in Hl.
  rewrite length_seq, Hn in Hl.
  assert (Hperm : Permutation
            (original_indices group_indices
               (concat (batch_loop batch_size drop_last [] (pass_indices dl)))
             ++ original_indices group_indices dropped) group_indices).
  { unfold original_indices. rewrite <- map_app, <- Hc.
    rewrite (pass_indices_Permutation dl Hwf), Hn. rewrite map_nth_seq. reflexivity. }
  exists (original_indices group_indices dropped).
  split; [exact Hperm|]. split.
  - unfold original_indices. rewrite length_map. exact Hl.
  - apply Permutation_sym in Hperm. apply (Permutation_NoDup Hperm) in Hnd.
    apply NoDup_app_remove_r in Hnd. exact Hnd.
Qed.

(** When every item can be fetched and every batch emitted, the pass
    yields one batch per scheduled label and then leaves through the
    [raise StopIteration()] of the generator body. *)
Lemma full_pass_raises :
  fetch_ok cls emit (gdl_group_dataloaders loader) ->
  length records = GroupDataLoader_len loader /\
  e = Propagated (RuntimeError "generator raised StopIteration").
Proof using Hinit Hpass.
  intros Hok.
  destruct (GroupDataLoader_init_spec _ _ _ _ _ _ _ _ _ Hinit)
    as (_ & _ & _ & _ & Hcls & _ & Hinv).
  destruct (after_passes_spec item yielded emit k loader Hinv)
    as (Hinvk & Hb & Hc & Hst & _).
  destruct (full_pass_spec item yielded emit _ _ _ _ Hinvk Hpass)
    as (_ & _ & _ & _ & _ & Hfetch & Hfull).
  assert (Hlen : length records = GroupDataLoader_len (after_passes emit k loader)).
  { apply Hfetch. rewrite Hc, Hcls. eapply fetch_ok_static; eauto. }
  destruct (Hfull Hlen) as (-> & _).
  split; [|reflexivity]. rewrite Hlen. unfold GroupDataLoader_len. rewrite Hb. reflexivity.
Qed.

Variable records0 : list (batch_record yielded).
Variable e0 : iteration_end.
Variable loader0' : GroupDataLoader item.
Hypothesis Hpass0 : full_pass emit loader = (records0, e0, loader0').

(** C2 (as the code has it). Passes of one loader agree on the sequence
    of group labels whenever they are full, and agree on everything that
    is yielded when shuffling is disabled; a loader constructed again from
    the same arguments is the same loader. What a pass yields inside a
    group is drawn anew on every pass when shuffling is enabled. *)
Theorem passes_agree :
  (do_shuffle = false -> records = records0 /\ e = e0) /\
  (length records = GroupDataLoader_len loader ->
   length records0 = GroupDataLoader_len loader ->
   map br_group records = map br_group records0 /\ e = e0) /\
  (forall loader2,
     GroupDataLoader_init data group_key cls batch_size drop_last do_shuffle seed
       = Ok loader2 ->
     full_pass emit loader2 = full_pass emit loader).
Proof using Hinit Hpass Hpass0.
  destruct (GroupDataLoader_init_spec _ _ _ _ _ _ _ _ _ Hinit)
    as (grouped & Hg & HF & Hdis & Hcls & Hperm & Hinv).
  destruct (after_passes_spec item yielded emit k loader Hinv)
    as (Hinvk & Hb & Hc & Hst & Hun).
  split; [|split].
  - intros Hsh.
    assert (Hu : unshuffled (gdl_group_dataloaders loader)).
    { intros g dl Hdl.
      destruct (proj2 (Forall2_dict_get _ _ _ HF g) dl Hdl) as (idxs & _ & Hbuilt).
      destruct Hbuilt as (_ & _ & _ & _ & Hs).
      destruct (dl_sampler dl); [|reflexivity]. destruct Hs as [Hs _]. congruence. }
    rewrite (Hun Hu) in Hpass. split; congruence.
  - intros Hlen Hlen0.
    destruct (full_pass_spec item yielded emit _ _ _ _ Hinvk Hpass)
      as (_ & _ & _ & _ & _ & _ & Hfull).
    destruct (full_pass_spec item yielded emit _ _ _ _ Hinv Hpass0)
      as (_ & _ & _ & _ & _ & _ & Hfull0).
    destruct Hfull as (-> & Hl & _).
    { unfold GroupDataLoader_len in *. rewrite Hb. exact Hlen. }
    destruct (Hfull0 Hlen0) as (-> & Hl0 & _).
    split; [|reflexivity]. rewrite Hl, Hl0. exact Hb.
  - intros loader2 H2. assert (loader2 = loader) by congruence. subst. reflexivity.
Qed.

End OnePass.
End Laws.

(** ** Exhausting a loader *)

Lemma list_getitem_In {A : Type} (l : list A) (i : nat) (a : A) :
  list_getitem l i = Ok a -> In a l.
Proof.
  unfold list_getitem. destruct (nth_error l i) eqn:E; [|discriminate].
  intros [= <-]. eapply nth_error_In; eauto.
Qed.

Lemma list_getitem_lt {A : Type} (l : list A) (i : nat) :
  i < length l -> exists a, list_getitem l i = Ok a /\ In a l.
Proof.
  intros H. unfold list_getitem. destruct (nth_error l i) eqn:E.
  - exists a. split; [reflexivity|]. eapply nth_error_In; eauto.
  - apply nth_error_None in E. lia.
Qed.

Lemma Dataset_getitem_single {T : TorchTensor} (fk tk tt dev : string)
    (d : list json) (i : nat) (obj : json) :
  list_getitem d i = Ok obj ->
  Dataset_getitem fk tk tt dev d i = Dataset_getitem fk tk tt dev [obj] 0.
Proof. intros H. unfold Dataset_getitem. rewrite H. reflexivity. Qed.

Lemma RNNDataset_getitem_single {T : TorchTensor} (fk tk tt dev : string)
    (p2e : list (string * json)) (d : list json) (i : nat) (obj : json) :
  list_getitem d i = Ok obj ->
  RNNDataset_getitem fk tk tt dev p2e d i = RNNDataset_getitem fk tk tt dev p2e [obj] 0.
Proof.
  intros H. unfold RNNDataset_getitem.
  rewrite (Dataset_getitem_single fk tk tt dev d i obj H), H. reflexivity.
Qed.

(** The items fetched at the indices of a batch are the items of the
    records at these indices. *)
Lemma mapM_getitem_records {item : Type} (getitem : dataset_class item)
    (d : list json) :
  (forall i obj, list_getitem d i = Ok obj -> getitem d i = getitem [obj] 0) ->
  (forall i e, list_getitem d i = Err e -> exists e', getitem d i = Err e') ->
  forall batch items,
    mapM (getitem d) batch = Ok items ->
    exists objs,
      mapM (list_getitem d) batch = Ok objs /\
      mapM (fun obj => getitem [obj] 0) objs = Ok items.
Proof.
  intros Hok Herr. induction batch as [|i batch IH]; intros items; simpl.
  - intros [= <-]. exists []. split; reflexivity.
  - destruct (list_getitem d i) as [obj|e] eqn:Hobj.
    + rewrite (Hok i obj Hobj). destruct (getitem [obj] 0) as [it|] eqn:Hit;
        [|discriminate].
      simpl. destruct (mapM (getitem d) batch) as [its|] eqn:Hits; [|discriminate].
      simpl. intros [= <-]. destruct (IH its eq_refl) as (objs & -> & Hobjs).
      simpl. exists (obj :: objs). split; [reflexivity|].
      simpl. rewrite Hit. simpl. rewrite Hobjs. reflexivity.
    + destruct (Herr i e Hobj) as [e' ->]. discriminate.
Qed.

Lemma Dataset_getitem_missing {T : TorchTensor} (fk tk tt dev : string)
    (d : list json) (i : nat) (e : exn) :
  list_getitem d i = Err e -> exists e', Dataset_getitem fk tk tt dev d i = Err e'.
Proof. intros H. unfold Dataset_getitem. rewrite H. simpl. eauto. Qed.

Lemma RNNDataset_getitem_missing {T : TorchTensor} (fk tk tt dev : string)
    (p2e : list (string * json)) (d : list json) (i : nat) (e : exn) :
  list_getitem d i = Err e -> exists e', RNNDataset_getitem fk tk tt dev p2e d i = Err e'.
Proof.
  intros H. unfold RNNDataset_getitem.
  destruct (Dataset_getitem_missing fk tk tt dev d i e H) as [e' ->]. simpl. eauto.
Qed.

Lemma structures_loop_keys (data : list json) (grouped : pydict (list nat)) :
  forall acc st, structures_loop data grouped acc = Ok st ->
  forall l, dict_get l acc <> None \/ dict_get l grouped <> None ->
            dict_get l st <> None.
Proof.
  induction grouped as [|[g idxs] grouped IH]; intros acc st H l Hl; simpl in *.
  - injection H as <-. destruct Hl; congruence.
  - destruct (group_structure_of data idxs) as [gs|]; [|discriminate]. simpl in H.
    apply (IH _ _ H l). rewrite dict_get_set.
    destruct (py_key_eqb g l); [left; discriminate|]. exact Hl.
Qed.

Section Exhaustion.
Context {R : PyRandom} {T : TorchTensor}.
Variable data : list json.
Variable group_key : string.
Variable batch_size : nat.
Variables drop_last do_shuffle : bool.
Variable seed : Z.

(** The records of every batch source are records of [data], and there
    is at least one. *)
Lemma sources_hold_data (item : Type) (cls : dataset_class item)
    (loader : GroupDataLoader item) (l : json) (dl : DataLoader) :
  GroupDataLoader_init data group_key cls batch_size drop_last do_shuffle seed = Ok loader ->
  dict_get l (gdl_group_dataloaders loader) = Some dl ->
  dl_dataset dl <> [] /\ (forall obj, In obj (dl_dataset dl) -> In obj data) /\
  exists grouped, group_json_objects data group_key = Ok grouped /\
                  dict_get l grouped <> None.
Proof.
  intros Hinit Hdl.
  destruct (GroupDataLoader_init_spec _ _ _ _ _ _ _ _ _ Hinit)
    as (grouped & Hg & HF & _).
  destruct (proj2 (Forall2_dict_get _ _ _ HF l) dl Hdl) as (idxs & Hidxs & Hb).
  destruct Hb as (Hdata & _).
  destruct (dict_get_In _ _ _ Hidxs) as (g & Hin & _).
  pose proof (group_json_objects_Ok _ _ _ Hg) as Hgr.
  destruct (gu_positions _ _ _ _ Hgr g idxs Hin) as [_ Hne].
  split; [|split].
  - intros E. apply (f_equal (@length json)) in E.
    rewrite (mapM_length _ _ _ Hdata) in E. destruct idxs; [congruence|discriminate].
  - intros obj Hobj. destruct (mapM_In _ _ _ _ Hdata Hobj) as (i & _ & Hi).
    eapply list_getitem_In; eauto.
  - exists grouped. split; [exact Hg|]. congruence.
Qed.

(** The records of a batch source lie in one group. *)
Lemma sources_hold_one_group (item : Type) (cls : dataset_class item)
    (loader : GroupDataLoader item) (l : json) (dl : DataLoader) :
  GroupDataLoader_init data group_key cls batch_size drop_last do_shuffle seed = Ok loader ->
  dict_get l (gdl_group_dataloaders loader) = Some dl ->
  exists g, forall obj, In obj (dl_dataset dl) -> belongs group_key g obj = true.
Proof.
  intros Hinit Hdl.
  destruct (GroupDataLoader_init_spec _ _ _ _ _ _ _ _ _ Hinit)
    as (grouped & Hg & HF & _).
  destruct (proj2 (Forall2_dict_get _ _ _ HF l) dl Hdl) as (idxs & Hidxs & Hb).
  destruct Hb as (Hdata & _).
  destruct (dict_get_In _ _ _ Hidxs) as (g & Hin & _).
  pose proof (group_json_objects_Ok _ _ _ Hg) as Hgr.
  destruct (gu_positions _ _ _ _ Hgr g idxs Hin) as [Hpos _].
  exists g. intros obj Hobj.
  destruct (mapM_In _ _ _ _ Hdata Hobj) as (i & Hi & Hget).
  rewrite Hpos in Hi. apply in_positions in Hi. destruct Hi as [_ Hi].
  unfold in_group in Hi. unfold list_getitem in Hget.
  destruct (nth_error data i) as [o|]; [|discriminate].
  injection Hget as ->. unfold belongs.
  destruct (group_of group_key obj); [exact Hi|discriminate].
Qed.

(** The records fetched for a batch of a batch source make a batch of a
    group. *)
Lemma fetched_batch_of_group (item : Type) (cls : dataset_class item)
    (loader : GroupDataLoader item) (l : json) (dl : DataLoader)
    (batch : list nat) (objs : list json) :
  GroupDataLoader_init data group_key cls batch_size drop_last do_shuffle seed = Ok loader ->
  dict_get l (gdl_group_dataloaders loader) = Some dl ->
  batch <> [] -> mapM (list_getitem (dl_dataset dl)) batch = Ok objs ->
  batch_of_group group_key data objs.
Proof.
  intros Hinit Hdl Hne Hobjs.
  destruct (sources_hold_data _ _ _ _ _ Hinit Hdl) as (_ & Hsub & _).
  destruct (sources_hold_one_group _ _ _ _ _ Hinit Hdl) as (g & Hg).
  split.
  - intros ->. apply mapM_length in Hobjs. destruct batch; [congruence|discriminate].
  - exists g. intros obj Hobj.
    destruct (mapM_In _ _ _ _ Hobjs Hobj) as (i & _ & Hget).
    apply list_getitem_In in Hget. split; [apply Hsub|apply Hg]; exact Hget.
Qed.

(** C9. A full iteration of a [GroupDataLoader] or of an [RNNDataLoader]
    over records that can all be fetched -- each has the features and the
    target, the tensor library accepts them, and the items of the records
    of a batch can be collated -- yields exactly [len(loader)] batches and
    then ends in the [raise StopIteration()] of the generator body, which
    reaches the consumer as a [RuntimeError] (PEP 479): the iteration is
    never exhausted normally. *)
Theorem exhausted_loader_raises_RuntimeError :
  (forall (features_key target_key task_type device : string)
          (loader : GroupDataLoader (Tensor * Tensor)) (k : nat) records e loader',
     GroupDataLoader_init data group_key
       (Dataset_getitem features_key target_key task_type device)
       batch_size drop_last do_shuffle seed = Ok loader ->
     dataset_records_ok group_key features_key target_key task_type device data ->
     full_pass GroupDataLoader_emit (after_passes GroupDataLoader_emit k loader)
       = (records, e, loader') ->
     length records = GroupDataLoader_len loader /\
     e = Propagated (RuntimeError "generator raised StopIteration")) /\
  (forall (features_key target_key task_type device : string)
          (prim_to_enc : list (string * json))
          (rnn : RNNDataLoader) (k : nat) records e loader',
     RNNDataLoader_init data group_key features_key target_key task_type device
       prim_to_enc batch_size drop_last do_shuffle seed = Ok rnn ->
     rnn_records_ok group_key features_key target_key task_type device prim_to_enc data ->
     full_pass (RNNDataLoader_emit (pipeline_structures rnn))
       (after_passes (RNNDataLoader_emit (pipeline_structures rnn)) k (rnn_loader rnn))
       = (records, e, loader') ->
     length records = GroupDataLoader_len (rnn_loader rnn) /\
     e = Propagated (RuntimeError "generator raised StopIteration")).
Proof.
  split.
  - intros fk tk tt dev loader k records e loader' Hinit [Hrec Hcol] Hpass.
    eapply full_pass_raises; eauto.
    intros l dl Hdl.
    destruct (sources_hold_data _ _ _ _ _ Hinit Hdl) as (Hne & Hsub & _).
    split.
    + intros i Hi. destruct (list_getitem_lt _ _ Hi) as (obj & Hobj & Hin).
      rewrite (Dataset_getitem_single fk tk tt dev _ _ _ Hobj). apply Hrec, Hsub, Hin.
    + intros batch items Hbatch Hitems.
      destruct (mapM_getitem_records (Dataset_getitem fk tk tt dev) (dl_dataset dl)
                  (Dataset_getitem_single fk tk tt dev (dl_dataset dl))
                  (Dataset_getitem_missing fk tk tt dev (dl_dataset dl))
                  batch items Hitems) as (objs & Hobjs & Hits).
      destruct (Hcol objs items
                  (fetched_batch_of_group _ _ _ _ _ _ _ Hinit Hdl Hbatch Hobjs) Hits)
        as [b Hb].
      unfold GroupDataLoader_emit. rewrite Hb. simpl.
      destruct (dl_dataset dl) as [|first rest] eqn:E; [congruence|].
      unfold list_getitem. simpl.
      destruct (Hrec first) as [_ [p ->]]; [apply Hsub; left; reflexivity|].
      simpl. eauto.
  - intros fk tk tt dev p2e rnn k records e loader' Hinit [Hrec Hcol] Hpass.
    unfold RNNDataLoader_init in Hinit.
    destruct (GroupDataLoader_init data group_key (RNNDataset_getitem fk tk tt dev p2e)
                batch_size drop_last do_shuffle seed) as [base|] eqn:Hbase; [|discriminate].
    simpl in Hinit.
    destruct (group_json_objects data group_key) as [grouped|] eqn:Hg; [|discriminate].
    simpl in Hinit.
    destruct (structures_loop data grouped []) as [st|] eqn:Hst; [|discriminate].
    simpl in Hinit. injection Hinit as <-. simpl in *.
    eapply full_pass_raises; eauto.
    intros l dl Hdl.
    destruct (sources_hold_data _ _ _ _ _ Hbase Hdl)
      as (Hne & Hsub & grouped' & Hg' & Hl).
    assert (grouped' = grouped) by congruence. subst grouped'.
    split.
    + intros i Hi. destruct (list_getitem_lt _ _ Hi) as (obj & Hobj & Hin).
      rewrite (RNNDataset_getitem_single fk tk tt dev p2e _ _ _ Hobj).
      apply Hrec, Hsub, Hin.
    + intros batch items Hbatch Hitems.
      destruct (mapM_getitem_records (RNNDataset_getitem fk tk tt dev p2e) (dl_dataset dl)
                  (RNNDataset_getitem_single fk tk tt dev p2e (dl_dataset dl))
                  (RNNDataset_getitem_missing fk tk tt dev p2e (dl_dataset dl))
                  batch items Hitems) as (objs & Hobjs & Hits).
      destruct (Hcol objs items
                  (fetched_batch_of_group _ _ _ _ _ _ _ Hbase Hdl Hbatch Hobjs) Hits)
        as [b Hb].
      unfold RNNDataLoader_emit. rewrite Hb. simpl.
      pose proof (structures_loop_keys _ _ _ _ Hst l (or_intror Hl)) as Hs.
      destruct (dict_get l st); [eauto|congruence].
Qed.

End Exhaustion.

(** ** The laws on example records, with CPython's generator *)

Lemma group_json_objects_stable_witness :
  exists grouped,
    group_json_objects Example.records "pipeline.id" = Ok grouped /\
    (forall group indices, In (group, indices) grouped ->
       indices = filter (in_group "pipeline.id" Example.records group)
                        (seq 0 (length Example.records))) /\
    (forall i obj v,
       nth_error Example.records i = Some obj -> group_of "pipeline.id" obj = Ok v ->
       exists indices,
         dict_get v grouped = Some indices /\
         indices = filter (in_group "pipeline.id" Example.records v)
                          (seq 0 (length Example.records)) /\
         In i indices) /\
    dict_get (JStr "p") grouped = Some [0; 2; 4] /\
    dict_get (JStr "q") grouped = Some [1; 3].
Proof.
  destruct (group_json_objects_stable Example.records "pipeline.id")
    as (grouped & Hg & Hret & Hocc).
  - intros obj Hin. simpl in Hin.
    repeat (destruct Hin as [<-|Hin]; [eexists; split; reflexivity|]).
    destruct Hin.
  - exists grouped. split; [exact Hg|]. split; [exact Hret|]. split; [exact Hocc|].
    split.
    + destruct (Hocc 0 (Example.record "p" 0) (JStr "p") eq_refl eq_refl)
        as (indices & Hget & -> & _). exact Hget.
    + destruct (Hocc 1 (Example.record "q" 1) (JStr "q") eq_refl eq_refl)
        as (indices & Hget & -> & _). exact Hget.
Defined.

Lemma group_json_objects_partition_witness :
  exists grouped,
    group_json_objects Example.records "pipeline.id" = Ok grouped /\
    NoDup (concat (map snd grouped)) /\
    (forall i, In i (concat (map snd grouped)) <-> i < length Example.records) /\
    (forall i, i < length Example.records ->
       exists group indices, In (group, indices) grouped /\ In i indices /\
         forall group' indices', In (group', indices') grouped -> In i indices' ->
           (group', indices') = (group, indices)).
Proof.
  apply (group_json_objects_partition Example.records "pipeline.id").
  intros obj Hin. simpl in Hin.
  repeat (destruct Hin as [<-|Hin]; [eexists; split; reflexivity|]).
  destruct Hin.
Defined.

Lemma samplers_with_same_seed_agree_witness :
  firstn 2 (permutations_of 0 (snd (run Example.interpreter Example.session)))
  = firstn 2 (permutations_of 1 (snd (run Example.interpreter Example.session))).
Proof.
  apply (samplers_with_same_seed_agree 4 7 Example.interpreter Example.interpreter
           0 1 Example.session Example.session).
  - reflexivity.
  - reflexivity.
  - vm_compute. lia.
  - vm_compute. lia.
Defined.

Lemma is_ok_Ok {A : Type} (r : result A) : is_ok r = true -> exists a, r = Ok a.
Proof. destruct r; [eauto|discriminate]. Qed.

Lemma pass_is_full_length {R : PyRandom} {item yielded : Type}
    (emit : json -> list json -> list item -> result yielded)
    (constructed : result (GroupDataLoader item)) (k : nat)
    (l : GroupDataLoader item) records e l' :
  constructed = Ok l ->
  full_pass emit (after_passes emit k l) = (records, e, l') ->
  pass_is_full emit constructed k = true ->
  length records = GroupDataLoader_len l.
Proof.
  intros -> Hpass. unfold pass_is_full. rewrite Hpass. apply Nat.eqb_eq.
Qed.

Lemma example_loader_ok : is_ok (Example.loader 1) = true.
Proof. vm_compute. reflexivity. Qed.

Lemma example_rnn_loader_ok : is_ok (Example.rnn_loader 1) = true.
Proof. vm_compute. reflexivity. Qed.

Lemma example_pass_is_full :
  pass_is_full (@GroupDataLoader_emit Example.tensors) (Example.loader 1) 1 = true.
Proof. vm_compute. reflexivity. Qed.

Lemma GroupDataLoader_len_law_witness :
  exists loader, Example.loader 1 = Ok loader /\
  exists grouped,
    group_json_objects Example.records "pipeline.id" = Ok grouped /\
    GroupDataLoader_len loader
    = list_sum (map (fun gi => batch_count false (length (snd gi)) 2) grouped) /\
    forall (yielded : Type)
           (emit : json -> list json -> list (json * json) -> result yielded)
           (k : nat),
      GroupDataLoader_len (after_passes emit k loader) = GroupDataLoader_len loader.
Proof.
  destruct (is_ok_Ok (Example.loader 1) example_loader_ok) as [loader Hinit].
  exists loader. split; [exact Hinit|].
  exact (GroupDataLoader_len_law (R := MT.mt_random) _ Example.records "pipeline.id"
           (@Dataset_getitem Example.tensors "metafeatures" "test_f1_macro" "REGRESSION"
              "cpu") 2 false true 1 loader Hinit).
Defined.

Lemma full_pass_covers_group_witness :
  exists loader records e loader' dropped,
    Example.loader 1 = Ok loader /\
    full_pass (@GroupDataLoader_emit Example.tensors)
       (after_passes (@GroupDataLoader_emit Example.tensors) 1 loader)
      = (records, e, loader') /\
    Permutation
      (original_indices [0; 2; 4] (concat (batches_of (JStr "p") records)) ++ dropped)
      [0; 2; 4] /\
    length dropped = 0 /\
    NoDup (original_indices [0; 2; 4] (concat (batches_of (JStr "p") records))).
Proof.
  destruct (is_ok_Ok (Example.loader 1) example_loader_ok) as [loader Hinit].
  destruct (full_pass (@GroupDataLoader_emit Example.tensors)
       (after_passes (@GroupDataLoader_emit Example.tensors) 1 loader))
    as [[records e] loader'] eqn:Hpass.
  pose proof (pass_is_full_length (@GroupDataLoader_emit Example.tensors) (Example.loader 1) 1
                loader records e loader' Hinit Hpass example_pass_is_full) as Hfull.
  destruct (full_pass_covers_group (R := MT.mt_random) _ Example.records "pipeline.id"
              (@Dataset_getitem Example.tensors "metafeatures" "test_f1_macro" "REGRESSION"
              "cpu") 2 false true 1 loader Hinit _ (@GroupDataLoader_emit Example.tensors)
              1 records e loader' Hpass
              Example.grouped (JStr "p") [0; 2; 4]) as (dropped & H).
  - reflexivity.
  - left. reflexivity.
  - exact Hfull.
  - exists loader, records, e, loader', dropped. split; [exact Hinit|].
    split; [exact Hpass|]. exact H.
Defined.

Lemma passes_agree_witness :
  exists loader records e loader' records0 e0 loader0',
    Example.loader 1 = Ok loader /\
    full_pass (@GroupDataLoader_emit Example.tensors)
       (after_passes (@GroupDataLoader_emit Example.tensors) 1 loader)
      = (records, e, loader') /\
    full_pass (@GroupDataLoader_emit Example.tensors) loader = (records0, e0, loader0') /\
    (true = false -> records = records0 /\ e = e0) /\
    (length records = GroupDataLoader_len loader ->
     length records0 = GroupDataLoader_len loader ->
     map br_group records = map br_group records0 /\ e = e0) /\
    (forall loader2,
       GroupDataLoader_init Example.records "pipeline.id" (@Dataset_getitem Example.tensors "metafeatures" "test_f1_macro" "REGRESSION"
              "cpu") 2 false true 1
         = Ok loader2 ->
       full_pass (@GroupDataLoader_emit Example.tensors) loader2 = full_pass (@GroupDataLoader_emit Example.tensors) loader).
Proof.
  destruct (is_ok_Ok (Example.loader 1) example_loader_ok) as [loader Hinit].
  destruct (full_pass (@GroupDataLoader_emit Example.tensors)
       (after_passes (@GroupDataLoader_emit Example.tensors) 1 loader))
    as [[records e] loader'] eqn:Hpass.
  destruct (full_pass (@GroupDataLoader_emit Example.tensors) loader) as [[records0 e0] loader0'] eqn:Hpass0.
  exists loader, records, e, loader', records0, e0, loader0'.
  split; [exact Hinit|]. split; [exact Hpass|]. split; [exact Hpass0|].
  exact (passes_agree (R := MT.mt_random) _ Example.records "pipeline.id" (@Dataset_getitem Example.tensors "metafeatures" "test_f1_macro" "REGRESSION" "cpu")
           2 false true 1 loader Hinit _ (@GroupDataLoader_emit Example.tensors) 1 records e loader' Hpass
           records0 e0 loader0' Hpass0).
Defined.

(** C2, as stated, fails: with seed 1 the second pass over the example
    loader yields the batches of each group in another order than the
    first, as CPython does. *)
Lemma passes_differ :
  Example.two_passes 1 = Some (Example.first_pass, Example.second_pass) /\
  Example.first_pass <> Example.second_pass.
Proof.
  split; [vm_compute; reflexivity|discriminate].
Qed.

(** On the examples, lists of one length can be stacked, and so can
    scalars. *)
Lemma example_stack_lists (ts : list json) (n : nat) :
  ts <> [] -> Forall (fun t => exists l, t = JList l /\ length l = n) ts ->
  Example.stack ts = Ok (JList ts).
Proof.
  destruct ts as [|t rest]; [congruence|]. intros _ H.
  inversion H as [|? ? (l & -> & Hl) Hrest]; subst. unfold Example.stack.
  replace (forallb (Example.same_size (JList l)) rest) with true; [reflexivity|].
  symmetry. apply forallb_forall. intros u Hu. rewrite Forall_forall in Hrest.
  destruct (Hrest u Hu) as (l' & -> & Hl'). simpl. apply Nat.eqb_eq. congruence.
Qed.

Lemma example_stack_scalars (ts : list json) :
  ts <> [] -> Forall (fun t => exists z, t = JInt z) ts ->
  Example.stack ts = Ok (JList ts).
Proof.
  destruct ts as [|t rest]; [congruence|]. intros _ H.
  inversion H as [|? ? (z & ->) Hrest]; subst. unfold Example.stack.
  replace (forallb (Example.same_size (JInt z)) rest) with true; [reflexivity|].
  symmetry. apply forallb_forall. intros u Hu. rewrite Forall_forall in Hrest.
  destruct (Hrest u Hu) as (z' & ->). reflexivity.
Qed.

Lemma mapM_Forall_items {A B : Type} (f : A -> result B) (P : A -> Prop) (Q : B -> Prop) :
  (forall a b, P a -> f a = Ok b -> Q b) ->
  forall l bs, (forall a, In a l -> P a) -> mapM f l = Ok bs ->
  Forall Q bs /\ length bs = length l.
Proof.
  intros H. induction l as [|a l IH]; intros bs Hl; simpl.
  - intros [= <-]. split; [constructor|reflexivity].
  - destruct (f a) as [b|] eqn:Hb; [|discriminate]. simpl.
    destruct (mapM f l) as [bs'|] eqn:Hbs; [|discriminate]. simpl.
    intros [= <-]. destruct (IH bs' (fun a Ha => Hl a (or_intror Ha)) eq_refl) as [HF Hlen].
    split; [|simpl; congruence].
    constructor; [|exact HF]. eapply H; [apply Hl; left; reflexivity|exact Hb].
Qed.

Lemma example_dataset_records_ok :
  @dataset_records_ok Example.tensors "pipeline.id" "metafeatures" "test_f1_macro"
    "REGRESSION" "cpu" Example.records.
Proof.
  split.
  - intros obj Hin. simpl in Hin.
    repeat (destruct Hin as [<-|Hin]; [split; eexists; reflexivity|]).
    destruct Hin.
  - intros objs items [Hne (g & Hg)] Hitems.
    destruct (mapM_Forall_items
                (fun obj => @Dataset_getitem Example.tensors "metafeatures" "test_f1_macro"
                              "REGRESSION" "cpu" [obj] 0)
                (fun obj => In obj Example.records)
                (fun it : json * json =>
                   (exists l, fst it = JList l /\ length l = 1) /\
                   (exists z, snd it = JInt z))) with (l := objs) (bs := items)
      as [HF Hlen].
    + intros obj it Hin. simpl in Hin.
      repeat (destruct Hin as [<-|Hin];
              [intros [= <-]; split; eexists; try split; reflexivity|]).
      destruct Hin.
    + intros obj Hobj. apply Hg, Hobj.
    + exact Hitems.
    + assert (Hitems_ne : items <> []).
      { intros ->. destruct objs; [congruence|discriminate]. }
      assert (H1 : Example.stack (map fst items) = Ok (JList (map fst items))).
      { apply (example_stack_lists _ 1).
        - destruct items; [congruence|discriminate].
        - apply Forall_map. eapply Forall_impl; [|exact HF]. intros it [H _]. exact H. }
      assert (H2 : Example.stack (map snd items) = Ok (JList (map snd items))).
      { apply example_stack_scalars.
        - destruct items; [congruence|discriminate].
        - apply Forall_map. eapply Forall_impl; [|exact HF]. intros it [_ H]. exact H. }
      unfold collate_pairs. change (@torch_stack Example.tensors) with Example.stack.
      rewrite H1, H2. simpl. eauto.
Qed.

(** A record whose features are no numbers cannot be fetched: the
    constructor of the tensor raises. *)
Lemma example_features_rejected :
  @Dataset_getitem Example.tensors "metafeatures" "test_f1_macro" "REGRESSION" "cpu"
    [ JDict [ ("metafeatures", JStr "abc"); ("test_f1_macro", JInt 1) ] ] 0
  = Err TypeError.
Proof. reflexivity. Qed.

(** Items whose features differ in length cannot be collated. *)
Lemma example_collation_rejected :
  @collate_pairs Example.tensors
    [ (JList [JInt 1], JInt 0); (JList [JInt 1; JInt 2], JInt 0) ]
  = Err (RuntimeError "stack expects each tensor to be equal size").
Proof. reflexivity. Qed.

Lemma example_rnn_records_ok :
  @rnn_records_ok Example.tensors "pipeline.id" "metafeatures" "test_f1_macro"
    "REGRESSION" "cpu" Example.prim_to_enc Example.records.
Proof.
  split.
  - intros obj Hin. simpl in Hin.
    repeat (destruct Hin as [<-|Hin]; [eexists; reflexivity|]).
    destruct Hin.
  - intros objs items [Hne (g & Hg)] Hitems.
    destruct (mapM_Forall_items
                (fun obj => @RNNDataset_getitem Example.tensors "metafeatures"
                              "test_f1_macro" "REGRESSION" "cpu" Example.prim_to_enc
                              [obj] 0)
                (fun obj => In obj Example.records)
                (fun it : json * json * json =>
                   (exists l, fst (fst it) = JList l /\ length l = 1) /\
                   (exists l, snd (fst it) = JList l /\ length l = 1) /\
                   (exists z, snd it = JInt z))) with (l := objs) (bs := items)
      as [HF Hlen].
    + intros obj it Hin. simpl in Hin.
      repeat (destruct Hin as [<-|Hin];
              [intros [= <-]; repeat split; eexists; try split; reflexivity|]).
      destruct Hin.
    + intros obj Hobj. apply Hg, Hobj.
    + exact Hitems.
    + assert (Hitems_ne : items <> []).
      { intros ->. destruct objs; [congruence|discriminate]. }
      assert (H1 : Example.stack (map (fun i => fst (fst i)) items)
                   = Ok (JList (map (fun i => fst (fst i)) items))).
      { apply (example_stack_lists _ 1).
        - destruct items; [congruence|discriminate].
        - apply Forall_map. eapply Forall_impl; [|exact HF].
          intros it (H & _ & _). exact H. }
      assert (H2 : Example.stack (map (fun i => snd (fst i)) items)
                   = Ok (JList (map (fun i => snd (fst i)) items))).
      { apply (example_stack_lists _ 1).
        - destruct items; [congruence|discriminate].
        - apply Forall_map. eapply Forall_impl; [|exact HF].
          intros it (_ & H & _). exact H. }
      assert (H3 : Example.stack (map snd items) = Ok (JList (map snd items))).
      { apply example_stack_scalars.
        - destruct items; [congruence|discriminate].
        - apply Forall_map. eapply Forall_impl; [|exact HF].
          intros it (_ & _ & H). exact H. }
      unfold collate_triples. change (@torch_stack Example.tensors) with Example.stack.
      rewrite H1, H2, H3. simpl. eauto.
Qed.

Lemma exhausted_loader_raises_RuntimeError_witness :
  (exists loader records e loader',
     Example.loader 1 = Ok loader /\
     full_pass (@GroupDataLoader_emit Example.tensors)
       (after_passes (@GroupDataLoader_emit Example.tensors) 1 loader)
       = (records, e, loader') /\
     length records = GroupDataLoader_len loader /\
     e = Propagated (RuntimeError "generator raised StopIteration")) /\
  (exists rnn records e loader',
     Example.rnn_loader 1 = Ok rnn /\
     full_pass (@RNNDataLoader_emit Example.tensors (pipeline_structures rnn))
       (after_passes (@RNNDataLoader_emit Example.tensors (pipeline_structures rnn)) 1
          (rnn_loader rnn))
       = (records, e, loader') /\
     length records = GroupDataLoader_len (rnn_loader rnn) /\
     e = Propagated (RuntimeError "generator raised StopIteration")).
Proof.
  split.
  - destruct (is_ok_Ok (Example.loader 1) example_loader_ok) as [loader Hinit].
    destruct (full_pass (@GroupDataLoader_emit Example.tensors)
       (after_passes (@GroupDataLoader_emit Example.tensors) 1 loader))
      as [[records e] loader'] eqn:Hpass.
    exists loader, records, e, loader'.
    split; [exact Hinit|]. split; [exact Hpass|].
    exact (proj1 (exhausted_loader_raises_RuntimeError (R := MT.mt_random)
                    (T := Example.tensors) Example.records "pipeline.id" 2 false true 1)
             "metafeatures" "test_f1_macro" "REGRESSION" "cpu" loader 1 records e loader'
             Hinit example_dataset_records_ok Hpass).
  - destruct (is_ok_Ok (Example.rnn_loader 1) example_rnn_loader_ok) as [rnn Hinit].
    destruct (full_pass (@RNNDataLoader_emit Example.tensors (pipeline_structures rnn))
                (after_passes (@RNNDataLoader_emit Example.tensors (pipeline_structures rnn)) 1
                   (rnn_loader rnn)))
      as [[records e] loader'] eqn:Hpass.
    exists rnn, records, e, loader'.
    split; [exact Hinit|]. split; [exact Hpass|].
    exact (proj2 (exhausted_loader_raises_RuntimeError (R := MT.mt_random)
                    (T := Example.tensors) Example.records "pipeline.id" 2 false true 1)
             "metafeatures" "test_f1_macro" "REGRESSION" "cpu" Example.prim_to_enc
             rnn 1 records e loader' Hinit example_rnn_records_ok Hpass).
Defined.

(** * Further properties *)

(** ** Grouping index: errors and key order *)

Lemma group_of_hashable (group_key : string) (obj v : json) :
  group_of group_key obj = Ok v -> py_hashable v = true.
Proof.
  unfold group_of, bind. destruct (get_path _ _) as [g|]; [|discriminate].
  destruct (py_hashable g) eqn:E; congruence.
Qed.

Lemma group_step_returns (group_key : string) (d : pydict (list nat)) (i : nat)
    (obj v : json) :
  group_of group_key obj = Ok v -> exists d', group_step group_key d i obj = Ok d'.
Proof.
  intros Hv. pose proof (group_of_hashable _ _ _ Hv) as Hh.
  unfold group_step. rewrite Hv. simpl. unfold dict_mem.
  destruct (dict_get v d) as [l|] eqn:Hget; simpl.
  - rewrite Hget. eauto.
  - rewrite dict_get_set, py_key_eqb_refl by exact Hh. eauto.
Qed.

Lemma get_path_loop_error (path : list string) :
  forall (acc : result json) (e : exn),
  fold_left (fun group key_part => let* g := group in py_getitem g key_part) path acc = Err e ->
  acc = Err e \/ e = TypeError \/ exists key_part, In key_part path /\ e = KeyError key_part.
Proof.
  induction path as [|key_part path IH]; intros acc e H; simpl in H.
  - left. exact H.
  - destruct (IH _ _ H) as [Hacc|[Ht|(kp & Hin & Hk)]].
    + destruct acc as [g|e']; simpl in Hacc.
      * right. unfold py_getitem in Hacc.
        destruct g; try (left; congruence).
        destruct (assoc_get key_part d); [discriminate|].
        right. exists key_part. split; [left; reflexivity|congruence].
      * left. exact Hacc.
    + right. left. exact Ht.
    + right. right. exists kp. split; [right; exact Hin|exact Hk].
Qed.

Lemma group_of_error (group_key : string) (obj : json) (e : exn) :
  group_of group_key obj = Err e ->
  e = TypeError \/ exists key_part, In key_part (py_split "." group_key) /\ e = KeyError key_part.
Proof.
  unfold group_of, bind. destruct (get_path obj _) as [g|e'] eqn:Hp.
  - destruct (py_hashable g); [discriminate|]. intros [= <-]. left. reflexivity.
  - intros [= <-]. unfold get_path in Hp.
    destruct (get_path_loop_error _ _ _ Hp) as [H|H]; [discriminate|exact H].
Qed.

Lemma group_loop_first_error (group_key : string) (obj : json) (e : exn)
    (post : list json) (pre : list json) :
  group_of group_key obj = Err e ->
  (forall o, In o pre -> exists v, group_of group_key o = Ok v) ->
  forall d i, group_loop group_key d i (pre ++ obj :: post) = Err e.
Proof.
  intros He. induction pre as [|o pre IH]; intros Hpre d i; simpl.
  - unfold group_step. rewrite He. reflexivity.
  - destruct (Hpre o (or_introl eq_refl)) as [v Hv].
    destruct (group_step_returns group_key d i o v Hv) as [d' ->]. simpl.
    apply IH. intros o' Ho'. apply Hpre. right. exact Ho'.
Qed.

(** X1. If the record at position [k] is the first one without a hashable
    value at the key path, while every earlier record has one, then
    [group_json_objects] returns no grouping: it raises the error of that
    record, which is a [KeyError] naming a part of the dotted key or a
    [TypeError]. *)
Theorem group_json_objects_raises_first_error (json_objects : list json)
    (group_key : string) (k : nat) (obj : json) (e : exn) :
  nth_error json_objects k = Some obj ->
  group_of group_key obj = Err e ->
  (forall i o, i < k -> nth_error json_objects i = Some o ->
     exists v, group_of group_key o = Ok v) ->
  group_json_objects json_objects group_key = Err e /\
  (e = TypeError \/
   exists key_part, In key_part (py_split "." group_key) /\ e = KeyError key_part).
Proof.
  intros Hk He Hpre. split; [|eapply group_of_error; eauto].
  destruct (nth_error_split _ _ Hk) as (pre & post & -> & Hlen).
  unfold group_json_objects. apply group_loop_first_error; [exact He|].
  intros o Ho. destruct (In_nth_error _ _ Ho) as [i Hi].
  apply (Hpre i o).
  - subst k. apply nth_error_Some. congruence.
  - rewrite nth_error_app1; [exact Hi|]. apply nth_error_Some. congruence.
Qed.

Lemma dict_set_app_last {V : Type} (k : json) (v v' : V) (d : pydict V) :
  dict_get k d = None -> py_key_eqb k k = true ->
  dict_set k v' (d ++ [(k, v)]) = d ++ [(k, v')].
Proof.
  intros Hget Hk. induction d as [|[g w] d IH]; simpl in *.
  - rewrite Hk. reflexivity.
  - destruct (py_key_eqb g k); [discriminate|]. rewrite IH; auto.
Qed.

Lemma group_step_shape (group_key : string) (d d' : pydict (list nat)) (k : nat)
    (obj : json) :
  group_step group_key d k obj = Ok d' ->
  (exists v, group_of group_key obj = Ok v /\ dict_get v d = None /\ d' = d ++ [(v, [k])]) \/
  (exists v d1 g l d2, group_of group_key obj = Ok v /\
     d = d1 ++ (g, l) :: d2 /\ d' = d1 ++ (g, l ++ [k]) :: d2).
Proof.
  unfold group_step. destruct (group_of group_key obj) as [v|] eqn:Hv; [|discriminate].
  pose proof (group_of_hashable _ _ _ Hv) as Hh.
  simpl. unfold dict_mem.
  destruct (dict_get v d) as [l|] eqn:Hget; simpl.
  - rewrite Hget. intros [= <-]. right.
    destruct (dict_get_Some _ _ _ Hget) as (d1 & g & d2 & -> & _ & _ & Hset).
    exists v, d1, g, l, d2. rewrite Hset. auto.
  - rewrite dict_get_set, py_key_eqb_refl by exact Hh. intros [= <-]. left.
    exists v. split; [reflexivity|]. split; [exact Hget|].
    rewrite (dict_set_new _ _ _ Hget).
    apply dict_set_app_last; [exact Hget|apply py_key_eqb_refl, Hh].
Qed.

Lemma StronglySorted_lt_snoc (l : list nat) (k : nat) :
  StronglySorted lt l -> Forall (fun x => x < k) l -> StronglySorted lt (l ++ [k]).
Proof.
  induction 1 as [|a l Hl IH Ha]; intros Hk; simpl.
  - constructor; constructor.
  - inversion Hk; subst. constructor; [auto|].
    apply Forall_app. split; [exact Ha|]. constructor; [assumption|constructor].
Qed.

Lemma hd_app_nonempty {A : Type} (d : A) (l l' : list A) : l <> [] -> hd d (l ++ l') = hd d l.
Proof. destruct l; [congruence|reflexivity]. Qed.

Lemma group_loop_first_indices (group_key : string) (json_objects : list json)
    (rest : list json) :
  forall (d : pydict (list nat)) (k : nat) (d' : pydict (list nat)),
  grouped_upto group_key json_objects k d -> skipn k json_objects = rest ->
  StronglySorted lt (first_indices d) ->
  group_loop group_key d k rest = Ok d' ->
  StronglySorted lt (first_indices d').
Proof.
  induction rest as [|obj rest IH]; intros d k d' Hd Hskip Hs Hloop; simpl in Hloop.
  - injection Hloop as <-. exact Hs.
  - destruct (group_step group_key d k obj) as [d1|] eqn:Hstep; [|discriminate].
    simpl in Hloop.
    assert (Hobj : nth_error json_objects k = Some obj).
    { rewrite <- (Nat.add_0_r k), <- nth_error_skipn, Hskip. reflexivity. }
    assert (Hd1 : grouped_upto group_key json_objects (S k) d1).
    { destruct (group_step_shape _ _ _ _ _ Hstep) as [(v & Hv & _)|(v & ? & ? & ? & ? & Hv & _)];
        destruct (group_step_ok group_key json_objects d k obj v Hd Hobj Hv)
          as (d1' & Hstep' & H); congruence. }
    apply (IH d1 (S k) d' Hd1); [| |exact Hloop].
    + change (S k) with (1 + k). rewrite <- skipn_skipn, Hskip. reflexivity.
    + destruct (group_step_shape _ _ _ _ _ Hstep)
        as [(v & _ & _ & ->)|(v & da & g & l & db & _ & -> & ->)].
      * unfold first_indices. rewrite map_app. simpl.
        apply StronglySorted_lt_snoc; [exact Hs|].
        apply Forall_forall. intros x Hx. apply in_map_iff in Hx.
        destruct Hx as ([g l] & <- & Hin). simpl.
        destruct (gu_positions _ _ _ _ Hd g l Hin) as [Hl Hne].
        assert (Hhd : In (hd 0 l) l) by (destruct l; [congruence|left; reflexivity]).
        rewrite Hl in Hhd at 2. apply in_positions in Hhd. tauto.
      * unfold first_indices in *. rewrite map_app in *. simpl in *.
        rewrite hd_app_nonempty; [exact Hs|].
        apply (gu_positions _ _ _ _ Hd g l). apply in_or_app. simpl. auto.
Qed.

Lemma filter_seq_first (P : nat -> bool) (n : nat) :
  forall (a first : nat) (rest : list nat),
  filter P (seq a n) = first :: rest ->
  P first = true /\ a <= first /\ forall j, a <= j < first -> P j = false.
Proof.
  induction n as [|n IH]; intros a first rest H; simpl in H; [discriminate|].
  destruct (P a) eqn:Ea.
  - injection H as <- _. split; [exact Ea|]. split; [lia|]. intros j Hj. lia.
  - destruct (IH _ _ _ H) as (Hf & Hle & Hlt). split; [exact Hf|]. split; [lia|].
    intros j Hj. destruct (Nat.eq_dec j a) as [->|Hne]; [exact Ea|]. apply Hlt. lia.
Qed.

(** X2. Whenever [group_json_objects] returns, the groups of the dict come
    in the order of their first record: the first indices of the groups, in
    dict order, are strictly increasing; no index list is empty, and the
    first index of a group is the smallest input position whose key value is
    that group. *)
Theorem group_json_objects_first_occurrence_order (json_objects : list json)
    (group_key : string) (grouped : pydict (list nat)) :
  group_json_objects json_objects group_key = Ok grouped ->
  StronglySorted lt (first_indices grouped) /\
  forall g l, In (g, l) grouped ->
    exists first rest, l = first :: rest /\
      in_group group_key json_objects g first = true /\
      forall j, j < first -> in_group group_key json_objects g j = false.
Proof.
  intros H. split.
  - apply (group_loop_first_indices group_key json_objects json_objects [] 0 grouped);
      [apply grouped_upto_0|reflexivity|constructor|exact H].
  - intros g l Hin.
    pose proof (group_json_objects_Ok _ _ _ H) as Hg.
    destruct (gu_positions _ _ _ _ Hg g l Hin) as [Hl Hne].
    destruct l as [|first rest]; [congruence|].
    exists first, rest. split; [reflexivity|].
    unfold positions in Hl. symmetry in Hl.
    destruct (filter_seq_first _ _ _ _ _ Hl) as (Hf & _ & Hlt).
    split; [exact Hf|]. intros j Hj. apply Hlt. lia.
Qed.

(** ** Structural key encoder *)

Lemma append_empty_r (s : string) : (s ++ "")%string = s.
Proof. induction s as [|c s IH]; simpl; congruence. Qed.

Lemma append_assoc' (a b c : string) : ((a ++ b) ++ c)%string = (a ++ (b ++ c))%string.
Proof. induction a as [|x a IH]; simpl; congruence. Qed.

Lemma concat_empty_cons (x : string) (xs : list string) :
  String.concat "" (x :: xs) = (x ++ String.concat "" xs)%string.
Proof. destruct xs; simpl; [symmetry; apply append_empty_r|reflexivity]. Qed.

Lemma concat_empty_app (l1 l2 : list string) :
  String.concat "" (l1 ++ l2) = (String.concat "" l1 ++ String.concat "" l2)%string.
Proof.
  induction l1 as [|x l1 IH]; [reflexivity|].
  rewrite <- app_comm_cons, !concat_empty_cons, IH, append_assoc'. reflexivity.
Qed.

Lemma encode_dag_flat (dag : list (list reference)) :
  encode_dag dag = String.concat "" (map py_str (concat dag)).
Proof.
  unfold encode_dag. induction dag as [|vertex dag IH]; [reflexivity|].
  cbn [map concat]. rewrite concat_empty_cons, IH, map_app, concat_empty_app. reflexivity.
Qed.

(** X3. [encode_dag] depends on the edges read in sequence only: two DAGs
    whose vertices concatenate to the same list of edges have the same
    encoding, wherever the boundaries between their vertices lie. *)
Theorem encode_dag_ignores_vertex_boundaries (dag1 dag2 : list (list reference)) :
  concat dag1 = concat dag2 -> encode_dag dag1 = encode_dag dag2.
Proof. intros H. rewrite !encode_dag_flat, H. reflexivity. Qed.

(** ** Per-group sampler *)

Section SamplerFacts.
Context {R : PyRandom}.

Lemma sampler_stream_permutations (n : nat) (k : nat) :
  forall s : RandomSampler, Permutation (rs_indices s) (seq 0 n) ->
  Forall (fun p => Permutation p (seq 0 n)) (sampler_stream k s).
Proof.
  induction k as [|k IH]; intros s Hs; simpl; [constructor|].
  pose proof (RandomSampler_iter_Permutation s) as Hp.
  pose proof (RandomSampler_iter_indices s) as Hi.
  destruct (RandomSampler_iter s) as [p s']. simpl in *.
  constructor.
  - rewrite Hp. exact Hs.
  - apply IH. rewrite Hi, Hp. exact Hs.
Qed.

(** X4. Each of the first [k] iteration requests on [RandomSampler(n,
    seed)], for every [k], hands out a permutation of [range(n)]: no index
    twice, none left out, and [len(sampler)] of them. *)
Theorem RandomSampler_samples_without_replacement (n : nat) (seed : Z) (k : nat) :
  Forall (fun p => Permutation p (seq 0 n) /\ NoDup p /\
                   length p = RandomSampler_len (RandomSampler_init n seed))
         (sampler_stream k (RandomSampler_init n seed)).
Proof.
  eapply Forall_impl; [|apply (sampler_stream_permutations n k); reflexivity].
  intros p Hp. split; [exact Hp|]. split.
  - apply (Permutation_NoDup (Permutation_sym Hp)), seq_NoDup.
  - rewrite (Permutation_length Hp), length_seq. reflexivity.
Qed.

End SamplerFacts.

(** ** DAG execution engine: what reaches the caller *)


Lemma py_list_index_empty {A : Type} (i : Z) :
  py_list_index (@nil A) (RefIndex i) = Err IndexError.
Proof.
  unfold py_list_index. simpl.
  destruct (i <? 0)%Z eqn:E.
  - replace ((0 <=? i + 0) && (i + 0 <? 0))%Z%bool with false; [reflexivity|].
    symmetry. apply andb_false_iff. left. apply Z.leb_gt. apply Z.ltb_lt in E. lia.
  - replace ((0 <=? i) && (i <? 0))%Z%bool with false; [reflexivity|].
    symmetry. apply andb_false_iff. right. exact E.
Qed.

Section Escapes.
Variable tensor : Type.
Variable submodules : string -> option (tensor -> result tensor).
Variable f_activation : tensor -> tensor.
Variable torch_cat : list tensor -> result tensor.

#[local] Abbreviation rgo :=
  (recursive_get_output tensor submodules f_activation torch_cat).
#[local] Abbreviation body :=
  (try_body tensor submodules f_activation torch_cat).

Lemma recursive_get_output_no_such_node (depth : nat) (h1 : tensor)
    (pipeline : list Step) (current_index : reference) (e : exn) :
  py_list_index pipeline current_index = Err e ->
  rgo (S depth) h1 pipeline current_index = ([PrintError e], Raise e).
Proof.
  intros H. simpl. unfold try_body, handler. rewrite H. reflexivity.
Qed.



(** X6. A step that has a submodule but an empty list of inputs ends the
    process: [curr_output] is unbound after the loop, the handler prints the
    [UnboundLocalError] and the step, and [quit(1)] raises [SystemExit] with
    status 1. *)
Theorem recursive_get_output_no_inputs_exits (depth : nat) (h1 : tensor)
    (pipeline : list Step) (current_index : reference) (step : Step)
    (unit : tensor -> result tensor) :
  py_list_index pipeline current_index = Ok step ->
  submodules (name step) = Some unit ->
  inputs step = [] ->
  rgo (S depth) h1 pipeline current_index
  = ([PrintError UnboundLocalError; PrintStep step], SystemExit 1).
Proof.
  intros Hstep Hunit Hin. simpl. unfold try_body, handler.
  rewrite Hstep, Hunit, Hin. reflexivity.
Qed.


Variable input_type : Type.
Variable input_model : input_type -> result tensor.
Variable output_model : tensor -> result tensor.

#[local] Abbreviation fwd :=
  (forward tensor submodules f_activation torch_cat input_type input_model output_model).



(** X9. With an empty left pipeline, [forward] raises [IndexError] to its
    caller after the handler has printed the [IndexError] once:
    [len(left_pipeline) - 1] is -1, which is no index of an empty list,
    neither in the [try] block nor in the handler's second [print]. *)
Theorem forward_empty_pipeline_raises (depth : nat) (pipeline_ids : json)
    (right_pipeline : list Step) (x : input_type) (h1 : tensor) :
  input_model x = Ok h1 ->
  fwd (S depth) (pipeline_ids, ([], right_pipeline), x)
  = ([PrintError IndexError], Raise IndexError).
Proof.
  intros Hx. unfold forward. rewrite Hx.
  rewrite (recursive_get_output_no_such_node depth h1 [] _ IndexError); [reflexivity|].
  apply py_list_index_empty.
Qed.

End Escapes.

(** ** What a pass yields *)

Lemma mapM_list_getitem_nth {A : Type} (data : list A) (d : nat) (idxs : list nat) :
  forall (ds : list A) (j : nat),
  mapM (list_getitem data) idxs = Ok ds -> j < length idxs ->
  list_getitem ds j = list_getitem data (nth j idxs d).
Proof.
  induction idxs as [|i idxs IH]; intros ds j H Hj; simpl in *; [lia|].
  destruct (list_getitem data i) as [a|] eqn:Ha; [|discriminate]. simpl in H.
  destruct (mapM (list_getitem data) idxs) as [ds'|] eqn:Hds; [|discriminate].
  simpl in H. injection H as <-.
  destruct j as [|j].
  - unfold list_getitem in *. simpl. destruct (nth_error data i); congruence.
  - unfold list_getitem at 1. simpl.
    specialize (IH ds' j eq_refl ltac:(lia)). unfold list_getitem at 1 in IH. exact IH.
Qed.

Lemma mapM_map_ext {A B C : Type} (f : A -> result C) (g : B -> result C) (h : A -> B)
    (l : list A) :
  (forall a, In a l -> f a = g (h a)) -> mapM f l = mapM g (map h l).
Proof.
  induction l as [|a l IH]; intros H; simpl; [reflexivity|].
  rewrite (H a (or_introl eq_refl)), IH; [reflexivity|].
  intros a' Ha'. apply H. right. exact Ha'.
Qed.

Section PassRecords.
Context {R : PyRandom}.
Variables item yielded : Type.
Variable getitem : dataset_class item.
Variable emit : json -> list json -> list item -> result yielded.

(** Every batch that the loop yields is one of the batches its group
    still had to give, fetched from the group's dataset. *)
Lemma iter_loop_records (labels : list json) :
  forall (dls : pydict DataLoader) (iters : pydict (list (list nat))),
  pass_inv dls iters labels ->
  forall records e dls',
  iter_loop emit getitem dls iters labels = (records, e, dls') ->
  forall r, In r records ->
  exists dl, dict_get (br_group r) dls = Some dl /\
    In (br_indices r) (match dict_get (br_group r) iters with
                       | Some batches => batches
                       | None => fst (DataLoader_iter dl)
                       end) /\
    (let* items := mapM (getitem (dl_dataset dl)) (br_indices r) in
     emit (br_group r) (dl_dataset dl) items) = Ok (br_value r).
Proof.
  induction labels as [|l labels IH]; intros dls iters Hinv records e dls' Hloop r Hr.
  - simpl in Hloop. injection Hloop as <- _ _. destruct Hr.
  - destruct (open_iterator_spec dls iters l labels Hinv)
      as (dls1 & iters1 & dl1 & batch & more & Hopen & Hit1 & Hl1 & Hinv1 & Hst & _
          & _ & _ & Hbat).
    simpl in Hloop. rewrite Hopen, Hit1, Hl1 in Hloop.
    destruct (let* items := fetch item getitem dl1 batch in
              emit l (dl_dataset dl1) items) as [v|err] eqn:Hfetch.
    2:{ injection Hloop as <- _ _. destruct Hr. }
    destruct (iter_loop emit getitem dls1 (dict_set l more iters1) labels)
      as [[records1 e1] dls2] eqn:Hrest.
    injection Hloop as <- _ _.
    assert (Hsrc : forall g dlg, dict_get g dls1 = Some dlg ->
              exists dl, dict_get g dls = Some dl /\ dl_dataset dlg = dl_dataset dl).
    { intros g dlg Hg. specialize (Hst g). rewrite Hg in Hst.
      destruct (dict_get g dls) as [dl|]; [|discriminate].
      exists dl. split; [reflexivity|]. simpl in Hst. unfold static in Hst. congruence. }
    destruct Hr as [<-|Hr]; simpl.
    + destruct (Hsrc l dl1 Hl1) as (dl & Hl & Hds).
      exists dl. split; [exact Hl|]. split.
      * rewrite <- (Hbat l dl Hl), (dict_get_hashable _ _ _ Hl). left. reflexivity.
      * rewrite <- Hds. exact Hfetch.
    + destruct (IH _ _ Hinv1 _ _ _ Hrest r Hr) as (dlg & Hg1 & Hin & Hval).
      destruct (Hsrc _ _ Hg1) as (dl & Hg & Hds).
      exists dl. split; [exact Hg|]. split; [|rewrite <- Hds; exact Hval].
      rewrite <- (Hbat _ dl Hg).
      rewrite dict_get_set, (py_key_eqb_sym l (br_group r)) in Hin.
      destruct (py_key_eqb (br_group r) l) eqn:E.
      * right. exact Hin.
      * rewrite dict_get_set, (py_key_eqb_sym l (br_group r)), E, Hg1. exact Hin.
Qed.

End PassRecords.

Section Yielded.
Context {R : PyRandom}.
Variable item : Type.
Variable data : list json.
Variable group_key : string.
Variable cls : dataset_class item.
Variable batch_size : nat.
Variables drop_last do_shuffle : bool.
Variable seed : Z.
Variable loader : GroupDataLoader item.
Hypothesis Hinit :
  GroupDataLoader_init data group_key cls batch_size drop_last do_shuffle seed = Ok loader.
Variable yielded : Type.
Variable emit : json -> list json -> list item -> result yielded.
Variable k : nat.
Variable records : list (batch_record yielded).
Variable e : iteration_end.
Variable loader' : GroupDataLoader item.
Hypothesis Hpass : full_pass emit (after_passes emit k loader) = (records, e, loader').

(** The batch source behind a record of pass [k + 1], the index list of
    its group, and what was fetched. *)
Lemma yielded_record_source (r : batch_record yielded) :
  In r records ->
  exists grouped group_indices dl,
    group_json_objects data group_key = Ok grouped /\
    dict_get (br_group r) grouped = Some group_indices /\
    group_indices <> [] /\
    dl_wf dl /\
    mapM (list_getitem data) group_indices = Ok (dl_dataset dl) /\
    dl_batch_size dl = batch_size /\ dl_drop_last dl = drop_last /\
    In (br_indices r) (fst (DataLoader_iter dl)) /\
    (let* items := mapM (cls (dl_dataset dl)) (br_indices r) in
     emit (br_group r) (dl_dataset dl) items) = Ok (br_value r).
Proof using Hinit Hpass.
  intros Hr.
  destruct (GroupDataLoader_init_spec _ _ _ _ _ _ _ _ _ Hinit)
    as (grouped & Hg & HF & Hdis & Hcls & Hperm & Hinv).
  destruct (after_passes_spec item yielded emit k loader Hinv)
    as (Hinvk & Hb & Hc & Hst & _).
  unfold full_pass in Hpass.
  destruct (iter_loop emit (gdl_dataset_class (after_passes emit k loader))
              (gdl_group_dataloaders (after_passes emit k loader)) []
              (gdl_group_batches (after_passes emit k loader)))
    as [[records0 e0] dls'] eqn:Hloop.
  injection Hpass as <- _ _.
  destruct (iter_loop_records _ _ _ _ _ _ _ Hinvk _ _ _ Hloop r Hr)
    as (dl & Hdl & Hin & Hval).
  simpl in Hin. rewrite Hc, Hcls in Hval.
  specialize (Hst (br_group r)). rewrite Hdl in Hst.
  destruct (dict_get (br_group r) (gdl_group_dataloaders loader)) as [dl0|] eqn:Hdl0;
    [|discriminate].
  simpl in Hst. assert (Hst' : static dl = static dl0) by congruence.
  unfold static in Hst'. injection Hst' as E1 E2 E3 _.
  destruct (proj2 (Forall2_dict_get _ _ _ HF (br_group r)) dl0 Hdl0)
    as (idxs & Hidxs & Hbuilt).
  destruct Hbuilt as (Hdata & Hbs & _ & Hdrop & _).
  exists grouped, idxs, dl.
  split; [exact Hg|]. split; [exact Hidxs|]. split.
  { destruct (dict_get_In _ _ _ Hidxs) as (g & Hgin & _).
    apply (gu_positions _ _ _ _ (group_json_objects_Ok _ _ _ Hg) g idxs Hgin). }
  split; [apply (pi_wf _ _ _ Hinvk _ dl Hdl)|].
  split; [rewrite E1; exact Hdata|].
  split; [congruence|]. split; [congruence|]. split; [exact Hin|exact Hval].
Qed.

(** X10. Every batch that a pass of a constructed [GroupDataLoader] yields
    has at least one and at most [batch_size] items, and exactly
    [batch_size] items when [drop_last] is set. *)
Theorem yielded_batches_respect_batch_size :
  Forall (fun r => 0 < length (br_indices r) <= batch_size /\
                   (drop_last = true -> length (br_indices r) = batch_size)) records.
Proof using Hinit Hpass.
  apply Forall_forall. intros r Hr.
  destruct (yielded_record_source r Hr)
    as (grouped & idxs & dl & _ & _ & _ & Hwf & _ & Hbs & Hdrop & Hin & _).
  rewrite DataLoader_iter_batches, Hbs, Hdrop in Hin.
  assert (Hpos : 0 < batch_size) by (rewrite <- Hbs; apply Hwf).
  pose proof (batch_loop_sizes batch_size drop_last (pass_indices dl) Hpos [] Hpos) as HF.
  rewrite Forall_forall in HF. exact (HF _ Hin).
Qed.

(** X11. With [drop_last] set, a group that has fewer records than
    [batch_size] gives no batch in any pass: its records are left out
    without notice. *)
Theorem small_group_is_never_yielded (grouped : pydict (list nat))
    (g : json) (group_indices : list nat) :
  group_json_objects data group_key = Ok grouped ->
  In (g, group_indices) grouped ->
  drop_last = true -> length group_indices < batch_size ->
  batches_of g records = [].
Proof using Hinit Hpass.
  intros Hg Hgin Hdrop Hsmall.
  unfold batches_of.
  destruct (filter (fun r => py_key_eqb g (br_group r)) records) as [|r rs] eqn:Hf;
    [reflexivity|exfalso].
  assert (Hr : In r (filter (fun r => py_key_eqb g (br_group r)) records))
    by (rewrite Hf; left; reflexivity).
  apply filter_In in Hr. destruct Hr as [Hr Hgr].
  destruct (yielded_record_source r Hr)
    as (grouped' & idxs & dl & Hg' & Hidxs & _ & Hwf & Hdata & Hbs & Hdl & Hin & _).
  assert (grouped' = grouped) by congruence. subst grouped'.
  pose proof (group_json_objects_Ok _ _ _ Hg) as Hgr'.
  assert (Hget : dict_get g grouped = Some group_indices).
  { apply In_dict_get; [apply Hgr'| |exact Hgin]. eapply grouped_key_hashable; eauto. }
  rewrite (dict_get_eqb _ _ grouped Hgr) in Hget.
  assert (idxs = group_indices) by congruence. subst idxs.
  pose proof (DataLoader_iter_length dl Hwf) as Hlen.
  assert (Hzero : DataLoader_len dl = 0).
  { unfold DataLoader_len. rewrite Hdl, Hdrop, Hbs.
    assert (Hn : sampler_len dl = length group_indices).
    { unfold sampler_len. destruct Hwf as [_ Hs].
      destruct (dl_sampler dl) as [s|].
      - unfold RandomSampler_len. destruct Hs as [-> _]. apply (mapM_length _ _ _ Hdata).
      - apply (mapM_length _ _ _ Hdata). }
    rewrite Hn. apply Nat.div_small. exact Hsmall. }
  rewrite Hzero in Hlen. destruct (fst (DataLoader_iter dl)); [destruct Hin|discriminate].
Qed.

End Yielded.

Section YieldedData.
Context {R : PyRandom} {T : TorchTensor}.
Variable data : list json.
Variable group_key : string.
Variables features_key target_key task_type device : string.
Variable batch_size : nat.
Variables drop_last do_shuffle : bool.
Variable seed : Z.
Variable loader : GroupDataLoader (Tensor * Tensor).
Hypothesis Hinit :
  GroupDataLoader_init data group_key (Dataset_getitem features_key target_key task_type device)
    batch_size drop_last do_shuffle seed = Ok loader.
Variable k : nat.
Variable records : list (batch_record (json * json * Tensor * Tensor)).
Variable e : iteration_end.
Variable loader' : GroupDataLoader (Tensor * Tensor).
Hypothesis Hpass :
  full_pass GroupDataLoader_emit (after_passes GroupDataLoader_emit k loader)
  = (records, e, loader').

(** X12. Every [((group, pipeline, x_batch), y_batch)] that a pass of
    [GroupDataLoader] over [Dataset] yields holds the stacked tensors of the
    features and of the targets of records of [data] of the group: those at
    the indices of the batch into the index list of the group, in this
    order; [pipeline] is the pipeline of the first record of the group. *)
Theorem yielded_batch_holds_records_of_its_group
    (r : batch_record (json * json * Tensor * Tensor)) :
  In r records ->
  exists grouped group_indices items x_batch y_batch first pipeline,
    group_json_objects data group_key = Ok grouped /\
    dict_get (br_group r) grouped = Some group_indices /\
    (forall j, In j (br_indices r) -> j < length group_indices) /\
    mapM (Dataset_getitem features_key target_key task_type device data)
         (original_indices group_indices (br_indices r)) = Ok items /\
    torch_stack (map fst items) = Ok x_batch /\
    torch_stack (map snd items) = Ok y_batch /\
    list_getitem data (hd 0 group_indices) = Ok first /\
    py_getitem first "pipeline" = Ok pipeline /\
    br_value r = (br_group r, pipeline, x_batch, y_batch).
Proof using Hinit Hpass.
  intros Hr.
  destruct (yielded_record_source _ _ _ _ _ _ _ _ _ Hinit _ _ _ _ _ _ Hpass r Hr)
    as (grouped & idxs & dl & Hg & Hidxs & Hne & Hwf & Hdata & _ & _ & Hin & Hval).
  assert (Hrange : forall j, In j (br_indices r) -> j < length idxs).
  { intros j Hj. rewrite <- (mapM_length _ _ _ Hdata).
    eapply DataLoader_iter_range; eauto. }
  assert (Hmap : mapM (Dataset_getitem features_key target_key task_type device (dl_dataset dl))
                      (br_indices r)
                 = mapM (Dataset_getitem features_key target_key task_type device data)
                        (original_indices idxs (br_indices r))).
  { unfold original_indices. apply mapM_map_ext. intros j Hj.
    unfold Dataset_getitem.
    rewrite (mapM_list_getitem_nth data 0 idxs _ j Hdata (Hrange j Hj)). reflexivity. }
  rewrite Hmap in Hval.
  destruct (mapM (Dataset_getitem features_key target_key task_type device data)
                 (original_indices idxs (br_indices r))) as [items|] eqn:Hitems;
    [|discriminate].
  simpl in Hval. unfold GroupDataLoader_emit, collate_pairs in Hval.
  destruct (torch_stack (map fst items)) as [x_batch|] eqn:Hx; [|discriminate].
  simpl in Hval.
  destruct (torch_stack (map snd items)) as [y_batch|] eqn:Hy; [|discriminate].
  simpl in Hval.
  assert (Hfirst : list_getitem (dl_dataset dl) 0 = list_getitem data (hd 0 idxs)).
  { rewrite (mapM_list_getitem_nth data 0 idxs _ 0 Hdata).
    - destruct idxs; [congruence|reflexivity].
    - destruct idxs; [congruence|simpl; lia]. }
  rewrite Hfirst in Hval.
  destruct (list_getitem data (hd 0 idxs)) as [first|] eqn:Hf; [|discriminate].
  simpl in Hval.
  destruct (py_getitem first "pipeline") as [pipeline|] eqn:Hp; [|discriminate].
  simpl in Hval.
  exists grouped, idxs, items, x_batch, y_batch, first, pipeline.
  split; [exact Hg|]. split; [exact Hidxs|]. split; [exact Hrange|].
  split; [exact Hitems|]. split; [exact Hx|]. split; [exact Hy|].
  split; [exact Hf|]. split; [exact Hp|]. congruence.
Qed.

End YieldedData.

(** ** Structure-aware loader *)

Lemma structures_loop_other (data : list json) (g : json)
    (grouped : pydict (list nat)) :
  forall acc st, structures_loop data grouped acc = Ok st ->
  (forall g' l', In (g', l') grouped -> py_key_eqb g' g = false) ->
  dict_get g st = dict_get g acc.
Proof.
  induction grouped as [|[g' idxs] grouped IH]; intros acc st H Hne; simpl in H.
  - congruence.
  - destruct (group_structure_of data idxs) as [gs|]; [|discriminate]. simpl in H.
    rewrite (IH _ _ H); [|intros; eapply Hne; right; eauto].
    rewrite dict_get_set, (Hne g' idxs (or_introl eq_refl)). reflexivity.
Qed.

Lemma structures_loop_groups (data : list json) (grouped : pydict (list nat)) :
  forall acc st, structures_loop data grouped acc = Ok st ->
  keys_distinct grouped ->
  (forall g l, In (g, l) grouped -> py_key_eqb g g = true) ->
  forall g idxs, In (g, idxs) grouped ->
  exists structure, dict_get g st = Some structure /\
                    group_structure_of data idxs = Ok structure.
Proof.
  induction grouped as [|[g' idxs'] grouped IH]; intros acc st H Hdis Hh g idxs Hin;
    simpl in H; [destruct Hin|].
  destruct (group_structure_of data idxs') as [gs|] eqn:Hgs; [|discriminate]. simpl in H.
  inversion Hdis as [|? ? Hhead Hrest]; subst.
  destruct Hin as [[= -> ->]|Hin].
  - exists gs. split; [|exact Hgs].
    rewrite (structures_loop_other _ g _ _ _ H).
    + rewrite dict_get_set, (Hh g idxs (or_introl eq_refl)). reflexivity.
    + intros g' l' Hin'. rewrite Forall_forall in Hhead.
      specialize (Hhead _ Hin'). simpl in Hhead. rewrite py_key_eqb_sym. exact Hhead.
  - apply (IH _ _ H Hrest); [|exact Hin]. intros; eapply Hh; right; eauto.
Qed.

(** X13. A constructed [RNNDataLoader] keeps one structure for each group,
    the list of the inputs of the steps of the pipeline of the first record
    of the group, and yields this structure with every batch of the group,
    next to the collated items of the batch. *)
Theorem RNNDataLoader_keeps_structure_of_first_record {R : PyRandom} {T : TorchTensor}
    (data : list json) (group_key features_key target_key task_type device : string)
    (prim_to_enc : list (string * json)) (batch_size : nat) (drop_last do_shuffle : bool)
    (seed : Z) (rnn : RNNDataLoader) :
  RNNDataLoader_init data group_key features_key target_key task_type device prim_to_enc
    batch_size drop_last do_shuffle seed = Ok rnn ->
  exists grouped,
    group_json_objects data group_key = Ok grouped /\
    forall g group_indices, In (g, group_indices) grouped ->
      exists structure,
        dict_get g (pipeline_structures rnn) = Some structure /\
        group_structure_of data group_indices = Ok structure /\
        forall items dataset,
          RNNDataLoader_emit (pipeline_structures rnn) g dataset items
          = let* batch := collate_triples items in
            Ok (structure, fst (fst batch), snd (fst batch), snd batch).
Proof.
  unfold RNNDataLoader_init. intros Hinit.
  destruct (GroupDataLoader_init data group_key _ batch_size drop_last do_shuffle seed)
    as [base|]; [|discriminate].
  simpl in Hinit.
  destruct (group_json_objects data group_key) as [grouped|] eqn:Hg; [|discriminate].
  simpl in Hinit.
  destruct (structures_loop data grouped []) as [st|] eqn:Hst; [|discriminate].
  simpl in Hinit. injection Hinit as <-. simpl.
  exists grouped. split; [reflexivity|]. intros g idxs Hin.
  pose proof (group_json_objects_Ok _ _ _ Hg) as Hgr.
  destruct (structures_loop_groups data grouped [] st Hst (gu_distinct _ _ _ _ Hgr)) with
    (g := g) (idxs := idxs) as (structure & Hs & Hgs).
  - intros g' l' Hin'. eapply grouped_key_hashable; eauto.
  - exact Hin.
  - exists structure. split; [exact Hs|]. split; [exact Hgs|].
    intros items dataset. unfold RNNDataLoader_emit. rewrite Hs. reflexivity.
Qed.

(** ** Train/test split *)

Lemma mapM_list_getitem_records (data : list json) (idxs : list nat) :
  (forall i, In i idxs -> i < length data) ->
  mapM (list_getitem data) idxs = Ok (records_at data idxs).
Proof.
  induction idxs as [|i idxs IH]; intros H; simpl; [reflexivity|].
  unfold list_getitem at 1.
  rewrite (nth_error_nth' data JNull (H i (or_introl eq_refl))). simpl.
  rewrite IH; [reflexivity|]. intros j Hj. apply H. right. exact Hj.
Qed.

Lemma py_slice_bound_le (len : nat) (k : Z) : py_slice_bound len k <= len.
Proof. unfold py_slice_bound. destruct (k <? 0)%Z eqn:E; [apply Z.ltb_lt in E|]; lia. Qed.

Lemma py_slice_bound_nonneg (len : nat) (k : Z) :
  (0 <= k)%Z -> py_slice_bound len k = Nat.min (Z.to_nat k) len.
Proof.
  intros H. unfold py_slice_bound.
  destruct (k <? 0)%Z eqn:E; [apply Z.ltb_lt in E; lia|reflexivity].
Qed.

Lemma collect_groups_spec (data : list json) (grouped : pydict (list nat))
    (qs : list (json * list nat)) :
  (forall g idxs, In (g, idxs) qs ->
     dict_get g grouped = Some idxs /\ forall i, In i idxs -> i < length data) ->
  forall out,
  collect_groups data grouped (map fst qs) out
  = Ok (out ++ flat_map (fun p => records_at data (snd p)) qs).
Proof.
  induction qs as [|[g idxs] qs IH]; intros H out; simpl.
  - rewrite app_nil_r. reflexivity.
  - destruct (H g idxs (or_introl eq_refl)) as [-> Hr].
    rewrite (mapM_list_getitem_records data idxs Hr). simpl.
    rewrite IH, app_assoc; [reflexivity|].
    intros g' idxs' Hin. apply H. right. exact Hin.
Qed.

Lemma keys_distinct_NoDup {V : Type} (d : pydict V) :
  keys_distinct d -> (forall g v, In (g, v) d -> py_key_eqb g g = true) -> NoDup d.
Proof.
  unfold keys_distinct. induction 1 as [|[g v] d Hg Hd IH]; intros Hh; constructor.
  - intros Hin. rewrite Forall_forall in Hg. specialize (Hg _ Hin). simpl in Hg.
    rewrite (Hh g v (or_introl eq_refl)) in Hg. discriminate.
  - apply IH. intros g' v' Hin. eapply Hh. right. exact Hin.
Qed.

Lemma keys_distinct_neq {V : Type} (d : pydict V) (p q : json * V) :
  keys_distinct d -> In p d -> In q d -> p <> q -> py_key_eqb (fst p) (fst q) = false.
Proof.
  intros Hd Hp Hq Hne.
  destruct (ForallOrdPairs_In Hd p q Hp Hq) as [E|[E|E]]; [contradiction|exact E|].
  rewrite py_key_eqb_sym. exact E.
Qed.

Lemma records_at_concat (data : list json) (d : pydict (list nat)) :
  flat_map (fun p => records_at data (snd p)) d = records_at data (concat (map snd d)).
Proof.
  unfold records_at. induction d as [|[g l] d IH]; simpl; [reflexivity|].
  rewrite map_app, IH. reflexivity.
Qed.

Section Grouped.
Variable data : list json.
Variable group_key : string.
Variable grouped : pydict (list nat).
Hypothesis Hg : group_json_objects data group_key = Ok grouped.

Lemma grouped_entry (g : json) (idxs : list nat) :
  In (g, idxs) grouped ->
  dict_get g grouped = Some idxs /\ idxs <> [] /\
  idxs = positions group_key data g (length data) /\
  forall i, In i idxs -> i < length data.
Proof using Hg.
  intros Hin. pose proof (group_json_objects_Ok _ _ _ Hg) as Hgr.
  destruct (gu_positions _ _ _ _ Hgr g idxs Hin) as [Hl Hne].
  split; [|split; [exact Hne|split; [exact Hl|]]].
  - apply In_dict_get; [apply Hgr| |exact Hin]. eapply grouped_key_hashable; eauto.
  - intros i Hi. rewrite Hl in Hi. apply in_positions in Hi. tauto.
Qed.

Lemma grouped_indices_Permutation :
  Permutation (concat (map snd grouped)) (seq 0 (length data)).
Proof using Hg.
  pose proof (group_json_objects_Ok _ _ _ Hg) as Hgr.
  apply NoDup_Permutation.
  - eapply grouped_NoDup; [apply (gu_positions _ _ _ _ Hgr)|apply Hgr].
  - apply seq_NoDup.
  - intros i. rewrite in_seq. split.
    + intros Hi. apply in_concat in Hi. destruct Hi as (l & Hl & Hil).
      apply in_map_iff in Hl. destruct Hl as ([g l'] & <- & Hin). simpl in Hil.
      destruct (grouped_entry g l' Hin) as (_ & _ & _ & Hr). specialize (Hr i Hil). lia.
    + intros [_ Hi]. simpl in Hi.
      destruct (gu_covered _ _ _ _ Hgr i Hi) as (g & l & Hin & Hgi).
      apply in_concat. exists l. split; [apply in_map_iff; exists (g, l); auto|].
      destruct (grouped_entry g l Hin) as (_ & _ & -> & _).
      apply in_positions. auto.
Qed.

Lemma grouped_NoDup_entries : NoDup grouped.
Proof using Hg.
  pose proof (group_json_objects_Ok _ _ _ Hg) as Hgr.
  apply keys_distinct_NoDup; [apply Hgr|].
  intros g v Hin. eapply grouped_key_hashable; eauto.
Qed.

(** A record at an index of a group's list belongs to the group. *)
Lemma records_at_belongs (g : json) (idxs : list nat) (obj : json) :
  In (g, idxs) grouped -> In obj (records_at data idxs) ->
  In obj data /\ belongs group_key g obj = true.
Proof using Hg.
  intros Hin Hobj. unfold records_at in Hobj. apply in_map_iff in Hobj.
  destruct Hobj as (i & <- & Hi).
  destruct (grouped_entry g idxs Hin) as (_ & _ & Hl & Hr).
  rewrite Hl in Hi. apply in_positions in Hi. destruct Hi as [Hlt Hgi].
  unfold in_group in Hgi.
  pose proof (nth_error_nth' data JNull Hlt) as Hn. rewrite Hn in Hgi.
  split; [eapply nth_error_In; eauto|exact Hgi].
Qed.

(** Every record that belongs to a group is at an index of its list. *)
Lemma belongs_records_at (g : json) (idxs : list nat) (obj : json) :
  In (g, idxs) grouped -> In obj data -> belongs group_key g obj = true ->
  In obj (records_at data idxs).
Proof using Hg.
  intros Hin Hobj Hb. destruct (In_nth_error _ _ Hobj) as [i Hi].
  destruct (grouped_entry g idxs Hin) as (_ & _ & Hl & _).
  unfold records_at. apply in_map_iff. exists i. split.
  - apply nth_error_nth. exact Hi.
  - rewrite Hl. apply in_positions. split.
    + apply nth_error_Some. congruence.
    + unfold in_group. rewrite Hi. exact Hb.
Qed.

Section Split.
Context {R : PyRandom}.
Variable test_size : Z.
Variable seed : Z.

Lemma split_data_spec :
  exists ps, Permutation grouped ps /\
    split_data data group_key test_size seed
    = Ok (flat_map (fun p => records_at data (snd p))
                   (skipn (py_slice_bound (length grouped) test_size) ps),
          flat_map (fun p => records_at data (snd p))
                   (firstn (py_slice_bound (length grouped) test_size) ps)).
Proof using Hg.
  unfold split_data. rewrite Hg. simpl.
  pose proof (shuffle_Permutation (map fst grouped) (rng_seed seed)) as Hperm.
  destruct (shuffle (map fst grouped) (rng_seed seed)) as [groups r']. simpl in Hperm.
  destruct (Permutation_map_inv _ _ Hperm) as (ps & -> & Hps).
  exists ps. split; [exact Hps|].
  unfold py_slice_from, py_slice_to.
  rewrite length_map, <- (Permutation_length Hps), skipn_map, firstn_map.
  assert (Hin : forall n g idxs,
            In (g, idxs) (skipn n ps) \/ In (g, idxs) (firstn n ps) ->
            dict_get g grouped = Some idxs /\ forall i, In i idxs -> i < length data).
  { intros n g idxs H.
    assert (Hps' : In (g, idxs) ps).
    { rewrite <- (firstn_skipn n ps). apply in_or_app. tauto. }
    apply (Permutation_in _ (Permutation_sym Hps)) in Hps'.
    destruct (grouped_entry g idxs Hps') as (H1 & _ & _ & H2). auto. }
  rewrite collect_groups_spec by (intros; eapply Hin; left; eauto). simpl.
  rewrite collect_groups_spec by (intros; eapply Hin; right; eauto). reflexivity.
Qed.

End Split.
End Grouped.

(** X14. When every record has the key path, [split_data] returns, and
    [train_data] followed by [test_data] is a permutation of [data]: every
    record lands on exactly one side, whatever [test_size] and [seed] are. *)
Theorem split_data_partitions_the_records {R : PyRandom} (data : list json)
    (group_by_key : string) (test_size seed : Z) :
  key_path_present data group_by_key ->
  exists train_data test_data,
    split_data data group_by_key test_size seed = Ok (train_data, test_data) /\
    Permutation (train_data ++ test_data) data.
Proof.
  intros Hk.
  destruct (group_json_objects_grouped group_by_key data
              (key_path_present_group_of _ _ Hk)) as (grouped & Hg & _).
  destruct (split_data_spec data group_by_key grouped Hg test_size seed)
    as (ps & Hps & Hsplit).
  eexists. eexists. split; [exact Hsplit|].
  rewrite Permutation_app_comm, <- flat_map_app, firstn_skipn.
  rewrite <- (Permutation_flat_map _ Hps), records_at_concat.
  unfold records_at.
  rewrite (Permutation_map _ (grouped_indices_Permutation data group_by_key grouped Hg)).
  rewrite map_nth_seq. reflexivity.
Qed.

(** X15. [split_data] never separates a group: a record of [train_data] and
    a record of [test_data] never have the same key value. *)
Theorem split_data_keeps_groups_together {R : PyRandom} (data : list json)
    (group_by_key : string) (test_size seed : Z) (train_data test_data : list json) :
  split_data data group_by_key test_size seed = Ok (train_data, test_data) ->
  forall a b ga gb,
    In a train_data -> In b test_data ->
    group_of group_by_key a = Ok ga -> group_of group_by_key b = Ok gb ->
    py_key_eqb ga gb = false.
Proof.
  intros Hsplit a b ga gb Ha Hb Hga Hgb.
  destruct (group_json_objects data group_by_key) as [grouped|] eqn:Hg.
  2:{ unfold split_data in Hsplit. rewrite Hg in Hsplit. discriminate. }
  destruct (split_data_spec data group_by_key grouped Hg test_size seed)
    as (ps & Hps & Hsplit').
  rewrite Hsplit' in Hsplit. injection Hsplit as <- <-.
  set (n := py_slice_bound (length grouped) test_size) in *.
  apply in_flat_map in Ha, Hb.
  destruct Ha as ([g1 l1] & Hp1 & Ha). destruct Hb as ([g2 l2] & Hp2 & Hb).
  simpl in Ha, Hb.
  assert (Hnd : NoDup (firstn n ps ++ skipn n ps)).
  { rewrite firstn_skipn. apply (Permutation_NoDup Hps).
    apply (grouped_NoDup_entries data group_by_key grouped Hg). }
  assert (Hin1 : In (g1, l1) grouped).
  { apply (Permutation_in _ (Permutation_sym Hps)).
    rewrite <- (firstn_skipn n ps). apply in_or_app. auto. }
  assert (Hin2 : In (g2, l2) grouped).
  { apply (Permutation_in _ (Permutation_sym Hps)).
    rewrite <- (firstn_skipn n ps). apply in_or_app. auto. }
  assert (Hne : (g1, l1) <> (g2, l2)).
  { intros E. rewrite <- E in Hp2.
    apply NoDup_app_remove_l in Hnd as Hnd'.
    clear - Hnd Hp1 Hp2. induction (firstn n ps) as [|x f IH]; [destruct Hp2|].
    simpl in Hnd. inversion Hnd; subst. destruct Hp2 as [->|Hp2]; [|auto].
    apply H1. apply in_or_app. auto. }
  pose proof (keys_distinct_neq grouped _ _
                (gu_distinct _ _ _ _ (group_json_objects_Ok _ _ _ Hg)) Hin1 Hin2 Hne) as Hk.
  simpl in Hk.
  destruct (records_at_belongs data group_by_key grouped Hg g1 l1 a Hin1 Ha) as [_ B1].
  destruct (records_at_belongs data group_by_key grouped Hg g2 l2 b Hin2 Hb) as [_ B2].
  unfold belongs in B1, B2. rewrite Hga in B1. rewrite Hgb in B2.
  destruct (py_key_eqb ga gb) eqn:E; [|reflexivity].
  rewrite <- Hk. symmetry.
  rewrite (py_key_eqb_congr g1 ga g2 B1).
  rewrite (py_key_eqb_congr ga gb g2 E).
  rewrite py_key_eqb_sym. exact B2.
Qed.

(** X16. [test_size] counts groups, not records: [test_data] holds the
    records of as many distinct groups as the slice [groups[:test_size]] has
    ([test_size] clamped to the number of groups, counted from the end when
    negative), all of their records and no other record. *)
Theorem split_data_test_size_counts_groups {R : PyRandom} (data : list json)
    (group_by_key : string) (test_size seed : Z) (train_data test_data : list json) :
  split_data data group_by_key test_size seed = Ok (train_data, test_data) ->
  exists grouped test_groups,
    group_json_objects data group_by_key = Ok grouped /\
    length test_groups = py_slice_bound (length grouped) test_size /\
    NoDup test_groups /\ incl test_groups (map fst grouped) /\
    forall obj, In obj data ->
      (In obj test_data <-> exists g, In g test_groups /\ belongs group_by_key g obj = true).
Proof.
  intros Hsplit.
  destruct (group_json_objects data group_by_key) as [grouped|] eqn:Hg.
  2:{ unfold split_data in Hsplit. rewrite Hg in Hsplit. discriminate. }
  destruct (split_data_spec data group_by_key grouped Hg test_size seed)
    as (ps & Hps & Hsplit').
  rewrite Hsplit' in Hsplit. injection Hsplit as <- <-.
  set (n := py_slice_bound (length grouped) test_size) in *.
  assert (Hsub : forall p, In p (firstn n ps) -> In p grouped).
  { intros p Hp. apply (Permutation_in _ (Permutation_sym Hps)).
    rewrite <- (firstn_skipn n ps). apply in_or_app. auto. }
  pose proof (group_json_objects_Ok _ _ _ Hg) as Hgr.
  exists grouped, (map fst (firstn n ps)).
  split; [reflexivity|]. split; [|split; [|split]].
  - rewrite length_map, length_firstn, <- (Permutation_length Hps).
    pose proof (py_slice_bound_le (length grouped) test_size). fold n in H. lia.
  - assert (Hnd : NoDup (firstn n ps)).
    { eapply NoDup_app_remove_r. rewrite firstn_skipn.
      apply (Permutation_NoDup Hps), (grouped_NoDup_entries data group_by_key grouped Hg). }
    clear - Hnd Hsub Hgr.
    induction (firstn n ps) as [|p f IH]; simpl; [constructor|].
    inversion Hnd; subst. constructor; [|apply IH; auto; intros; apply Hsub; right; auto].
    intros Hin. apply in_map_iff in Hin. destruct Hin as (q & Hq & Hqf).
    assert (Hne : p <> q) by (intros ->; contradiction).
    pose proof (keys_distinct_neq grouped p q (gu_distinct _ _ _ _ Hgr)
                  (Hsub p (or_introl eq_refl)) (Hsub q (or_intror Hqf)) Hne) as Hk.
    rewrite Hq in Hk. destruct p as [g v]. simpl in Hk.
    rewrite (grouped_key_hashable _ _ _ _ g v Hgr (Hsub _ (or_introl eq_refl))) in Hk.
    discriminate.
  - intros g Hin. apply in_map_iff in Hin. destruct Hin as (p & <- & Hp).
    apply in_map. apply Hsub. exact Hp.
  - intros obj Hobj. split.
    + intros Hin. apply in_flat_map in Hin. destruct Hin as ([g l] & Hp & Hin).
      exists g. split; [apply in_map_iff; exists (g, l); auto|].
      eapply records_at_belongs; eauto.
    + intros (g & Hin & Hb). apply in_map_iff in Hin. destruct Hin as ([g' l] & Hg' & Hp).
      simpl in Hg'. subst g'. apply in_flat_map. exists (g, l). split; [exact Hp|].
      eapply belongs_records_at; eauto.
Qed.

(** ** Records by group *)

Lemma filter_records_at (P : json -> bool) (l : list json) :
  forall pre : list json,
  records_at (pre ++ l)
    (filter (fun i => match nth_error (pre ++ l) i with
                      | Some obj => P obj
                      | None => false
                      end) (seq (length pre) (length l)))
  = filter P l.
Proof.
  induction l as [|a l IH]; intros pre; [reflexivity|].
  cbn [length seq filter].
  assert (Ha : nth_error (pre ++ a :: l) (length pre) = Some a).
  { rewrite nth_error_app2, Nat.sub_diag by lia. reflexivity. }
  rewrite Ha.
  specialize (IH (pre ++ [a])). rewrite <- app_assoc, length_app in IH.
  simpl in IH. rewrite Nat.add_1_r in IH.
  destruct (P a).
  - unfold records_at in *. cbn [map]. rewrite IH.
    f_equal. apply nth_error_nth. exact Ha.
  - exact IH.
Qed.

Lemma records_at_positions (group_key : string) (data : list json) (g : json) :
  records_at data (positions group_key data g (length data))
  = filter (belongs group_key g) data.
Proof. exact (filter_records_at (belongs group_key g) data []). Qed.

Lemma dict_get_app_last {V : Type} (g : json) (v : V) (d : pydict V) :
  dict_get g d = None -> py_key_eqb g g = true -> dict_get g (d ++ [(g, v)]) = Some v.
Proof.
  intros Hd Hh. induction d as [|[g' w] d IH]; simpl in *.
  - rewrite Hh. reflexivity.
  - destruct (py_key_eqb g' g); [discriminate|]. auto.
Qed.

Lemma dict_get_app_other {V : Type} (g k : json) (v : V) (d : pydict V) :
  dict_get k d = None -> py_key_eqb g k = false -> dict_get k (d ++ [(g, v)]) = None.
Proof.
  intros Hd Hk. induction d as [|[g' w] d IH]; simpl in *.
  - rewrite Hk. reflexivity.
  - destruct (py_key_eqb g' k); [discriminate|]. auto.
Qed.

Lemma group_data_inner_append (data : list json) (g : json) (idxs : list nat) :
  forall (d : pydict (list json)) (l : list json),
  dict_get g d = None -> py_key_eqb g g = true ->
  (forall i, In i idxs -> i < length data) ->
  group_data_inner data g idxs (d ++ [(g, l)]) = Ok (d ++ [(g, l ++ records_at data idxs)]).
Proof.
  induction idxs as [|i idxs IH]; intros d l Hd Hh Hr; simpl.
  - rewrite app_nil_r. reflexivity.
  - pose proof (dict_get_app_last g l d Hd Hh) as Hget.
    unfold dict_mem. rewrite Hget. simpl. rewrite Hget.
    unfold list_getitem. rewrite (nth_error_nth' data JNull (Hr i (or_introl eq_refl))).
    simpl. rewrite (dict_set_app_last g l (l ++ [nth i data JNull]) d Hd Hh).
    rewrite IH; [rewrite <- app_assoc; reflexivity|exact Hd|exact Hh|].
    intros j Hj. apply Hr. right. exact Hj.
Qed.

Lemma group_data_inner_new (data : list json) (g : json) (idxs : list nat)
    (d : pydict (list json)) :
  dict_get g d = None -> py_key_eqb g g = true -> idxs <> [] ->
  (forall i, In i idxs -> i < length data) ->
  group_data_inner data g idxs d = Ok (d ++ [(g, records_at data idxs)]).
Proof.
  intros Hd Hh Hne Hr. destruct idxs as [|i idxs]; [congruence|]. simpl.
  unfold dict_mem. rewrite Hd. simpl.
  rewrite (dict_set_new _ _ _ Hd), (dict_get_app_last g [] d Hd Hh).
  unfold list_getitem. rewrite (nth_error_nth' data JNull (Hr i (or_introl eq_refl))).
  simpl. rewrite (dict_set_app_last g [] [nth i data JNull] d Hd Hh).
  apply group_data_inner_append; [exact Hd|exact Hh|].
  intros j Hj. apply Hr. right. exact Hj.
Qed.

Lemma group_data_loop_spec (data : list json) (rest : pydict (list nat)) :
  forall acc : pydict (list json),
  keys_distinct rest ->
  (forall g idxs, In (g, idxs) rest ->
     dict_get g acc = None /\ py_key_eqb g g = true /\ idxs <> [] /\
     forall i, In i idxs -> i < length data) ->
  group_data_loop data rest acc
  = Ok (acc ++ map (fun p => (fst p, records_at data (snd p))) rest).
Proof.
  induction rest as [|[g idxs] rest IH]; intros acc Hdis H; simpl.
  - rewrite app_nil_r. reflexivity.
  - destruct (H g idxs (or_introl eq_refl)) as (Hd & Hh & Hne & Hr).
    rewrite (group_data_inner_new data g idxs acc Hd Hh Hne Hr). simpl.
    inversion Hdis as [|? ? Hhead Hrest]; subst.
    rewrite IH; [rewrite <- app_assoc; reflexivity|exact Hrest|].
    intros g' idxs' Hin. destruct (H g' idxs' (or_intror Hin)) as (Hd' & Hrest').
    split; [|exact Hrest'].
    apply dict_get_app_other; [exact Hd'|].
    rewrite Forall_forall in Hhead. exact (Hhead _ Hin).
Qed.

Lemma keys_distinct_map_values {V W : Type} (f : V -> W) (d : pydict V) :
  keys_distinct d -> keys_distinct (map (fun p => (fst p, f (snd p))) d).
Proof.
  unfold keys_distinct. induction 1 as [|p d Hp Hd IH]; simpl; constructor; [|exact IH].
  apply Forall_map. eapply Forall_impl; [|exact Hp]. intros q Hq. exact Hq.
Qed.

(** X17. When every record has the key path, [_group_data] returns a dict
    with the keys of [group_json_objects], in the same order, and the value
    of each group is the non-empty list of the records of [data] with that
    key value, in input order. *)
Theorem group_data_is_stable (data : list json) (group_key : string) :
  key_path_present data group_key ->
  exists grouped grouped_data,
    group_json_objects data group_key = Ok grouped /\
    _group_data data group_key = Ok grouped_data /\
    map fst grouped_data = map fst grouped /\
    keys_distinct grouped_data /\
    forall g records, In (g, records) grouped_data ->
      records <> [] /\ records = filter (belongs group_key g) data.
Proof.
  intros Hk.
  destruct (group_json_objects_grouped group_key data
              (key_path_present_group_of _ _ Hk)) as (grouped & Hg & Hgr).
  exists grouped, (map (fun p => (fst p, records_at data (snd p))) grouped).
  split; [exact Hg|]. split; [|split; [|split]].
  - unfold _group_data. rewrite Hg. simpl.
    rewrite group_data_loop_spec; [reflexivity|apply Hgr|].
    intros g idxs Hin.
    destruct (grouped_entry data group_key grouped Hg g idxs Hin) as (_ & Hne & _ & Hr).
    split; [reflexivity|]. split; [eapply grouped_key_hashable; eauto|]. auto.
  - rewrite map_map. reflexivity.
  - apply keys_distinct_map_values, Hgr.
  - intros g records Hin. apply in_map_iff in Hin.
    destruct Hin as ([g' idxs] & [= -> <-] & Hin).
    destruct (grouped_entry data group_key grouped Hg g idxs Hin) as (_ & Hne & Hl & _).
    split.
    + destruct idxs; [congruence|discriminate].
    + rewrite Hl. apply records_at_positions.
Qed.

(** ** Construction of the grouped batch loader *)

Section Constructor.
Context {R : PyRandom}.
Variable data : list json.
Variable batch_size : nat.
Variables drop_last do_shuffle : bool.

Lemma get_data_loader_returns (r : rng) (group_data : list json) :
  0 < batch_size ->
  exists dr, _get_data_loader batch_size drop_last do_shuffle r group_data = Ok dr.
Proof.
  intros Hbs. unfold _get_data_loader, DataLoader_init.
  destruct do_shuffle.
  - destruct (_randint r) as [seed r1].
    destruct (Nat.eqb_spec batch_size 0) as [|_]; [lia|]. simpl. eauto.
  - destruct (Nat.eqb_spec batch_size 0) as [|_]; [lia|]. simpl. eauto.
Qed.

Lemma dataloaders_loop_returns (grouped : pydict (list nat)) :
  0 < batch_size ->
  (forall g idxs, In (g, idxs) grouped -> forall i, In i idxs -> i < length data) ->
  forall (acc : pydict DataLoader) (r : rng),
  exists dr, dataloaders_loop data batch_size drop_last do_shuffle grouped acc r = Ok dr.
Proof.
  intros Hbs. induction grouped as [|[g idxs] grouped IH]; intros Hr acc r; simpl.
  - eauto.
  - rewrite (mapM_list_getitem_records data idxs (Hr g idxs (or_introl eq_refl))). simpl.
    destruct (get_data_loader_returns r (records_at data idxs) Hbs) as (dr & ->). simpl.
    apply IH. intros g' idxs' Hin. apply (Hr g' idxs'). right. exact Hin.
Qed.

(** X20. When every record has a hashable value at the key path and
    [batch_size] is positive, the constructor of [GroupDataLoader] returns a
    loader, whatever [drop_last], [shuffle] and [seed] are, for a dataset
    class that accepts its parameters, as [Dataset] and [RNNDataset] do:
    every index of every group is an index of [data], and every batch source
    is accepted. *)
Theorem GroupDataLoader_init_returns (item : Type) (group_key : string)
    (cls : dataset_class item) (seed : Z) :
  key_path_present data group_key ->
  0 < batch_size ->
  exists loader,
    GroupDataLoader_init data group_key cls batch_size drop_last do_shuffle seed = Ok loader.
Proof.
  intros Hkey Hbs.
  destruct (group_json_objects_grouped group_key data
              (key_path_present_group_of data group_key Hkey)) as (grouped & Hg & Hgr).
  unfold GroupDataLoader_init, _init_dataloaders. rewrite Hg. simpl.
  destruct (dataloaders_loop_returns grouped Hbs) with (acc := @nil (json * DataLoader))
                                                       (r := rng_seed seed)
    as (dr & ->).
  { intros g idxs Hin i Hi.
    destruct (gu_positions _ _ _ _ Hgr g idxs Hin) as [-> _].
    apply in_positions in Hi. apply Hi. }
  simpl. destruct (_init_group_metadataloader (fst dr) (snd dr)) as [group_batches r1].
  eexists. reflexivity.
Qed.

End Constructor.

(** ** Passes without shuffling *)

Section Unshuffled.
Context {R : PyRandom}.
Variables item yielded : Type.
Variable data : list json.
Variable group_key : string.
Variable cls : dataset_class item.
Variable batch_size : nat.
Variable drop_last : bool.
Variable seed : Z.
Variable loader : GroupDataLoader item.
Hypothesis Hinit :
  GroupDataLoader_init data group_key cls batch_size drop_last false seed = Ok loader.
Variable emit : json -> list json -> list item -> result yielded.
Variable k : nat.
Variable records : list (batch_record yielded).
Variable e : iteration_end.
Variable loader' : GroupDataLoader item.
Hypothesis Hpass : full_pass emit (after_passes emit k loader) = (records, e, loader').

(** X21. Without shuffling, the batches that a full pass yields for a group,
    read one after the other, are the records of the group in input order:
    their indices, followed by those of a final incomplete batch, which is
    left out only when [drop_last] is set, are the index list of the group
    itself. Only the order between groups is drawn at random. *)
Theorem unshuffled_pass_keeps_input_order (grouped : pydict (list nat))
    (g : json) (group_indices : list nat) :
  group_json_objects data group_key = Ok grouped ->
  In (g, group_indices) grouped ->
  length records = GroupDataLoader_len loader ->
  exists dropped,
    original_indices group_indices (concat (batches_of g records)) ++ dropped
    = group_indices /\
    length dropped = (if drop_last then length group_indices mod batch_size else 0).
Proof using Hinit Hpass.
  intros Hg Hin Hlen.
  destruct (GroupDataLoader_init_spec _ _ _ _ _ _ _ _ _ Hinit)
    as (grouped' & Hg' & HF & Hdis & Hcls & Hperm & Hinv).
  assert (grouped' = grouped) by congruence. subst grouped'.
  pose proof (group_json_objects_Ok _ _ _ Hg) as Hgr.
  assert (Hget : dict_get g grouped = Some group_indices).
  { apply In_dict_get; [apply Hgr| |exact Hin]. eapply grouped_key_hashable; eauto. }
  destruct (proj1 (Forall2_dict_get _ _ _ HF g) _ Hget) as (dl & Hdl & Hb).
  destruct Hb as (Hdata & Hbs & Hpos & Hdrop & Hs).
  assert (Hnone : dl_sampler dl = None).
  { destruct (dl_sampler dl); [|reflexivity]. destruct Hs as [Hs _]. discriminate. }
  assert (Hu : unshuffled (gdl_group_dataloaders loader)).
  { intros g0 dl0 Hdl0.
    destruct (proj2 (Forall2_dict_get _ _ _ HF g0) dl0 Hdl0) as (idxs & _ & Hbuilt).
    destruct Hbuilt as (_ & _ & _ & _ & Hs0).
    destruct (dl_sampler dl0); [|reflexivity]. destruct Hs0 as [Hs0 _]. discriminate. }
  destruct (after_passes_spec item yielded emit k loader Hinv) as (_ & _ & _ & _ & Hun).
  rewrite (Hun Hu) in Hpass.
  destruct (full_pass_spec item yielded emit _ _ _ _ Hinv Hpass)
    as (_ & _ & _ & _ & _ & _ & Hfull).
  destruct (Hfull Hlen) as (_ & _ & Hbat).
  rewrite (Hbat g dl Hdl), DataLoader_iter_batches, Hbs, Hdrop.
  unfold pass_indices. rewrite Hnone.
  pose proof (mapM_length _ _ _ Hdata) as Hn.
  destruct (batch_loop_concat batch_size drop_last (seq 0 (length (dl_dataset dl))) Hpos [])
    as (dropped & Hc & Hl); [simpl; exact Hpos|].
  simpl in Hc, Hl. rewrite length_seq, Hn in Hl.
  exists (original_indices group_indices dropped). split.
  - unfold original_indices. rewrite <- map_app, <- Hc, Hn. apply map_nth_seq.
  - unfold original_indices. rewrite length_map. exact Hl.
Qed.

End Unshuffled.

(** ** One-hot encodings of primitive names *)

Lemma FOP_snoc {A : Type} (R : A -> A -> Prop) (l : list A) (v : A) :
  ForallOrdPairs R l -> Forall (fun a => R a v) l -> ForallOrdPairs R (l ++ [v]).
Proof.
  induction 1 as [|a l Ha Hl IH]; intros Hv; simpl.
  - constructor; constructor.
  - inversion Hv; subst. constructor; [|auto].
    apply Forall_app. split; [exact Ha|]. constructor; [assumption|constructor].
Qed.

Lemma FOP_Permutation {A : Type} (R : A -> A -> Prop) (l l' : list A) :
  (forall a b, R a b -> R b a) ->
  Permutation l l' -> ForallOrdPairs R l -> ForallOrdPairs R l'.
Proof.
  intros Hsym. induction 1 as [|x l l' Hp IH|x y l|l l' l'' H1 IH1 H2 IH2]; intros H.
  - exact H.
  - inversion H; subst. constructor; [|auto].
    eapply Permutation_Forall; eauto.
  - inversion H as [|? ? Hy Hxl]; subst. inversion Hxl as [|? ? Hx Hl]; subst.
    inversion Hy; subst.
    constructor; [constructor; [apply Hsym; assumption|assumption]|].
    constructor; assumption.
  - auto.
Qed.

Lemma is_set_Permutation (s s' : list json) : Permutation s s' -> is_set s -> is_set s'.
Proof.
  intros Hp [H1 H2]. split.
  - eapply FOP_Permutation; [|exact Hp|exact H1].
    intros a b Hab. rewrite py_key_eqb_sym. exact Hab.
  - eapply Permutation_Forall; eauto.
Qed.

Lemma set_add_spec (s s' : list json) (v : json) :
  set_add s v = Ok s' -> is_set s ->
  is_set s' /\ incl s s' /\
  (exists u, In u s' /\ py_key_eqb u v = true) /\
  (forall u, In u s' -> In u s \/ u = v).
Proof.
  unfold set_add. destruct (py_hashable v) eqn:Hh; [|discriminate].
  destruct (existsb (fun u => py_key_eqb u v) s) eqn:E; intros [= <-] [H1 H2].
  - split; [split; assumption|]. split; [apply incl_refl|]. split; [|auto].
    apply existsb_exists in E. exact E.
  - split; [|split; [apply incl_appl, incl_refl|split]].
    + split.
      * apply FOP_snoc; [exact H1|]. apply Forall_forall. intros a Ha.
        destruct (py_key_eqb a v) eqn:Ea; [|reflexivity].
        assert (existsb (fun u => py_key_eqb u v) s = true)
          by (apply existsb_exists; eauto).
        congruence.
      * apply Forall_app. split; [exact H2|]. constructor; [exact Hh|constructor].
    + exists v. split; [apply in_or_app; right; left; reflexivity|].
      apply py_key_eqb_refl, Hh.
    + intros u Hu. apply in_app_or in Hu. destruct Hu as [Hu|[<-|[]]]; auto.
Qed.

Lemma add_names_spec (primitives : list json) :
  forall s s', add_names primitives s = Ok s' -> is_set s ->
  is_set s' /\ incl s s' /\
  (forall primitive, In primitive primitives ->
     exists name, py_getitem primitive "name" = Ok name /\
                  exists u, In u s' /\ py_key_eqb u name = true) /\
  (forall u, In u s' ->
     In u s \/ exists primitive, In primitive primitives /\
                                 py_getitem primitive "name" = Ok u).
Proof.
  induction primitives as [|primitive rest IH]; intros s s' H Hs; simpl in H.
  - injection H as <-. split; [exact Hs|]. split; [apply incl_refl|].
    split; [intros ? []|auto].
  - destruct (py_getitem primitive "name") as [name|] eqn:Hname; [|discriminate].
    simpl in H. destruct (set_add s name) as [s1|] eqn:Hadd; [|discriminate].
    simpl in H.
    destruct (set_add_spec _ _ _ Hadd Hs) as (Hs1 & Hincl1 & (u & Hu & Hun) & Hfrom1).
    destruct (IH _ _ H Hs1) as (Hs' & Hincl & Hall & Hfrom).
    split; [exact Hs'|]. split; [eapply incl_tran; eauto|]. split.
    + intros p [<-|Hp].
      * exists name. split; [exact Hname|]. exists u. split; [apply Hincl, Hu|exact Hun].
      * apply Hall, Hp.
    + intros w Hw. destruct (Hfrom w Hw) as [Hw1|(p & Hp & Hpn)].
      * destruct (Hfrom1 w Hw1) as [Hws | ->]; [left; exact Hws|].
        right. exists primitive. split; [left; reflexivity|exact Hname].
      * right. exists p. split; [right; exact Hp|exact Hpn].
Qed.

Lemma collect_names_spec (train_data : list json) :
  forall s s', collect_names train_data s = Ok s' -> is_set s ->
  is_set s' /\ incl s s' /\
  (forall instance, In instance train_data ->
     exists pipeline steps primitives,
       py_getitem instance "pipeline" = Ok pipeline /\
       py_getitem pipeline "steps" = Ok steps /\
       py_iter steps = Ok primitives /\
       forall primitive, In primitive primitives ->
         exists name, py_getitem primitive "name" = Ok name /\
                      exists u, In u s' /\ py_key_eqb u name = true) /\
  (forall u, In u s' -> In u s \/ occurs_as_step_name train_data u).
Proof.
  induction train_data as [|instance rest IH]; intros s s' H Hs; simpl in H.
  - injection H as <-. split; [exact Hs|]. split; [apply incl_refl|].
    split; [intros ? []|auto].
  - destruct (py_getitem instance "pipeline") as [pipeline|] eqn:Hp; [|discriminate].
    simpl in H. destruct (py_getitem pipeline "steps") as [steps|] eqn:Hst; [|discriminate].
    simpl in H. destruct (py_iter steps) as [primitives|] eqn:Hit; [|discriminate].
    simpl in H. destruct (add_names primitives s) as [s1|] eqn:Hadd; [|discriminate].
    simpl in H.
    destruct (add_names_spec _ _ _ Hadd Hs) as (Hs1 & Hincl1 & Hall1 & Hfrom1).
    destruct (IH _ _ H Hs1) as (Hs' & Hincl & Hall & Hfrom).
    split; [exact Hs'|]. split; [eapply incl_tran; eauto|]. split.
    + intros i [<-|Hi].
      * exists pipeline, steps, primitives. repeat (split; [assumption|]).
        intros p Hpin. destruct (Hall1 p Hpin) as (name & Hn & u & Hu & Hun).
        exists name. split; [exact Hn|]. exists u. split; [apply Hincl, Hu|exact Hun].
      * apply Hall, Hi.
    + intros u Hu. destruct (Hfrom u Hu) as [Hu1|Hocc].
      * destruct (Hfrom1 u Hu1) as [Hus|(p & Hpin & Hpn)]; [left; exact Hus|].
        right. exists instance, pipeline, steps, primitives, p.
        repeat (split; [first [assumption | left; reflexivity]|]). exact Hpn.
      * right. destruct Hocc as (i & pl & st & pr & p & Hi & H1 & H2 & H3 & H4 & H5).
        exists i, pl, st, pr, p. repeat (split; [first [assumption | right; assumption]|]).
        exact H5.
Qed.

Lemma insert_sorted_Permutation (v : json) (l : list json) :
  forall l', insert_sorted v l = Ok l' -> Permutation l' (v :: l).
Proof.
  induction l as [|u l IH]; intros l' H; simpl in H.
  - injection H as <-. reflexivity.
  - destruct (py_lt v u) as [[|]|]; simpl in H; try discriminate.
    + injection H as <-. reflexivity.
    + destruct (insert_sorted v l) as [r|]; [|discriminate]. simpl in H.
      injection H as <-. rewrite (IH r eq_refl). apply perm_swap.
Qed.

Lemma py_sorted_Permutation (l : list json) :
  forall l', py_sorted l = Ok l' -> Permutation l' l.
Proof.
  induction l as [|v l IH]; intros l' H; simpl in H.
  - injection H as <-. reflexivity.
  - destruct (py_sorted l) as [s|]; [|discriminate]. simpl in H.
    rewrite (insert_sorted_Permutation _ _ _ H). apply perm_skip, IH. reflexivity.
Qed.

Lemma zip_loop_spec (names : list json) :
  forall (rows : list json) (acc : pydict json),
  is_set names -> length rows = length names ->
  (forall k, In k names -> dict_get k acc = None) ->
  fold_left (fun d ne => dict_set (fst ne) (snd ne) d) (combine names rows) acc
  = acc ++ combine names rows.
Proof.
  induction names as [|k names IH]; intros rows acc Hs Hlen Hacc; simpl.
  - rewrite app_nil_r. reflexivity.
  - destruct rows as [|r rows]; [discriminate|]. simpl.
    destruct Hs as [H1 H2]. inversion H1 as [|? ? Hk Hrest]; subst.
    inversion H2 as [|? ? Hkh Hresth]; subst.
    rewrite (dict_set_new _ _ _ (Hacc k (or_introl eq_refl))).
    rewrite IH; [rewrite <- app_assoc; reflexivity|split; assumption| |].
    + simpl in Hlen. lia.
    + intros k' Hk'. apply dict_get_app_other; [apply Hacc; right; exact Hk'|].
      rewrite Forall_forall in Hk. exact (Hk _ Hk').
Qed.

Lemma combine_fst {A B : Type} (l : list A) :
  forall l' : list B, length l' = length l -> map fst (combine l l') = l.
Proof.
  induction l as [|a l IH]; intros [|b l'] H; simpl in *; try discriminate; [reflexivity|].
  f_equal. apply IH. lia.
Qed.

Lemma combine_snd {A B : Type} (l : list A) :
  forall l' : list B, length l' = length l -> map snd (combine l l') = l'.
Proof.
  induction l as [|a l IH]; intros [|b l'] H; simpl in *; try discriminate; [reflexivity|].
  f_equal. apply IH. lia.
Qed.

Lemma keys_distinct_of_keys {V : Type} (d : pydict V) :
  ForallOrdPairs (fun a b => py_key_eqb a b = false) (map fst d) -> keys_distinct d.
Proof.
  unfold keys_distinct. induction d as [|p d IH]; simpl; intros H; [constructor|].
  inversion H as [|? ? Hp Hd]; subst. constructor; [|auto].
  rewrite Forall_map in Hp. exact Hp.
Qed.

Lemma identity_row_inj (n i j : nat) :
  i < n -> identity_row n i = identity_row n j -> i = j.
Proof.
  intros Hi H. unfold identity_row in H. injection H as H.
  assert (Hin : In i (seq 0 n)) by (apply in_seq; lia).
  pose proof (proj1 map_ext_in_iff H i Hin) as E. simpl in E.
  rewrite Nat.eqb_refl in E.
  destruct (Nat.eqb_spec i j) as [->|Hne]; [reflexivity|discriminate].
Qed.

Lemma identity_rows_NoDup (n : nat) : NoDup (map (identity_row n) (seq 0 n)).
Proof.
  assert (H : forall l, (forall i, In i l -> i < n) -> NoDup l ->
                        NoDup (map (identity_row n) l)).
  { induction l as [|i l IH]; intros Hl Hnd; simpl; [constructor|].
    inversion Hnd; subst. constructor; [|apply IH; auto; intros; apply Hl; right; auto].
    intros Hin. apply in_map_iff in Hin. destruct Hin as (j & Hj & Hjl).
    symmetry in Hj. apply identity_row_inj in Hj; [|apply Hl; left; reflexivity].
    subst j. contradiction. }
  apply H; [|apply seq_NoDup]. intros i Hi. apply in_seq in Hi. lia.
Qed.

(** What the call returns, in terms of the set of names collected. *)
Lemma get_primitive_name_to_enc_spec (train_data : list json) (n : nat)
    (enc : pydict json) :
  _get_primitive_name_to_enc train_data = Ok (n, enc) ->
  exists names sorted,
    collect_names train_data [] = Ok names /\ is_set names /\
    Permutation sorted names /\ n = length names /\
    enc = combine sorted (map (identity_row n) (seq 0 n)).
Proof.
  unfold _get_primitive_name_to_enc.
  destruct (collect_names train_data []) as [names|] eqn:Hc; [|discriminate]. simpl.
  destruct (py_sorted names) as [sorted|] eqn:Hs; [|discriminate]. simpl.
  intros [= <- <-].
  assert (Hnil : is_set []) by (split; constructor).
  destruct (collect_names_spec _ _ _ Hc Hnil) as (Hset & _).
  pose proof (py_sorted_Permutation _ _ Hs) as Hperm.
  exists names, sorted. split; [reflexivity|]. split; [exact Hset|].
  split; [exact Hperm|]. split; [reflexivity|].
  unfold zip_to_dict. rewrite zip_loop_spec; [reflexivity| | |].
  - eapply is_set_Permutation; [apply Permutation_sym; exact Hperm|exact Hset].
  - rewrite length_map, length_seq. symmetry. apply Permutation_length, Hperm.
  - reflexivity.
Qed.

Section NameToEnc.
Variable train_data : list json.
Variable n : nat.
Variable enc : pydict json.
Hypothesis Henc : _get_primitive_name_to_enc train_data = Ok (n, enc).

Lemma name_to_enc_rows :
  length enc = n /\ keys_distinct enc /\ map snd enc = map (identity_row n) (seq 0 n).
Proof using Henc.
  destruct (get_primitive_name_to_enc_spec _ _ _ Henc)
    as (names & sorted & Hc & Hset & Hperm & Hn & ->).
  assert (Hlen : length (map (identity_row n) (seq 0 n)) = length sorted).
  { rewrite length_map, length_seq, Hn. symmetry. apply Permutation_length, Hperm. }
  pose proof (is_set_Permutation _ _ (Permutation_sym Hperm) Hset) as [Hd Hh].
  split; [|split].
  - rewrite length_combine, Hlen, Nat.min_id, (Permutation_length Hperm). auto.
  - apply keys_distinct_of_keys. rewrite combine_fst by exact Hlen. exact Hd.
  - apply combine_snd, Hlen.
Qed.

Lemma name_to_enc_keys (name : json) :
  In name (map fst enc) <->
  exists names, collect_names train_data [] = Ok names /\ In name names.
Proof using Henc.
  destruct (get_primitive_name_to_enc_spec _ _ _ Henc)
    as (names & sorted & Hc & Hset & Hperm & Hn & ->).
  assert (Hlen : length (map (identity_row n) (seq 0 n)) = length sorted).
  { rewrite length_map, length_seq, Hn. symmetry. apply Permutation_length, Hperm. }
  rewrite combine_fst by exact Hlen. split.
  - intros H. exists names. split; [exact Hc|]. apply (Permutation_in _ Hperm), H.
  - intros (names' & Hc' & H). assert (names' = names) by congruence. subst names'.
    apply (Permutation_in _ (Permutation_sym Hperm)), H.
Qed.

Lemma name_to_enc_lookup (name : json) :
  occurs_as_step_name train_data name ->
  exists row, dict_get name enc = Some row /\ In row (map (identity_row n) (seq 0 n)).
Proof using Henc.
  intros (i & pl & st & pr & p & Hi & H1 & H2 & H3 & H4 & H5).
  destruct name_to_enc_rows as (_ & Hkeys & Hrows).
  destruct (get_primitive_name_to_enc_spec _ _ _ Henc)
    as (names & sorted & Hc & Hset & _).
  assert (Hnil : is_set []) by (split; constructor).
  destruct (collect_names_spec _ _ _ Hc Hnil) as (_ & _ & Hall & _).
  destruct (Hall i Hi) as (pl' & st' & pr' & E1 & E2 & E3 & Hp).
  assert (pl' = pl) by congruence. subst pl'.
  assert (st' = st) by congruence. subst st'.
  assert (pr' = pr) by congruence. subst pr'.
  destruct (Hp p H4) as (name' & Hn' & u & Hu & Hun).
  assert (name' = name) by congruence. subst name'.
  assert (Hus : In u (map fst enc)).
  { apply name_to_enc_keys. exists names. auto. }
  apply in_map_iff in Hus. destruct Hus as ([u' row] & Hu' & Hin). simpl in Hu'. subst u'.
  exists row. split.
  - rewrite <- (dict_get_eqb u name _ Hun).
    apply In_dict_get; [exact Hkeys| |exact Hin].
    destruct Hset as [_ Hh]. rewrite Forall_forall in Hh. apply py_key_eqb_refl, Hh, Hu.
  - rewrite <- Hrows. apply in_map_iff. exists (u, row). auto.
Qed.

(** X18. When [_get_primitive_name_to_enc] returns, the mapping has
    [num_primitives] entries with pairwise different keys; its values are
    the rows of the identity matrix of that size, in order and each once, so
    different names have different one-hot encodings; every step name of the
    train data has an entry, and every key is such a name. *)
Theorem primitive_names_get_distinct_unit_vectors :
  length enc = n /\ keys_distinct enc /\
  map snd enc = map (identity_row n) (seq 0 n) /\ NoDup (map snd enc) /\
  (forall name, occurs_as_step_name train_data name ->
     exists row, dict_get name enc = Some row) /\
  (forall name row, In (name, row) enc -> occurs_as_step_name train_data name).
Proof using Henc.
  destruct name_to_enc_rows as (Hlen & Hkeys & Hrows).
  split; [exact Hlen|]. split; [exact Hkeys|]. split; [exact Hrows|].
  split; [rewrite Hrows; apply identity_rows_NoDup|]. split.
  - intros name Hocc. destruct (name_to_enc_lookup name Hocc) as (row & Hrow & _). eauto.
  - intros name row Hin.
    assert (Hk : In name (map fst enc)) by (apply in_map_iff; exists (name, row); auto).
    apply name_to_enc_keys in Hk. destruct Hk as (names & Hc & Hnames).
    assert (Hnil : is_set []) by (split; constructor).
    destruct (collect_names_spec _ _ _ Hc Hnil) as (_ & _ & _ & Hfrom).
    destruct (Hfrom name Hnames) as [[]|Hocc]. exact Hocc.
Qed.

End NameToEnc.

Lemma py_key_eqb_str (s : string) (b : json) :
  py_key_eqb (JStr s) b = true -> b = JStr s.
Proof.
  unfold py_key_eqb. simpl. destruct (py_number b) eqn:E; [discriminate|].
  destruct b; try discriminate. intros H. apply String.eqb_eq in H. congruence.
Qed.

Lemma assoc_get_str_items (d : pydict json) (s : string) :
  Forall (fun kv => is_str (fst kv) = true) d ->
  assoc_get s (str_items d) = dict_get (JStr s) d.
Proof.
  induction 1 as [|[k v] d Hk Hd IH]; simpl; [reflexivity|].
  simpl in Hk. destruct k; try discriminate. simpl.
  unfold py_key_eqb. simpl. destruct (String.eqb s0 s); [reflexivity|exact IH].
Qed.

Lemma mapM_Forall {A B : Type} (f : A -> result B) (P : B -> Prop) (l : list A) :
  (forall a, In a l -> exists b, f a = Ok b /\ P b) ->
  exists bs, mapM f l = Ok bs /\ Forall P bs.
Proof.
  induction l as [|a l IH]; intros H; simpl.
  - exists []. split; [reflexivity|constructor].
  - destruct (H a (or_introl eq_refl)) as (b & -> & Hb).
    destruct IH as (bs & -> & Hbs); [intros; apply H; right; assumption|].
    simpl. exists (b :: bs). split; [reflexivity|constructor; assumption].
Qed.

(** X19. With the mapping that [_get_primitive_name_to_enc] builds from the
    train data, step names being strs, [RNNDataset.encode_pipeline] raises
    no [KeyError] on a pipeline of the train data: its loop ends with one
    row of the identity matrix for each step, and the call is the conversion
    of this list of rows into a tensor. *)
Theorem train_pipelines_can_be_encoded {T : TorchTensor} (train_data : list json)
    (n : nat) (enc : pydict json) (instance pipeline : json) (device : string) :
  _get_primitive_name_to_enc train_data = Ok (n, enc) ->
  Forall (fun kv => is_str (fst kv) = true) enc ->
  In instance train_data ->
  py_getitem instance "pipeline" = Ok pipeline ->
  exists rows,
    encode_primitives (str_items enc) pipeline = Ok rows /\
    Forall (fun row => In row (map (identity_row n) (seq 0 n))) rows /\
    encode_pipeline (str_items enc) device pipeline = encoding_tensor device rows.
Proof.
  intros H Hstr Hi Hp.
  pose proof (name_to_enc_lookup train_data n enc H) as Hlook.
  destruct (get_primitive_name_to_enc_spec _ _ _ H)
    as (names & sorted & Hc & Hset & Hperm & Hn & Henc).
  assert (Hnil : is_set []) by (split; constructor).
  destruct (collect_names_spec _ _ _ Hc Hnil) as (_ & _ & Hall & _).
  destruct (Hall instance Hi) as (pl & steps & primitives & E1 & E2 & E3 & Hprim).
  assert (pl = pipeline) by congruence. subst pl.
  unfold encode_pipeline, encode_primitives. rewrite E2. simpl. rewrite E3. simpl.
  destruct (mapM_Forall
              (fun primitive => let* primitive_name := py_getitem primitive "name" in
                                enc_lookup (str_items enc) primitive_name)
              (fun row => In row (map (identity_row n) (seq 0 n))) primitives)
    as (rows & -> & Hrows).
  - intros p Hpin. destruct (Hprim p Hpin) as (name & Hname & _).
    rewrite Hname. simpl.
    destruct (Hlook name) as (row & Hrow & Hin).
    { exists instance, pipeline, steps, primitives, p. auto 10. }
    destruct (dict_get_In _ _ _ Hrow) as (g & Hg & Hgn).
    rewrite Forall_forall in Hstr. pose proof (Hstr _ Hg) as Hgs. simpl in Hgs.
    destruct g; try discriminate.
    apply py_key_eqb_str in Hgn. subst name.
    exists row. split; [|exact Hin].
    unfold enc_lookup. rewrite assoc_get_str_items by (apply Forall_forall; exact Hstr).
    rewrite Hrow. reflexivity.
  - simpl. exists rows. auto.
Qed.

(** ** The order of the encoded names *)

Lemma string_compare_refl (s : string) : (s ?= s)%string = Eq.
Proof.
  induction s as [|c s IH]; simpl; [reflexivity|].
  unfold Ascii.compare. rewrite N.compare_refl. exact IH.
Qed.

Lemma string_compare_lt_trans (a : string) :
  forall b c, (a ?= b)%string = Lt -> (b ?= c)%string = Lt -> (a ?= c)%string = Lt.
Proof.
  induction a as [|x a IH]; intros [|y b] [|z c]; simpl; try discriminate; auto.
  destruct (x ?= y)%char eqn:Exy; try discriminate.
  - apply Ascii.compare_eq_iff in Exy. subst y.
    destruct (x ?= z)%char; try discriminate; auto. apply IH.
  - intros _. destruct (y ?= z)%char eqn:Eyz; try discriminate.
    + apply Ascii.compare_eq_iff in Eyz. subst z. rewrite Exy. reflexivity.
    + intros _. unfold Ascii.compare in *.
      rewrite N.compare_lt_iff in *.
      assert (H : (N_of_ascii x < N_of_ascii z)%N) by (eapply N.lt_trans; eauto).
      apply N.compare_lt_iff in H. rewrite H. reflexivity.
Qed.

Lemma str_lt_irrefl (a : json) : ~ str_lt a a.
Proof.
  destruct a; simpl; auto. unfold String.ltb. rewrite string_compare_refl. discriminate.
Qed.

Lemma str_lt_trans (a b c : json) : str_lt a b -> str_lt b c -> str_lt a c.
Proof.
  destruct a, b, c; simpl; try tauto. unfold String.ltb.
  destruct (s ?= s0)%string eqn:E1; try discriminate.
  destruct (s0 ?= s1)%string eqn:E2; try discriminate.
  rewrite (string_compare_lt_trans _ _ _ E1 E2). reflexivity.
Qed.

Lemma py_lt_strs (a b : json) :
  is_str a = true -> is_str b = true -> a <> b ->
  (py_lt a b = Ok true /\ str_lt a b) \/ (py_lt a b = Ok false /\ str_lt b a).
Proof.
  destruct a as [| | | |s| |], b as [| | | |t| |]; simpl; try discriminate.
  intros _ _ Hne. unfold py_lt. simpl.
  unfold String.ltb. rewrite (String.compare_antisym t s).
  destruct (s ?= t)%string eqn:E; simpl.
  - apply String.compare_eq_iff in E. congruence.
  - left. split; reflexivity.
  - right. split; reflexivity.
Qed.

Lemma StronglySorted_unique {A : Type} (lt : A -> A -> Prop) :
  (forall x, ~ lt x x) -> (forall x y z, lt x y -> lt y z -> lt x z) ->
  forall l1 l2, StronglySorted lt l1 -> StronglySorted lt l2 ->
  (forall x, In x l1 <-> In x l2) -> l1 = l2.
Proof.
  intros Hirr Htr l1 l2 H1. revert l2.
  induction H1 as [|a l1 Hs1 IH Ha]; intros l2 H2 Hin.
  - destruct l2 as [|b l2]; [reflexivity|]. destruct (proj2 (Hin b) (or_introl eq_refl)).
  - destruct H2 as [|b l2 Hs2 Hb].
    + destruct (proj1 (Hin a) (or_introl eq_refl)).
    + rewrite Forall_forall in Ha, Hb.
      assert (Hab : a = b).
      { destruct (proj1 (Hin a) (or_introl eq_refl)) as [E|Ha2]; [congruence|].
        destruct (proj2 (Hin b) (or_introl eq_refl)) as [E|Hb1]; [congruence|].
        exfalso. apply (Hirr a). eapply Htr; [apply Ha, Hb1|apply Hb, Ha2]. }
      subst b. f_equal. apply IH; [exact Hs2|].
      intros x. split; intros Hx.
      * destruct (proj1 (Hin x) (or_intror Hx)) as [E|Hx2]; [|exact Hx2].
        subst x. exfalso. apply (Hirr a), Ha, Hx.
      * destruct (proj2 (Hin x) (or_intror Hx)) as [E|Hx1]; [|exact Hx1].
        subst x. exfalso. apply (Hirr a), Hb, Hx.
Qed.

Lemma insert_sorted_strs (v : json) (l : list json) :
  is_str v = true -> Forall (fun u => is_str u = true) l -> ~ In v l ->
  StronglySorted str_lt l ->
  exists l', insert_sorted v l = Ok l' /\ StronglySorted str_lt l'.
Proof.
  intros Hv. induction l as [|u l IH]; intros Hl Hnin Hs; simpl.
  - exists [v]. split; [reflexivity|]. repeat constructor.
  - inversion Hl as [|? ? Hu Hl']; subst.
    apply StronglySorted_inv in Hs. destruct Hs as [Hs Hul].
    destruct (py_lt_strs v u Hv Hu) as [[-> Hlt]|[-> Hlt]].
    + intros ->. apply Hnin. left. reflexivity.
    + simpl. exists (v :: u :: l). split; [reflexivity|].
      constructor; [constructor; assumption|]. constructor; [exact Hlt|].
      eapply Forall_impl; [|exact Hul]. intros x Hx. eapply str_lt_trans; eauto.
    + simpl. destruct IH as (l' & Hins & Hs'); auto.
      { intros Hin. apply Hnin. right. exact Hin. }
      rewrite Hins. simpl. exists (u :: l'). split; [reflexivity|].
      constructor; [exact Hs'|].
      pose proof (insert_sorted_Permutation _ _ _ Hins) as Hperm.
      eapply Permutation_Forall; [apply Permutation_sym; exact Hperm|].
      constructor; assumption.
Qed.

Lemma py_sorted_strs (l : list json) :
  Forall (fun u => is_str u = true) l -> NoDup l ->
  exists l', py_sorted l = Ok l' /\ StronglySorted str_lt l'.
Proof.
  induction l as [|v l IH]; intros Hl Hnd; simpl.
  - exists []. split; [reflexivity|constructor].
  - inversion Hl as [|? ? Hv Hl']; subst. inversion Hnd as [|? ? Hnin Hnd']; subst.
    destruct (IH Hl' Hnd') as (s & Hsl & Hs).
    pose proof (py_sorted_Permutation l s Hsl) as Hperm.
    rewrite Hsl. simpl.
    apply insert_sorted_strs; auto.
    + eapply Permutation_Forall; [apply Permutation_sym; exact Hperm|exact Hl'].
    + intros Hin. apply Hnin. eapply Permutation_in; [exact Hperm|exact Hin].
Qed.

Lemma is_set_NoDup (s : list json) : is_set s -> NoDup s.
Proof.
  intros [H1 H2]. induction H1 as [|a s Ha H1 IH]; constructor.
  - intros Hin. rewrite Forall_forall in Ha. specialize (Ha a Hin).
    inversion H2; subst. rewrite py_key_eqb_refl in Ha; [discriminate|assumption].
  - apply IH. inversion H2; assumption.
Qed.

Lemma add_names_returns (primitives : list json) :
  (forall primitive, In primitive primitives ->
     exists name, py_getitem primitive "name" = Ok name /\ py_hashable name = true) ->
  forall s, exists s', add_names primitives s = Ok s'.
Proof.
  induction primitives as [|p rest IH]; intros H s; simpl; [eauto|].
  destruct (H p (or_introl eq_refl)) as (name & -> & Hh). simpl.
  unfold set_add. rewrite Hh. simpl. apply IH.
  intros q Hq. apply H. right. exact Hq.
Qed.

Lemma collect_names_returns (train_data : list json) :
  (forall instance, In instance train_data ->
     exists pipeline steps primitives,
       py_getitem instance "pipeline" = Ok pipeline /\
       py_getitem pipeline "steps" = Ok steps /\
       py_iter steps = Ok primitives /\
       forall primitive, In primitive primitives ->
         exists name, py_getitem primitive "name" = Ok name /\ py_hashable name = true) ->
  forall s, exists s', collect_names train_data s = Ok s'.
Proof.
  induction train_data as [|i rest IH]; intros H s; simpl; [eauto|].
  destruct (H i (or_introl eq_refl)) as (pl & st & pr & -> & H2 & H3 & H4). simpl.
  rewrite H2. simpl. rewrite H3. simpl.
  destruct (add_names_returns pr H4 s) as (s1 & ->). simpl.
  apply IH. intros j Hj. apply H. right. exact Hj.
Qed.

Lemma occurs_as_step_name_ext (train_data train_data' : list json) (name : json) :
  (forall instance, In instance train_data -> In instance train_data') ->
  occurs_as_step_name train_data name -> occurs_as_step_name train_data' name.
Proof.
  intros Hsub (i & pl & st & pr & p & Hi & H1 & H2 & H3 & H4 & H5).
  exists i, pl, st, pr, p. repeat (split; [first [assumption | apply Hsub; assumption]|]).
  exact H5.
Qed.

(** X22. When step names are strs, the mapping of
    [_get_primitive_name_to_enc] depends on the set of records only: on any
    train data with the same records, in another order or with repetitions,
    the call returns the same [num_primitives] and the same mapping, because
    the names are sorted before the rows are handed out. *)
Theorem primitive_encoding_ignores_record_order (train_data train_data' : list json)
    (n : nat) (name_to_enc : pydict json) :
  _get_primitive_name_to_enc train_data = Ok (n, name_to_enc) ->
  Forall (fun kv => is_str (fst kv) = true) name_to_enc ->
  (forall instance, In instance train_data <-> In instance train_data') ->
  _get_primitive_name_to_enc train_data' = Ok (n, name_to_enc).
Proof.
  intros H Hstr Hsame.
  pose proof (name_to_enc_keys _ _ _ H) as Hkeys.
  assert (Hnil : is_set []) by (split; constructor).
  unfold _get_primitive_name_to_enc in H |- *.
  destruct (collect_names train_data []) as [names|] eqn:Hc; [|discriminate]. simpl in H.
  destruct (py_sorted names) as [sorted|] eqn:Hs; [|discriminate]. simpl in H.
  injection H as Hn Henc.
  destruct (collect_names_spec _ _ _ Hc Hnil) as (Hset & _ & Hall & Hfrom).
  assert (Hnstr : Forall (fun u => is_str u = true) names).
  { apply Forall_forall. intros u Hu. rewrite Forall_forall in Hstr.
    assert (Hin : In u (map fst name_to_enc)).
    { apply Hkeys. exists names. split; [reflexivity|exact Hu]. }
    apply in_map_iff in Hin. destruct Hin as (kv & <- & Hkv). apply Hstr, Hkv. }
  (* the names of the other list *)
  destruct (collect_names_returns train_data') with (s := @nil json) as (names' & Hc').
  { intros i Hi. apply Hsame in Hi.
    destruct (Hall i Hi) as (pl & st & pr & H1 & H2 & H3 & H4).
    exists pl, st, pr. repeat (split; [assumption|]).
    intros p Hp. destruct (H4 p Hp) as (name & Hname & u & _ & Hu).
    exists name. split; [exact Hname|].
    rewrite py_key_eqb_sym in Hu. eapply py_key_eqb_hashable; eauto. }
  destruct (collect_names_spec _ _ _ Hc' Hnil) as (Hset' & _ & Hall' & Hfrom').
  (* both name sets hold the same strs *)
  assert (Hto : forall u, In u names -> In u names').
  { intros u Hu. destruct (Hfrom u Hu) as [[]|Hocc].
    apply (occurs_as_step_name_ext _ train_data') in Hocc; [|intros; apply Hsame; assumption].
    destruct Hocc as (i & pl & st & pr & p & Hi & H1 & H2 & H3 & H4 & H5).
    destruct (Hall' i Hi) as (pl' & st' & pr' & H1' & H2' & H3' & H4').
    assert (pl' = pl) by congruence. subst pl'.
    assert (st' = st) by congruence. subst st'.
    assert (pr' = pr) by congruence. subst pr'.
    destruct (H4' p H4) as (name & Hname & w & Hw & Hwn).
    assert (name = u) by congruence. subst name.
    rewrite Forall_forall in Hnstr. specialize (Hnstr u Hu).
    destruct u; try discriminate. rewrite py_key_eqb_sym in Hwn.
    apply py_key_eqb_str in Hwn. subst w. exact Hw. }
  assert (Hback : forall u, In u names' -> In u names).
  { intros u Hu. destruct (Hfrom' u Hu) as [[]|Hocc].
    apply (occurs_as_step_name_ext _ train_data) in Hocc; [|intros; apply Hsame; assumption].
    destruct Hocc as (i & pl & st & pr & p & Hi & H1 & H2 & H3 & H4 & H5).
    destruct (Hall i Hi) as (pl' & st' & pr' & H1' & H2' & H3' & H4').
    assert (pl' = pl) by congruence. subst pl'.
    assert (st' = st) by congruence. subst st'.
    assert (pr' = pr) by congruence. subst pr'.
    destruct (H4' p H4) as (name & Hname & w & Hw & Hwn).
    assert (name = u) by congruence. subst name.
    rewrite Forall_forall in Hnstr. specialize (Hnstr w Hw).
    destruct w; try discriminate.
    apply py_key_eqb_str in Hwn. subst u. exact Hw. }
  assert (Hnstr' : Forall (fun u => is_str u = true) names').
  { apply Forall_forall. intros u Hu. rewrite Forall_forall in Hnstr.
    apply Hnstr, Hback, Hu. }
  (* both are sorted the same way *)
  destruct (py_sorted_strs names Hnstr (is_set_NoDup _ Hset)) as (sorted0 & Hs0 & Hsorted).
  assert (sorted0 = sorted) by congruence. subst sorted0.
  destruct (py_sorted_strs names' Hnstr' (is_set_NoDup _ Hset')) as (sorted' & Hs' & Hsorted').
  pose proof (py_sorted_Permutation _ _ Hs) as Hperm.
  pose proof (py_sorted_Permutation _ _ Hs') as Hperm'.
  assert (Heq : sorted' = sorted).
  { apply (StronglySorted_unique str_lt str_lt_irrefl str_lt_trans); auto.
    intros x. split; intros Hx.
    - eapply Permutation_in; [apply Permutation_sym; exact Hperm|].
      apply Hback. eapply Permutation_in; [exact Hperm'|exact Hx].
    - eapply Permutation_in; [apply Permutation_sym; exact Hperm'|].
      apply Hto. eapply Permutation_in; [exact Hperm|exact Hx]. }
  rewrite Hc'. simpl. rewrite Hs'. simpl. subst sorted'.
  assert (Hlen : length names' = length names).
  { rewrite <- (Permutation_length Hperm), <- (Permutation_length Hperm'). reflexivity. }
  rewrite Hlen, Henc, Hn. reflexivity.
Qed.

(** ** Dropping metafeatures with missing values *)

Lemma pop_all_filter (keys : list string) :
  forall instance : row,
  fold_left (fun inst key => dict_pop key inst) keys instance
  = filter (fun kv => negb (existsb (String.eqb (fst kv)) keys)) instance.
Proof.
  induction keys as [|key keys IH]; intros instance; simpl.
  - symmetry. apply forallb_filter_id. apply forallb_forall. reflexivity.
  - rewrite IH. unfold dict_pop.
    induction instance as [|[k v] instance IHi]; simpl; [reflexivity|].
    destruct (String.eqb k key); simpl; [exact IHi|].
    destruct (existsb (String.eqb k) keys); simpl; [exact IHi|]. f_equal. exact IHi.
Qed.

Lemma assoc_get_filter_out {V : Type} (p : string -> bool) (key : string)
    (d : list (string * V)) :
  p key = false -> assoc_get key (filter (fun kv => p (fst kv)) d) = None.
Proof.
  intros Hp. induction d as [|[k v] d IH]; simpl; [reflexivity|].
  destruct (p k) eqn:E; simpl; [|exact IH].
  destruct (String.eqb_spec k key) as [->|_]; [congruence|exact IH].
Qed.

Lemma assoc_get_filter_in {V : Type} (p : string -> bool) (key : string)
    (d : list (string * V)) :
  p key = true -> assoc_get key (filter (fun kv => p (fst kv)) d) = assoc_get key d.
Proof.
  intros Hp. induction d as [|[k v] d IH]; simpl; [reflexivity|].
  destruct (p k) eqn:E; simpl.
  - destruct (String.eqb k key); [reflexivity|exact IH].
  - destruct (String.eqb_spec k key) as [->|_]; [congruence|exact IH].
Qed.

Lemma existsb_eqb_In (key : string) (keys : list string) :
  existsb (String.eqb key) keys = true <-> In key keys.
Proof.
  rewrite existsb_exists. split.
  - intros (k & Hk & E). apply String.eqb_eq in E. subst. exact Hk.
  - intros H. exists key. split; [exact H|apply String.eqb_refl].
Qed.

(** X23. [predict] returns as many rows as it is given, and each of them is
    the row at the same position without the entries whose key is in
    [values_to_drop]: the other keys are kept in their order, with their
    values. *)
Theorem DropMissingValues_predict_drops_listed_keys (self : DropMissingValues)
    (data : list row) (m : store) :
  length (DropMissingValues_predict self data m) = length data /\
  forall i instance, nth_error data i = Some instance ->
    exists instance',
      nth_error (DropMissingValues_predict self data m) i = Some instance' /\
      map fst instance'
      = filter (fun key => negb (existsb (String.eqb key) (deref m (values_to_drop self))))
               (map fst instance) /\
      (forall key, In key (deref m (values_to_drop self)) ->
         assoc_get key instance' = None) /\
      (forall key, ~ In key (deref m (values_to_drop self)) ->
         assoc_get key instance' = assoc_get key instance).
Proof.
  unfold DropMissingValues_predict. split; [apply length_map|].
  intros i instance Hi. eexists. split.
  - rewrite nth_error_map, Hi. reflexivity.
  - rewrite pop_all_filter. split; [|split; intros key Hk].
    + clear Hi. induction instance as [|[k v] instance IH]; simpl; [reflexivity|].
      destruct (existsb (String.eqb k) (deref m (values_to_drop self))); simpl;
        [exact IH|f_equal; exact IH].
    + apply (assoc_get_filter_out
               (fun k => negb (existsb (String.eqb k) (deref m (values_to_drop self))))).
      apply negb_false_iff, existsb_eqb_In, Hk.
    + apply (assoc_get_filter_in
               (fun k => negb (existsb (String.eqb k) (deref m (values_to_drop self))))).
      apply negb_true_iff. destruct (existsb _ _) eqn:E; [|reflexivity].
      apply existsb_eqb_In in E. contradiction.
Qed.

Section Sharing.
Variable isna_any : list row -> list (string * bool).

Lemma fit_loop_spec (columns : list (string * bool)) :
  forall l : list string,
  fold_left (fun l (kb : string * bool) => if snd kb then l ++ [fst kb] else l) columns l
  = l ++ map fst (filter snd columns).
Proof.
  induction columns as [|[k b] columns IH]; intros l; simpl.
  - rewrite app_nil_r. reflexivity.
  - rewrite IH. destruct b; simpl; [rewrite <- app_assoc|]; reflexivity.
Qed.

Lemma deref_fit (self : DropMissingValues) (data : list row) (m : store) (a : nat) :
  values_to_drop self < length m ->
  deref (DropMissingValues_fit isna_any self data m) a
  = if a =? values_to_drop self
    then deref m a ++ map fst (filter snd (isna_any data))
    else deref m a.
Proof.
  intros Hlt. unfold DropMissingValues_fit, deref. rewrite fit_loop_spec.
  destruct (Nat.eqb_spec a (values_to_drop self)) as [->|Hne].
  - apply nth_error_nth. apply nth_error_list_set_eq. exact Hlt.
  - assert (H : nth_error (list_set (values_to_drop self)
                  (nth (values_to_drop self) m [] ++ map fst (filter snd (isna_any data))) m) a
                = nth_error m a) by (apply nth_error_list_set_ne; congruence).
    destruct (nth_error m a) as [l|] eqn:E.
    + rewrite (nth_error_nth _ _ _ H). symmetry. apply nth_error_nth. exact E.
    + apply nth_error_None in E. rewrite !nth_overflow; auto.
      rewrite list_set_length. exact E.
Qed.

(** X24. Instances of [DropMissingValues] created without an argument share
    one list [values_to_drop], and [fit] only ever appends to it: a column
    that the first instance found missing in its data is in the list of a
    second instance after that one was fitted on other data, and [predict]
    of the second instance removes it from every row. *)
Theorem DropMissingValues_default_list_is_shared (default : nat) (m : store)
    (data1 data2 data : list row) (key : string) :
  default < length m ->
  In (key, true) (isna_any data1) ->
  let first := DropMissingValues_init default None in
  let second := DropMissingValues_init default None in
  let m1 := DropMissingValues_fit isna_any first data1 m in
  let m2 := DropMissingValues_fit isna_any second data2 m1 in
  In key (deref m2 (values_to_drop second)) /\
  forall instance, In instance (DropMissingValues_predict second data m2) ->
    assoc_get key instance = None.
Proof.
  intros Hlt Hkey. simpl.
  set (first := DropMissingValues_init default None).
  assert (Hin : In key (deref (DropMissingValues_fit isna_any first data2
                                 (DropMissingValues_fit isna_any first data1 m))
                              (values_to_drop first))).
  { rewrite deref_fit; [|unfold DropMissingValues_fit; rewrite list_set_length; exact Hlt].
    rewrite Nat.eqb_refl. apply in_or_app. left.
    rewrite deref_fit; [|exact Hlt]. rewrite Nat.eqb_refl. apply in_or_app. right.
    apply in_map_iff. exists (key, true). split; [reflexivity|].
    apply filter_In. split; [exact Hkey|reflexivity]. }
  split; [exact Hin|].
  intros instance Hinst. unfold DropMissingValues_predict in Hinst.
  apply in_map_iff in Hinst. destruct Hinst as (instance0 & <- & _).
  rewrite pop_all_filter.
  apply (assoc_get_filter_out
           (fun k => negb (existsb (String.eqb k)
              (deref (DropMissingValues_fit isna_any first data2
                        (DropMissingValues_fit isna_any first data1 m))
                     (values_to_drop first))))).
  apply negb_false_iff, existsb_eqb_In, Hin.
Qed.

End Sharing.

(** ** The further properties on examples *)

Lemma example_key_path_present : key_path_present Example.records "pipeline.id".
Proof.
  intros obj Hin. simpl in Hin.
  repeat (destruct Hin as [<-|Hin]; [eexists; split; reflexivity|]).
  destruct Hin.
Qed.

Lemma group_json_objects_raises_first_error_witness :
  group_json_objects MoreExamples.broken_records "pipeline.id" = Err (KeyError "pipeline") /\
  (KeyError "pipeline" = TypeError \/
   exists key_part, In key_part (py_split "." "pipeline.id") /\
                    KeyError "pipeline" = KeyError key_part).
Proof.
  apply (group_json_objects_raises_first_error MoreExamples.broken_records "pipeline.id"
           5 (JDict [])).
  - reflexivity.
  - reflexivity.
  - intros i o Hi Hn.
    do 5 (destruct i as [|i]; [injection Hn as <-; eexists; reflexivity|]). lia.
Defined.

Lemma group_json_objects_first_occurrence_order_witness :
  StronglySorted lt (first_indices Example.grouped) /\
  forall g l, In (g, l) Example.grouped ->
    exists first rest, l = first :: rest /\
      in_group "pipeline.id" Example.records g first = true /\
      forall j, j < first -> in_group "pipeline.id" Example.records g j = false.
Proof.
  apply (group_json_objects_first_occurrence_order Example.records "pipeline.id"
           Example.grouped).
  reflexivity.
Defined.

Lemma encode_dag_ignores_vertex_boundaries_witness :
  encode_dag [[RefIndex 1; RefIndex 2]; [RefIndex 3]]
  = encode_dag [[RefIndex 1]; [RefIndex 2; RefIndex 3]; []].
Proof. apply encode_dag_ignores_vertex_boundaries. reflexivity. Defined.

Lemma recursive_get_output_no_inputs_exits_witness :
  recursive_get_output ExampleTorch.tensor ExampleTorch.identity_units
    ExampleTorch.leaky_relu ExampleTorch.torch_cat 1000 ExampleTorch.h1
    MoreExamples.orphan (RefIndex 0)
  = ([PrintError UnboundLocalError; PrintStep {| name := "a"; inputs := [] |}],
     SystemExit 1).
Proof.
  apply (recursive_get_output_no_inputs_exits ExampleTorch.tensor
           ExampleTorch.identity_units ExampleTorch.leaky_relu ExampleTorch.torch_cat
           999 ExampleTorch.h1 MoreExamples.orphan (RefIndex 0)
           {| name := "a"; inputs := [] |} (fun t => Ok t)); reflexivity.
Defined.



Lemma forward_empty_pipeline_raises_witness :
  forward ExampleTorch.tensor ExampleTorch.identity_units ExampleTorch.leaky_relu
    ExampleTorch.torch_cat ExampleTorch.tensor ExampleTorch.identity_model
    ExampleTorch.identity_model 1000 (JList [], ([], ExampleTorch.sound), ExampleTorch.h1)
  = ([PrintError IndexError], Raise IndexError).
Proof.
  apply (forward_empty_pipeline_raises ExampleTorch.tensor ExampleTorch.identity_units
           ExampleTorch.leaky_relu ExampleTorch.torch_cat ExampleTorch.tensor
           ExampleTorch.identity_model ExampleTorch.identity_model
           999 (JList []) ExampleTorch.sound ExampleTorch.h1 ExampleTorch.h1).
  reflexivity.
Defined.

Lemma first_yielded_In {R : PyRandom} {item yielded : Type}
    (emit : json -> list json -> list item -> result yielded)
    (constructed : result (GroupDataLoader item)) (k : nat)
    (l : GroupDataLoader item) records e l' :
  constructed = Ok l ->
  full_pass emit (after_passes emit k l) = (records, e, l') ->
  first_yielded emit constructed k <> None ->
  exists r, In r records.
Proof.
  intros -> Hpass. unfold first_yielded. rewrite Hpass.
  destruct records as [|r records]; simpl.
  - intros H. exfalso. apply H. reflexivity.
  - intros _. exists r. left. reflexivity.
Qed.

Lemma example_first_yielded :
  first_yielded (@GroupDataLoader_emit Example.tensors) (Example.loader 1) 1 <> None.
Proof. vm_compute. discriminate. Qed.

Lemma example_dropping_loader_ok : is_ok (MoreExamples.dropping_loader 1) = true.
Proof. vm_compute. reflexivity. Qed.

Lemma yielded_batches_respect_batch_size_witness :
  exists loader records e loader',
    Example.loader 1 = Ok loader /\
    full_pass (@GroupDataLoader_emit Example.tensors)
      (after_passes (@GroupDataLoader_emit Example.tensors) 1 loader)
      = (records, e, loader') /\
    Forall (fun r => 0 < length (br_indices r) <= 2 /\
                     (false = true -> length (br_indices r) = 2)) records.
Proof.
  destruct (is_ok_Ok (Example.loader 1) example_loader_ok) as [loader Hinit].
  destruct (full_pass (@GroupDataLoader_emit Example.tensors)
      (after_passes (@GroupDataLoader_emit Example.tensors) 1 loader))
    as [[records e] loader'] eqn:Hpass.
  exists loader, records, e, loader'. split; [exact Hinit|]. split; [exact Hpass|].
  exact (yielded_batches_respect_batch_size (R := MT.mt_random) _
           Example.records "pipeline.id"
           (@Dataset_getitem Example.tensors "metafeatures" "test_f1_macro" "REGRESSION"
              "cpu") 2 false true 1
           loader Hinit _ (@GroupDataLoader_emit Example.tensors) 1 records e loader' Hpass).
Defined.

Lemma small_group_is_never_yielded_witness :
  exists loader records e loader',
    MoreExamples.dropping_loader 1 = Ok loader /\
    full_pass (@GroupDataLoader_emit Example.tensors)
      (after_passes (@GroupDataLoader_emit Example.tensors) 1 loader)
      = (records, e, loader') /\
    batches_of (JStr "q") records = [].
Proof.
  destruct (is_ok_Ok (MoreExamples.dropping_loader 1) example_dropping_loader_ok)
    as [loader Hinit].
  destruct (full_pass (@GroupDataLoader_emit Example.tensors)
      (after_passes (@GroupDataLoader_emit Example.tensors) 1 loader))
    as [[records e] loader'] eqn:Hpass.
  exists loader, records, e, loader'. split; [exact Hinit|]. split; [exact Hpass|].
  apply (small_group_is_never_yielded (R := MT.mt_random) _
           Example.records "pipeline.id"
           (@Dataset_getitem Example.tensors "metafeatures" "test_f1_macro" "REGRESSION"
              "cpu") 3 true true 1
           loader Hinit _ (@GroupDataLoader_emit Example.tensors) 1 records e loader' Hpass
           Example.grouped (JStr "q") [1; 3]).
  - reflexivity.
  - right. left. reflexivity.
  - reflexivity.
  - simpl. lia.
Defined.

Lemma yielded_batch_holds_records_of_its_group_witness :
  exists loader records e loader' r,
    Example.loader 1 = Ok loader /\
    full_pass (@GroupDataLoader_emit Example.tensors)
      (after_passes (@GroupDataLoader_emit Example.tensors) 1 loader)
      = (records, e, loader') /\
    In r records /\
    exists grouped group_indices items x_batch y_batch first pipeline,
      group_json_objects Example.records "pipeline.id" = Ok grouped /\
      dict_get (br_group r) grouped = Some group_indices /\
      (forall j, In j (br_indices r) -> j < length group_indices) /\
      mapM (@Dataset_getitem Example.tensors "metafeatures" "test_f1_macro" "REGRESSION"
              "cpu" Example.records)
           (original_indices group_indices (br_indices r)) = Ok items /\
      @torch_stack Example.tensors (map fst items) = Ok x_batch /\
      @torch_stack Example.tensors (map snd items) = Ok y_batch /\
      list_getitem Example.records (hd 0 group_indices) = Ok first /\
      py_getitem first "pipeline" = Ok pipeline /\
      br_value r = (br_group r, pipeline, x_batch, y_batch).
Proof.
  destruct (is_ok_Ok (Example.loader 1) example_loader_ok) as [loader Hinit].
  destruct (full_pass (@GroupDataLoader_emit Example.tensors)
      (after_passes (@GroupDataLoader_emit Example.tensors) 1 loader))
    as [[records e] loader'] eqn:Hpass.
  destruct (first_yielded_In (@GroupDataLoader_emit Example.tensors) (Example.loader 1) 1
              loader records e loader' Hinit Hpass example_first_yielded) as [r Hr].
  exists loader, records, e, loader', r.
  split; [exact Hinit|]. split; [exact Hpass|]. split; [exact Hr|].
  exact (yielded_batch_holds_records_of_its_group (R := MT.mt_random)
           (T := Example.tensors)
           Example.records "pipeline.id" "metafeatures" "test_f1_macro" "REGRESSION" "cpu"
           2 false true 1 loader Hinit 1 records e loader' Hpass r Hr).
Defined.

Lemma RNNDataLoader_keeps_structure_of_first_record_witness :
  exists rnn, Example.rnn_loader 1 = Ok rnn /\
  exists grouped,
    group_json_objects Example.records "pipeline.id" = Ok grouped /\
    forall g group_indices, In (g, group_indices) grouped ->
      exists structure,
        dict_get g (pipeline_structures rnn) = Some structure /\
        group_structure_of Example.records group_indices = Ok structure /\
        forall items dataset,
          @RNNDataLoader_emit Example.tensors (pipeline_structures rnn) g dataset items
          = let* batch := @collate_triples Example.tensors items in
            Ok (structure, fst (fst batch), snd (fst batch), snd batch).
Proof.
  destruct (is_ok_Ok (Example.rnn_loader 1) example_rnn_loader_ok) as [rnn Hinit].
  exists rnn. split; [exact Hinit|].
  exact (RNNDataLoader_keeps_structure_of_first_record (R := MT.mt_random)
           (T := Example.tensors)
           Example.records "pipeline.id" "metafeatures" "test_f1_macro" "REGRESSION" "cpu"
           Example.prim_to_enc 2 false true 1 rnn Hinit).
Defined.

Lemma split_data_partitions_the_records_witness :
  exists train_data test_data,
    split_data (R := MT.mt_random) Example.records "pipeline.id" 1 0
      = Ok (train_data, test_data) /\
    Permutation (train_data ++ test_data) Example.records.
Proof.
  apply (split_data_partitions_the_records (R := MT.mt_random)
           Example.records "pipeline.id" 1 0).
  exact example_key_path_present.
Defined.

Lemma example_split :
  split_data (R := MT.mt_random) Example.records "pipeline.id" 1 0
  = Ok (MoreExamples.train_data, MoreExamples.test_data).
Proof. vm_compute. reflexivity. Qed.

Lemma split_data_keeps_groups_together_witness :
  py_key_eqb (JStr "q") (JStr "p") = false.
Proof.
  apply (split_data_keeps_groups_together (R := MT.mt_random)
           Example.records "pipeline.id" 1 0 MoreExamples.train_data MoreExamples.test_data
           example_split (Example.record "q" 1) (Example.record "p" 0)).
  - left. reflexivity.
  - left. reflexivity.
  - reflexivity.
  - reflexivity.
Defined.

Lemma split_data_test_size_counts_groups_witness :
  exists grouped test_groups,
    group_json_objects Example.records "pipeline.id" = Ok grouped /\
    length test_groups = py_slice_bound (length grouped) 1 /\
    NoDup test_groups /\ incl test_groups (map fst grouped) /\
    forall obj, In obj Example.records ->
      (In obj MoreExamples.test_data <->
       exists g, In g test_groups /\ belongs "pipeline.id" g obj = true).
Proof.
  exact (split_data_test_size_counts_groups (R := MT.mt_random)
           Example.records "pipeline.id" 1 0 MoreExamples.train_data MoreExamples.test_data
           example_split).
Defined.

Lemma group_data_is_stable_witness :
  exists grouped grouped_data,
    group_json_objects Example.records "pipeline.id" = Ok grouped /\
    _group_data Example.records "pipeline.id" = Ok grouped_data /\
    map fst grouped_data = map fst grouped /\
    keys_distinct grouped_data /\
    forall g records, In (g, records) grouped_data ->
      records <> [] /\ records = filter (belongs "pipeline.id" g) Example.records.
Proof.
  apply (group_data_is_stable Example.records "pipeline.id").
  exact example_key_path_present.
Defined.

Lemma example_name_to_enc :
  _get_primitive_name_to_enc [MoreExamples.two_steps; MoreExamples.two_steps]
  = Ok (2, MoreExamples.name_to_enc).
Proof. reflexivity. Qed.

Lemma primitive_names_get_distinct_unit_vectors_witness :
  length MoreExamples.name_to_enc = 2 /\ keys_distinct MoreExamples.name_to_enc /\
  map snd MoreExamples.name_to_enc = map (identity_row 2) (seq 0 2) /\
  NoDup (map snd MoreExamples.name_to_enc) /\
  (forall name,
     occurs_as_step_name [MoreExamples.two_steps; MoreExamples.two_steps] name ->
     exists row, dict_get name MoreExamples.name_to_enc = Some row) /\
  (forall name row, In (name, row) MoreExamples.name_to_enc ->
     occurs_as_step_name [MoreExamples.two_steps; MoreExamples.two_steps] name).
Proof.
  exact (primitive_names_get_distinct_unit_vectors
           [MoreExamples.two_steps; MoreExamples.two_steps] 2 MoreExamples.name_to_enc
           example_name_to_enc).
Defined.

Lemma train_pipelines_can_be_encoded_witness :
  exists rows,
    encode_primitives (str_items MoreExamples.name_to_enc)
      (JDict [ ("id", JStr "r");
               ("steps", JList [ JDict [ ("name", JStr "b");
                                         ("inputs", JList [JStr "inputs.0"]) ];
                                 JDict [ ("name", JStr "a");
                                         ("inputs", JList [JInt 0]) ] ]) ])
    = Ok rows /\
    Forall (fun row => In row (map (identity_row 2) (seq 0 2))) rows /\
    @encode_pipeline Example.tensors (str_items MoreExamples.name_to_enc) "cpu"
      (JDict [ ("id", JStr "r");
               ("steps", JList [ JDict [ ("name", JStr "b");
                                         ("inputs", JList [JStr "inputs.0"]) ];
                                 JDict [ ("name", JStr "a");
                                         ("inputs", JList [JInt 0]) ] ]) ])
    = @encoding_tensor Example.tensors "cpu" rows.
Proof.
  apply (train_pipelines_can_be_encoded (T := Example.tensors)
           [MoreExamples.two_steps; MoreExamples.two_steps] 2 MoreExamples.name_to_enc
           MoreExamples.two_steps).
  - exact example_name_to_enc.
  - repeat constructor.
  - left. reflexivity.
  - reflexivity.
Defined.

Lemma GroupDataLoader_init_returns_witness :
  key_path_present Example.records "pipeline.id" /\ 0 < 2 /\
  exists loader, Example.loader 1 = Ok loader.
Proof.
  split; [exact example_key_path_present|]. split; [lia|].
  apply (GroupDataLoader_init_returns (R := MT.mt_random) Example.records 2 false true
           _ "pipeline.id"
           (@Dataset_getitem Example.tensors "metafeatures" "test_f1_macro" "REGRESSION"
              "cpu") 1).
  - exact example_key_path_present.
  - lia.
Defined.

Lemma example_unshuffled_loader_ok : is_ok (MoreExamples.unshuffled_loader 1) = true.
Proof. vm_compute. reflexivity. Qed.

Lemma example_unshuffled_pass_is_full :
  pass_is_full (@GroupDataLoader_emit Example.tensors) (MoreExamples.unshuffled_loader 1) 1 = true.
Proof. vm_compute. reflexivity. Qed.

Lemma unshuffled_pass_keeps_input_order_witness :
  exists loader records e loader' dropped,
    MoreExamples.unshuffled_loader 1 = Ok loader /\
    full_pass (@GroupDataLoader_emit Example.tensors)
      (after_passes (@GroupDataLoader_emit Example.tensors) 1 loader)
      = (records, e, loader') /\
    original_indices [0; 2; 4] (concat (batches_of (JStr "p") records)) ++ dropped
    = [0; 2; 4] /\
    length dropped = 0.
Proof.
  destruct (is_ok_Ok (MoreExamples.unshuffled_loader 1) example_unshuffled_loader_ok)
    as [loader Hinit].
  destruct (full_pass (@GroupDataLoader_emit Example.tensors)
      (after_passes (@GroupDataLoader_emit Example.tensors) 1 loader))
    as [[records e] loader'] eqn:Hpass.
  pose proof (pass_is_full_length (@GroupDataLoader_emit Example.tensors) (MoreExamples.unshuffled_loader 1) 1
                loader records e loader' Hinit Hpass example_unshuffled_pass_is_full) as Hfull.
  destruct (unshuffled_pass_keeps_input_order (R := MT.mt_random) _ _
              Example.records "pipeline.id"
              (@Dataset_getitem Example.tensors "metafeatures" "test_f1_macro" "REGRESSION"
              "cpu") 2 false 1
              loader Hinit (@GroupDataLoader_emit Example.tensors) 1 records e loader' Hpass
              Example.grouped (JStr "p") [0; 2; 4]) as (dropped & H).
  - reflexivity.
  - left. reflexivity.
  - exact Hfull.
  - exists loader, records, e, loader', dropped. split; [exact Hinit|].
    split; [exact Hpass|]. exact H.
Defined.

Lemma example_name_to_enc_of_two :
  _get_primitive_name_to_enc [MoreExamples.two_steps; MoreExamples.a_then_b]
  = Ok (2, MoreExamples.name_to_enc).
Proof. reflexivity. Qed.

Lemma primitive_encoding_ignores_record_order_witness :
  _get_primitive_name_to_enc [MoreExamples.two_steps; MoreExamples.a_then_b]
  = Ok (2, MoreExamples.name_to_enc) /\
  _get_primitive_name_to_enc [MoreExamples.a_then_b; MoreExamples.two_steps]
  = Ok (2, MoreExamples.name_to_enc).
Proof.
  split; [exact example_name_to_enc_of_two|].
  apply (primitive_encoding_ignores_record_order
           [MoreExamples.two_steps; MoreExamples.a_then_b]
           [MoreExamples.a_then_b; MoreExamples.two_steps]).
  - exact example_name_to_enc_of_two.
  - repeat constructor.
  - intros instance. simpl. tauto.
Defined.

Lemma DropMissingValues_default_list_is_shared_witness :
  In "b" (deref (DropMissingValues_fit MoreExamples.report
                   (DropMissingValues_init 0 None) MoreExamples.complete_rows
                   (DropMissingValues_fit MoreExamples.report
                      (DropMissingValues_init 0 None) MoreExamples.rows [[]]))
                0) /\
  forall instance,
    In instance
       (DropMissingValues_predict (DropMissingValues_init 0 None) MoreExamples.complete_rows
          (DropMissingValues_fit MoreExamples.report
             (DropMissingValues_init 0 None) MoreExamples.complete_rows
             (DropMissingValues_fit MoreExamples.report
                (DropMissingValues_init 0 None) MoreExamples.rows [[]]))) ->
    assoc_get "b" instance = None.
Proof.
  apply (DropMissingValues_default_list_is_shared MoreExamples.report 0 [[]]
           MoreExamples.rows MoreExamples.complete_rows MoreExamples.complete_rows "b").
  - simpl. lia.
  - right. left. reflexivity.
Defined.
